(** * Intent classifier and feedback log: a shallow embedding

    Embedding of [src/ml/intent_classifier.py] and [src/ml/server.py].

    - Python text ([str]) is a list of Unicode code points.
    - Python [float] is an IEEE-754 value ([spec_float]); binary64 for Python
      floats, binary32 for the arithmetic numpy performs on embeddings.
    - Values that travel through JSON are [pyval].
    - The sentence encoder and the two numpy reductions are external
      collaborators, collected in the record [SentenceTransformer].
    - The file system, the clock, the module globals and the object heap are
      explicit state ([World]). *)

From Stdlib Require Import ZArith NArith PArith List Bool Lia.
From Stdlib Require Import Ascii String.
From Stdlib Require Import Floats.SpecFloat.
Import ListNotations.

Set Implicit Arguments.
Local Open Scope Z_scope.

(* ================================================================== *)
(** ** Text *)

(** A Python [str]: a sequence of code points. *)
Definition char := N.
Definition str := list char.

(** A literal of the source, code point by code point. *)
Definition lit (s : string) : str :=
  List.map N_of_ascii (list_ascii_of_string s).

Arguments lit : simpl never.

Definition char_eqb (a b : char) : bool := N.eqb a b.

Fixpoint str_eqb (a b : str) : bool :=
  match a, b with
  | [], [] => true
  | x :: a', y :: b' => char_eqb x y && str_eqb a' b'
  | _, _ => false
  end.

(** Named code points. *)
Definition c_tab : char := 9%N.
Definition c_nl : char := 10%N.
Definition c_cr : char := 13%N.
Definition c_space : char := 32%N.
Definition c_dquote : char := 34%N.
Definition c_plus : char := 43%N.
Definition c_comma : char := 44%N.
Definition c_minus : char := 45%N.
Definition c_dot : char := 46%N.
Definition c_slash : char := 47%N.
Definition c_zero : char := 48%N.
Definition c_colon : char := 58%N.
Definition c_E : char := 69%N.
Definition c_lbracket : char := 91%N.
Definition c_backslash : char := 92%N.
Definition c_rbracket : char := 93%N.
Definition c_e : char := 101%N.
Definition c_u : char := 117%N.
Definition c_lbrace : char := 123%N.
Definition c_rbrace : char := 125%N.

(** Decimal digits. *)
Definition is_digit (c : char) : bool := (48 <=? c)%N && (c <=? 57)%N.
Definition digit_val (c : char) : Z := Z.of_N c - 48.
Definition digit_char (d : Z) : char := Z.to_N (d + 48).

(** [n] written in base ten with exactly [w] digits (low digits kept). *)
Fixpoint pad_digits (w : nat) (n : Z) : str :=
  match w with
  | O => []
  | S w' => pad_digits w' (n / 10) ++ [digit_char (n mod 10)]
  end.

(** Decimal digits of a non-negative integer, most significant first. *)
Fixpoint digits_acc (fuel : nat) (n : Z) (acc : str) : str :=
  match fuel with
  | O => acc
  | S fuel' =>
      let acc' := digit_char (n mod 10) :: acc in
      if n / 10 =? 0 then acc' else digits_acc fuel' (n / 10) acc'
  end.

Definition nat_repr (n : Z) : str := digits_acc (S (Z.to_nat (Z.log2 n))) n [].

Definition ndigits10 (n : Z) : nat := List.length (nat_repr n).

(** [str(n)] for a Python [int]. *)
Definition int_repr (n : Z) : str :=
  if n <? 0 then c_minus :: nat_repr (- n) else nat_repr n.

(* ================================================================== *)
(** ** Floats *)

Module Float.

Definition float := spec_float.

(** binary64, the Python [float]. *)
Definition prec : Z := 53.
Definition emax : Z := 1024.

(** binary32, the dtype of the embeddings. *)
Definition prec32 : Z := 24.
Definition emax32 : Z := 128.

Definition zero : float := S754_zero false.
Definition nan : float := S754_nan.
Definition inf : float := S754_infinity false.
Definition neg_inf : float := S754_infinity true.

Definition is_nan (x : float) : bool :=
  match x with S754_nan => true | _ => false end.

(** Python comparison operators on floats. *)
Definition gt (a b : float) : bool := SFltb b a.
Definition ge (a b : float) : bool := SFleb b a.
Definition eq (a b : float) : bool := SFeqb a b.

(** The binary64 value nearest to [n / d] (ties to even). *)
Definition of_frac (neg : bool) (n d : positive) : float :=
  let '(mz, ez, lz) := SFdiv_core_binary prec emax (Zpos n) 0 (Zpos d) 0 in
  binary_round_aux prec emax neg mz ez lz.

(** [float(n)] for a Python [int]. *)
Definition of_int (n : Z) : float := binary_normalize prec emax n 0 false.

(** The binary64 value nearest to [m * 10 ^ e], for [m > 0]. *)
Definition of_decimal (neg : bool) (m : positive) (e : Z) : float :=
  if 400 <? e + Z.of_nat (ndigits10 (Zpos m)) then S754_infinity neg
  else if e + Z.of_nat (ndigits10 (Zpos m)) <? -400 then S754_zero neg
  else if 0 <=? e then binary_normalize prec emax
                         (if neg then - (Zpos m * 10 ^ e) else Zpos m * 10 ^ e) 0 neg
  else of_frac neg m (Z.to_pos (10 ^ (- e))).

(** [a / b] for Python ints with [b <> 0] (true division). *)
Definition truediv (a b : Z) : float :=
  match a, b with
  | Z0, _ => S754_zero false
  | Zpos n, Zpos d => of_frac false n d
  | Zneg n, Zpos d => of_frac true n d
  | Zpos n, Zneg d => of_frac true n d
  | Zneg n, Zneg d => of_frac false n d
  | _, Z0 => S754_nan
  end.

(** Round half to even of the rational [n / d], [d > 0]. *)
Definition round_half_even (n d : Z) : Z :=
  let q := n / d in
  let r := n mod d in
  match 2 * r ?= d with
  | Lt => q
  | Gt => q + 1
  | Eq => if Z.even q then q else q + 1
  end.

(** [round(x, k)] on a float: the exact binary value is rounded to [k]
    decimals (ties to even), and the decimal result converted back. *)
Definition round (x : float) (k : nat) : float :=
  match x with
  | S754_finite s m e =>
      let p := 10 ^ Z.of_nat k in
      let r := if 0 <=? e
               then Zpos m * 2 ^ e * p
               else round_half_even (Zpos m * p) (2 ^ (- e)) in
      match r with
      | Zpos r' => of_frac s r' (Z.to_pos p)
      | _ => S754_zero s
      end
  | _ => x
  end.

(** *** [repr] of a float: the shortest decimal that reads back *)

(** Bitwise identity of two values (both zeros, both infinities of a sign,
    or the same mantissa and exponent). *)
Definition same (x y : float) : bool :=
  match x, y with
  | S754_zero a, S754_zero b => Bool.eqb a b
  | S754_infinity a, S754_infinity b => Bool.eqb a b
  | S754_nan, S754_nan => true
  | S754_finite a m e, S754_finite b n f =>
      Bool.eqb a b && Pos.eqb m n && Z.eqb e f
  | _, _ => false
  end.

(** Numerator and denominator of [m * 2 ^ e * 10 ^ s]. *)
Definition scaled_num (m : positive) (e s : Z) : Z :=
  Zpos m * (if 0 <=? e then 2 ^ e else 1) * (if 0 <=? s then 10 ^ s else 1).
Definition scaled_den (e s : Z) : Z :=
  (if 0 <=? e then 1 else 2 ^ (- e)) * (if 0 <=? s then 1 else 10 ^ (- s)).

(** Position of the decimal point: [10 ^ (k - 1) <= m * 2 ^ e < 10 ^ k]. *)
Definition decpt (m : positive) (e : Z) : Z :=
  let bits := Zpos (digits2_pos m) + e in
  let k := (bits - 1) * 30103 / 100000 + 1 in
  let ge j := scaled_den e (- j) <=? scaled_num m e (- j) in
  if ge k then k + 1 else if ge (k - 1) then k else k - 1.

Definition reads_back (m : positive) (e : Z) (c s : Z) : bool :=
  match c with
  | Zpos c' => same (of_decimal false c' (- s)) (S754_finite false m e)
  | _ => false
  end.

(** Search for the least number [p] of significant digits for which one
    of the two [p]-digit neighbours of [m * 2 ^ e] reads back; at 17
    digits the nearest neighbour is taken.  Result [(c, q)] stands for
    [c * 10 ^ q]. *)
Fixpoint shortest (fuel : nat) (p : Z) (m : positive) (e k : Z) : Z * Z :=
  let s := p - k in
  let n := scaled_num m e s in
  let d := scaled_den e s in
  let lo := n / d in
  let hi := lo + 1 in
  let lo_nearer :=
    match 2 * (n mod d) ?= d with
    | Lt => true
    | Gt => false
    | Eq => Z.even lo
    end in
  match fuel with
  | O => (if lo_nearer then lo else hi, - s)
  | S fuel' =>
      match reads_back m e lo s, reads_back m e hi s with
      | true, true => (if lo_nearer then lo else hi, - s)
      | true, false => (lo, - s)
      | false, true => (hi, - s)
      | false, false => shortest fuel' (p + 1) m e k
      end
  end.

(** Drop trailing zero digits of [c * 10 ^ q]. *)
Fixpoint strip_zeros (fuel : nat) (c q : Z) : Z * Z :=
  match fuel with
  | O => (c, q)
  | S fuel' =>
      if (c mod 10 =? 0) && negb (c =? 0)
      then strip_zeros fuel' (c / 10) (q + 1) else (c, q)
  end.

Definition zeros (n : nat) : str := List.repeat c_zero n.

(** The digits [ds] with the decimal point after the first [k] of them
    ([float_repr_style = 'short'], format code ['r']). *)
Definition format_short (ds : str) (k : Z) : str :=
  let n := Z.of_nat (List.length ds) in
  if (-4 <? k) && (k <=? 16) then
    if k <=? 0 then
      c_zero :: c_dot :: zeros (Z.to_nat (- k)) ++ ds
    else if n <=? k then
      ds ++ zeros (Z.to_nat (k - n)) ++ [c_dot; c_zero]
    else
      List.firstn (Z.to_nat k) ds ++ c_dot :: List.skipn (Z.to_nat k) ds
  else
    let x := k - 1 in
    let mant :=
      match ds with
      | [] => []
      | [d] => [d]
      | d :: rest => d :: c_dot :: rest
      end in
    let xs := nat_repr (Z.abs x) in
    mant ++ c_e :: (if x <? 0 then c_minus else c_plus)
         :: (if Z.abs x <? 10 then c_zero :: xs else xs).

(** [repr(x)] for a finite or zero float. *)
Definition repr_finite (x : float) : str :=
  match x with
  | S754_zero s => (if s then [c_minus] else []) ++ lit "0.0"
  | S754_finite s m e =>
      let k := decpt m e in
      let '(c, q) := shortest 16 1 m e k in
      let '(c', q') := strip_zeros 17 c q in
      (if s then [c_minus] else [])
        ++ match c' with
           | Zpos _ =>
               let ds := nat_repr c' in
               format_short ds (Z.of_nat (List.length ds) + q')
           | _ => lit "0.0"    (* the search ends on a positive integer *)
           end
  | _ => []
  end.

End Float.

(* ================================================================== *)
(** ** Python values and exceptions *)

(** The values that [json.loads] produces and [json.dumps] accepts. *)
#[warnings="-register-all"] Inductive pyval :=
| VNone
| VBool (b : bool)
| VInt (n : Z)
| VFloat (f : Float.float)
| VStr (s : str)
| VList (l : list pyval)
| VDict (d : list (str * pyval)).

Inductive exn :=
| ValueError
| TypeError
| AttributeError
| JSONDecodeError.

Inductive result (A : Type) :=
| Ok (a : A)
| Raise (e : exn).
Arguments Ok {A} a.
Arguments Raise {A} e.

Definition bind {A B : Type} (m : result A) (k : A -> result B) : result B :=
  match m with
  | Ok a => k a
  | Raise e => Raise e
  end.

Notation "x <- m ;; k" := (bind m (fun x => k))
  (at level 61, m at next level, right associativity).
Notation "' p <- m ;; k" := (bind m (fun x => match x with p => k end))
  (at level 61, p pattern, m at next level, right associativity).

(** A [dict] with [str] keys keeps insertion order; keys are unique. *)
Fixpoint dict_lookup {A : Type} (k : str) (d : list (str * A)) : option A :=
  match d with
  | [] => None
  | (k', v) :: d' => if str_eqb k k' then Some v else dict_lookup k d'
  end.

(** [d[k] = v]: replaces in place, or appends a new key. *)
Fixpoint dict_set {A : Type} (k : str) (v : A) (d : list (str * A))
  : list (str * A) :=
  match d with
  | [] => [(k, v)]
  | (k', v') :: d' =>
      if str_eqb k k' then (k', v) :: d' else (k', v') :: dict_set k v d'
  end.

(** [d.get(k, default)]. *)
Definition dict_get (d : list (str * pyval)) (k : str) (default : pyval)
  : pyval :=
  match dict_lookup k d with
  | Some v => v
  | None => default
  end.

(** [v.get(k, default)] on an arbitrary value: only a [dict] has [get]. *)
Definition py_get (v : pyval) (k : str) (default : pyval) : result pyval :=
  match v with
  | VDict d => Ok (dict_get d k default)
  | _ => Raise AttributeError
  end.

(** Truth value ([if v:], [not v]). *)
Definition truthy (v : pyval) : bool :=
  match v with
  | VNone => false
  | VBool b => b
  | VInt n => negb (n =? 0)
  | VFloat f => match f with S754_zero _ => false | _ => true end
  | VStr s => match s with [] => false | _ => true end
  | VList l => match l with [] => false | _ => true end
  | VDict d => match d with [] => false | _ => true end
  end.

(** Exact comparison of a float with an int. *)
Definition float_eq_int (f : Float.float) (n : Z) : bool :=
  match f with
  | S754_zero _ => n =? 0
  | S754_finite s m e =>
      let a := if s then Zneg m else Zpos m in
      if 0 <=? e then n =? a * 2 ^ e
      else (a mod 2 ^ (- e) =? 0) && (n =? a / 2 ^ (- e))
  | _ => false
  end.

Definition int_of_bool (b : bool) : Z := if b then 1 else 0.

(** The object [json.decoder.NaN]: one object, hence identical to itself. *)
Definition both_nan (a b : pyval) : bool :=
  match a, b with
  | VFloat x, VFloat y => Float.is_nan x && Float.is_nan y
  | _, _ => false
  end.

(** [a == b].  Containers compare their items by identity first and by
    [==] next; among values read from JSON the only object that is
    identical but not equal to itself is the NaN constant. *)
Fixpoint py_eq (a b : pyval) {struct a} : bool :=
  match a, b with
  | VNone, VNone => true
  | VBool x, VBool y => Bool.eqb x y
  | VBool x, VInt y => int_of_bool x =? y
  | VInt x, VBool y => x =? int_of_bool y
  | VInt x, VInt y => x =? y
  | VBool x, VFloat y => float_eq_int y (int_of_bool x)
  | VFloat x, VBool y => float_eq_int x (int_of_bool y)
  | VInt x, VFloat y => float_eq_int y x
  | VFloat x, VInt y => float_eq_int x y
  | VFloat x, VFloat y => Float.eq x y
  | VStr x, VStr y => str_eqb x y
  | VList x, VList y =>
      (fix items (x y : list pyval) {struct x} : bool :=
         match x, y with
         | [], [] => true
         | u :: x', v :: y' => (both_nan u v || py_eq u v) && items x' y'
         | _, _ => false
         end) x y
  | VDict x, VDict y =>
      Nat.eqb (List.length x) (List.length y) &&
      (fix items (x : list (str * pyval)) {struct x} : bool :=
         match x with
         | [] => true
         | (k, u) :: x' =>
             match dict_lookup k y with
             | Some v => (both_nan u v || py_eq u v) && items x'
             | None => false
             end
         end) x
  | _, _ => false
  end.

(** [round(v, k)] with [k] given: floats round to floats, ints (and bools,
    which are ints) to ints; anything else has no [__round__]. *)
Definition py_round (v : pyval) (k : nat) : result pyval :=
  match v with
  | VFloat f => Ok (VFloat (Float.round f k))
  | VInt n => Ok (VInt n)
  | VBool b => Ok (VInt (int_of_bool b))
  | _ => Raise TypeError
  end.

(* ================================================================== *)
(** ** The encoder and numpy *)

(** The external collaborators of [classify]: the sentence encoder and the
    two numpy reductions applied to its vectors. *)
Record SentenceTransformer := {
  vec : Type;
  encode : str -> vec;                  (* model.encode(text) *)
  np_dot : vec -> vec -> Float.float;   (* one row of np.dot(rows, emb) *)
  np_norm : vec -> Float.float;         (* np.linalg.norm of one vector *)
}.

(** float32 arithmetic, element by element. *)
Definition f32_mul (a b : Float.float) : Float.float :=
  SFmul Float.prec32 Float.emax32 a b.
Definition f32_div (a b : Float.float) : Float.float :=
  SFdiv Float.prec32 Float.emax32 a b.

(** [np.maximum]: NaN wins, otherwise the larger. *)
Definition np_maximum (a b : Float.float) : Float.float :=
  if Float.is_nan a then a
  else if Float.is_nan b then b
  else if Float.ge a b then a else b.

(** [np.max] of a one-dimensional array; an empty one raises. *)
Definition np_max (xs : list Float.float) : result Float.float :=
  match xs with
  | [] => Raise ValueError
  | x :: xs' => Ok (List.fold_left np_maximum xs' x)
  end.

(* ================================================================== *)
(** ** IntentClassifier.classify *)

Section Classify.

Variable model : SentenceTransformer.

(** [self.example_embeddings]: intent -> rows, in insertion order. *)
Definition embeddings := list (str * list (vec model)).

(** [np.dot(example_embs, emb) /
     (np.linalg.norm(example_embs, axis=1) * np.linalg.norm(emb))] *)
Definition cosine_sims (example_embs : list (vec model)) (emb : vec model)
  : list Float.float :=
  List.map
    (fun row =>
       f32_div (np_dot model row emb)
               (f32_mul (np_norm model row) (np_norm model emb)))
    example_embs.

(** [float(np.max(sims))]: the conversion to binary64 is exact. *)
Definition max_sim (example_embs : list (vec model)) (emb : vec model)
  : result Float.float :=
  np_max (cosine_sims example_embs emb).

(** The [for] loop of [classify], with its two loop variables. *)
Fixpoint classify_loop (items : embeddings) (emb : vec model)
         (best_intent : str) (best_score : Float.float)
  : result (str * Float.float) :=
  match items with
  | [] => Ok (best_intent, best_score)
  | (intent, example_embs) :: rest =>
      m <- max_sim example_embs emb ;;
      if Float.gt m best_score
      then classify_loop rest emb intent m
      else classify_loop rest emb best_intent best_score
  end.

Definition classify (example_embeddings : embeddings) (transcript : str)
  : result (str * Float.float) :=
  let emb := encode model transcript in
  classify_loop example_embeddings emb (lit "unknown") Float.zero.

End Classify.

Arguments classify_loop : clear implicits.
Arguments classify : clear implicits.

(* ================================================================== *)
(** ** The json module *)

Module Json.

(** *** json.dumps (default options: [ensure_ascii], [", "] and [": "]) *)

Definition hex_char (d : N) : char :=
  if (d <? 10)%N then (48 + d)%N else (87 + d)%N.

(** [\uXXXX], lower-case hexadecimal. *)
Definition u_escape (c : N) : str :=
  [c_backslash; c_u;
   hex_char (c / 4096 mod 16)%N; hex_char (c / 256 mod 16)%N;
   hex_char (c / 16 mod 16)%N; hex_char (c mod 16)%N].

Definition escape_char (c : char) : str :=
  if (c =? 34)%N then [c_backslash; c_dquote]
  else if (c =? 92)%N then [c_backslash; c_backslash]
  else if (c =? 10)%N then [c_backslash; 110%N]
  else if (c =? 13)%N then [c_backslash; 114%N]
  else if (c =? 9)%N then [c_backslash; 116%N]
  else if (c =? 8)%N then [c_backslash; 98%N]
  else if (c =? 12)%N then [c_backslash; 102%N]
  else if (32 <=? c)%N && (c <=? 126)%N then [c]
  else if (c <? 65536)%N then u_escape c
  else
    let v := (c - 65536)%N in
    u_escape (55296 + v / 1024 mod 1024)%N ++ u_escape (56320 + v mod 1024)%N.

(** [encode_basestring_ascii]. *)
Definition encode_str (s : str) : str :=
  c_dquote :: List.flat_map escape_char s ++ [c_dquote].

(** [float.__repr__], with the three constants json writes itself. *)
Definition encode_float (f : Float.float) : str :=
  match f with
  | S754_nan => lit "NaN"
  | S754_infinity false => lit "Infinity"
  | S754_infinity true => lit "-Infinity"
  | _ => Float.repr_finite f
  end.

(** [", ".join(items)]. *)
Fixpoint join (items : list str) : str :=
  match items with
  | [] => []
  | [x] => x
  | x :: rest => x ++ c_comma :: c_space :: join rest
  end.

Fixpoint dumps (v : pyval) : str :=
  match v with
  | VNone => lit "null"
  | VBool true => lit "true"
  | VBool false => lit "false"
  | VInt n => int_repr n
  | VFloat f => encode_float f
  | VStr s => encode_str s
  | VList l => c_lbracket :: join (List.map dumps l) ++ [c_rbracket]
  | VDict d =>
      c_lbrace
        :: join (List.map
                   (fun kv => encode_str (fst kv) ++ c_colon :: c_space
                                :: dumps (snd kv)) d)
        ++ [c_rbrace]
  end.

(** *** json.loads *)

Definition is_ws (c : char) : bool :=
  (c =? 32)%N || (c =? 9)%N || (c =? 10)%N || (c =? 13)%N.

Fixpoint skip_ws (s : str) : str :=
  match s with
  | c :: r => if is_ws c then skip_ws r else s
  | [] => []
  end.

Definition hex_val (c : char) : option N :=
  if (48 <=? c)%N && (c <=? 57)%N then Some (c - 48)%N
  else if (97 <=? c)%N && (c <=? 102)%N then Some (c - 87)%N
  else if (65 <=? c)%N && (c <=? 70)%N then Some (c - 55)%N
  else None.

Definition hex4 (a b c d : char) : option N :=
  match hex_val a, hex_val b, hex_val c, hex_val d with
  | Some x, Some y, Some z, Some w =>
      Some (((x * 16 + y) * 16 + z) * 16 + w)%N
  | _, _, _, _ => None
  end.

Definition is_high_surrogate (c : N) : bool :=
  (55296 <=? c)%N && (c <=? 56319)%N.
Definition is_low_surrogate (c : N) : bool :=
  (56320 <=? c)%N && (c <=? 57343)%N.
Definition join_surrogates (hi lo : N) : N :=
  (65536 + (hi - 55296) * 1024 + (lo - 56320))%N.

(** One-letter escapes. *)
Definition backslash_escape (e : char) : option char :=
  if (e =? 34)%N then Some 34%N
  else if (e =? 92)%N then Some 92%N
  else if (e =? 47)%N then Some 47%N
  else if (e =? 98)%N then Some 8%N
  else if (e =? 102)%N then Some 12%N
  else if (e =? 110)%N then Some 10%N
  else if (e =? 114)%N then Some 13%N
  else if (e =? 116)%N then Some 9%N
  else None.

Definition push (c : char) (r : option (str * str)) : option (str * str) :=
  match r with
  | Some (x, rest) => Some (c :: x, rest)
  | None => None
  end.

(** [scanstring] in strict mode, from just after the opening quote; gives
    the decoded text and what follows the closing quote. *)
Fixpoint scanstring (s : str) : option (str * str) :=
  match s with
  | [] => None
  | c :: r =>
      if (c =? 34)%N then Some ([], r)
      else if (c =? 92)%N then
        match r with
        | [] => None
        | e :: r1 =>
            if (e =? 117)%N then
              match r1 with
              | h1 :: h2 :: h3 :: h4 :: r2 =>
                  match hex4 h1 h2 h3 h4 with
                  | None => None
                  | Some u =>
                      if is_high_surrogate u then
                        match r2 with
                        | b :: l :: g1 :: g2 :: g3 :: g4 :: r3 =>
                            if (b =? 92)%N && (l =? 117)%N then
                              match hex4 g1 g2 g3 g4 with
                              | None => None
                              | Some u2 =>
                                  if is_low_surrogate u2
                                  then push (join_surrogates u u2)
                                            (scanstring r3)
                                  else push u (scanstring r2)
                              end
                            else push u (scanstring r2)
                        | _ => push u (scanstring r2)
                        end
                      else push u (scanstring r2)
                  end
              | _ => None
              end
            else
              match backslash_escape e with
              | Some x => push x (scanstring r1)
              | None => None
              end
        end
      else if (c <? 32)%N then None
      else push c (scanstring r)
  end.

(** The longest prefix of decimal digits. *)
Fixpoint span_digits (s : str) : str * str :=
  match s with
  | c :: r =>
      if is_digit c
      then let '(d, r') := span_digits r in (c :: d, r')
      else ([], s)
  | [] => ([], [])
  end.

Definition digits_val (ds : str) : Z :=
  List.fold_left (fun a c => a * 10 + digit_val c) ds 0.

(** [float(text)] for a literal with integer digits [ip], fraction digits
    [fp] and decimal exponent [x]. *)
Definition float_of_literal (neg : bool) (ip fp : str) (x : Z)
  : Float.float :=
  match digits_val (ip ++ fp) with
  | Zpos m => Float.of_decimal neg m (x - Z.of_nat (List.length fp))
  | _ => S754_zero neg
  end.

(** Optional [(\.[0-9]+)]. *)
Definition scan_frac (s : str) : str * str :=
  match s with
  | d :: x :: r =>
      if (d =? 46)%N && is_digit x then span_digits (x :: r) else ([], s)
  | _ => ([], s)
  end.

(** Optional [([eE][-+]?[0-9]+)]. *)
Definition scan_exp (s : str) : option Z * str :=
  match s with
  | e :: r =>
      if (e =? 101)%N || (e =? 69)%N then
        match r with
        | sg :: r' =>
            if (sg =? 43)%N || (sg =? 45)%N then
              match span_digits r' with
              | ([], _) => (None, s)
              | (xd, r'') =>
                  (Some (if (sg =? 45)%N then - digits_val xd
                         else digits_val xd), r'')
              end
            else
              match span_digits r with
              | ([], _) => (None, s)
              | (xd, r'') => (Some (digits_val xd), r'')
              end
        | [] => (None, s)
        end
      else (None, s)
  | [] => (None, s)
  end.

(** NUMBER_RE: an optional minus, then [0] or a digit run that does not
    start with [0], then the optional fraction and exponent. *)
Definition scan_number (s : str) : option (pyval * str) :=
  let '(neg, s1) :=
    match s with
    | c :: r => if (c =? 45)%N then (true, r) else (false, s)
    | [] => (false, s)
    end in
  match s1 with
  | c :: r =>
      if is_digit c then
        let '(ip, r1) := if (c =? 48)%N then ([c], r) else span_digits s1 in
        let '(fp, r2) := scan_frac r1 in
        let '(ex, r3) := scan_exp r2 in
        match fp, ex with
        | [], None =>
            Some (VInt (if neg then - digits_val ip else digits_val ip), r3)
        | _, None => Some (VFloat (float_of_literal neg ip fp 0), r3)
        | _, Some x => Some (VFloat (float_of_literal neg ip fp x), r3)
        end
      else None
  | [] => None
  end.

(** [s] starts with the literal [w]: what follows it. *)
Fixpoint strip_prefix (w s : str) : option str :=
  match w, s with
  | [], _ => Some s
  | a :: w', b :: s' => if char_eqb a b then strip_prefix w' s' else None
  | _ :: _, [] => None
  end.

Inductive presult :=
| POk (v : pyval) (rest : str)
| PErr
| PFuel.

Definition constant (w : string) (v : pyval) (s : str) : presult :=
  match strip_prefix (lit w) s with
  | Some r => POk v r
  | None => PErr
  end.

(** [scan_once], [JSONArray] and [JSONObject].  The recursion of the
    three is bounded by [fuel]; see [json_fuel]. *)
Fixpoint parse_value (fuel : nat) (s : str) {struct fuel} : presult :=
  match fuel with
  | O => PFuel
  | S fuel' =>
      match s with
      | [] => PErr
      | c :: r =>
          if (c =? 34)%N then
            match scanstring r with
            | Some (x, r') => POk (VStr x) r'
            | None => PErr
            end
          else if (c =? 123)%N then
            match skip_ws r with
            | c' :: r' =>
                if (c' =? 125)%N then POk (VDict []) r'
                else parse_members fuel' [] (c' :: r')
            | [] => PErr
            end
          else if (c =? 91)%N then
            match skip_ws r with
            | c' :: r' =>
                if (c' =? 93)%N then POk (VList []) r'
                else parse_elements fuel' [] (c' :: r')
            | [] => PErr
            end
          else if (c =? 110)%N then constant "null" VNone s
          else if (c =? 116)%N then constant "true" (VBool true) s
          else if (c =? 102)%N then constant "false" (VBool false) s
          else if (c =? 78)%N then constant "NaN" (VFloat Float.nan) s
          else if (c =? 73)%N then constant "Infinity" (VFloat Float.inf) s
          else
            match strip_prefix (lit "-Infinity") s with
            | Some r' => POk (VFloat Float.neg_inf) r'
            | None =>
                match scan_number s with
                | Some (v, r') => POk v r'
                | None => PErr
                end
            end
      end
  end

with parse_elements (fuel : nat) (acc : list pyval) (s : str)
     {struct fuel} : presult :=
  match fuel with
  | O => PFuel
  | S fuel' =>
      match parse_value fuel' s with
      | POk v r =>
          match skip_ws r with
          | c :: r' =>
              if (c =? 93)%N then POk (VList (List.rev (v :: acc))) r'
              else if (c =? 44)%N
                   then parse_elements fuel' (v :: acc) (skip_ws r')
                   else PErr
          | [] => PErr
          end
      | e => e
      end
  end

with parse_members (fuel : nat) (acc : list (str * pyval)) (s : str)
     {struct fuel} : presult :=
  match fuel with
  | O => PFuel
  | S fuel' =>
      match s with
      | q :: r0 =>
          if (q =? 34)%N then
            match scanstring r0 with
            | Some (key, r1) =>
                match skip_ws r1 with
                | c :: r2 =>
                    if (c =? 58)%N then
                      match parse_value fuel' (skip_ws r2) with
                      | POk v r3 =>
                          match skip_ws r3 with
                          | c' :: r4 =>
                              if (c' =? 125)%N
                              then POk (VDict (dict_set key v acc)) r4
                              else if (c' =? 44)%N
                                   then parse_members fuel'
                                          (dict_set key v acc) (skip_ws r4)
                                   else PErr
                          | [] => PErr
                          end
                      | e => e
                      end
                    else PErr
                | [] => PErr
                end
            | None => PErr
            end
          else PErr
      | [] => PErr
      end
  end.

(** Enough fuel for any input: every nested call consumes a character. *)
Definition json_fuel (s : str) : nat := S (2 * List.length s).

(** [json.loads(s)]: optional whitespace, one value, optional whitespace,
    end of text. *)
Definition loads (s : str) : result pyval :=
  match parse_value (json_fuel s) (skip_ws s) with
  | POk v r =>
      match skip_ws r with
      | [] => Ok v
      | _ :: _ => Raise JSONDecodeError
      end
  | _ => Raise JSONDecodeError
  end.

End Json.

(* ================================================================== *)
(** ** Files, clock and objects *)

(** A [pathlib.Path], as the pieces it was joined from. *)
Definition Path := list str.

Definition path_eqb (p q : Path) : bool :=
  (fix go (p q : Path) : bool :=
     match p, q with
     | [], [] => true
     | a :: p', b :: q' => str_eqb a b && go p' q'
     | _, _ => false
     end) p q.

(** Regular files and their text; [None] where no file exists. *)
Definition filesystem := Path -> option str.

(** [open(p, "a")] followed by [write(data)]: creates the file if needed. *)
Definition append_file (fs : filesystem) (p : Path) (data : str) : filesystem :=
  fun q =>
    if path_eqb q p then
      match fs p with
      | Some old => Some (old ++ data)
      | None => Some data
      end
    else fs q.

(** Text mode reading with universal newlines: [\r\n] and [\r] become
    [\n]. *)
Fixpoint universal_newlines (s : str) : str :=
  match s with
  | [] => []
  | c :: r =>
      if (c =? 13)%N then
        match r with
        | d :: r' =>
            if (d =? 10)%N then c_nl :: universal_newlines r'
            else c_nl :: universal_newlines r
        | [] => [c_nl]
        end
      else c :: universal_newlines r
  end.

(** The lines a file object yields: each keeps its newline; a last line
    without one is yielded too. *)
Fixpoint lines_from (cur : str) (s : str) : list str :=
  match s with
  | [] => match cur with [] => [] | _ :: _ => [cur] end
  | c :: r =>
      if (c =? 10)%N then (cur ++ [c]) :: lines_from [] r
      else lines_from (cur ++ [c]) r
  end.

Definition file_lines (content : str) : list str :=
  lines_from [] (universal_newlines content).

(** A naive [datetime]. *)
Record datetime := {
  year : Z; month : Z; day : Z;
  hour : Z; minute : Z; second : Z; microsecond : Z;
}.

(** [datetime.isoformat()]: the fraction is written only when non-zero. *)
Definition isoformat (t : datetime) : str :=
  pad_digits 4 (year t) ++ c_minus :: pad_digits 2 (month t)
    ++ c_minus :: pad_digits 2 (day t)
    ++ 84%N :: pad_digits 2 (hour t)
    ++ c_colon :: pad_digits 2 (minute t)
    ++ c_colon :: pad_digits 2 (second t)
    ++ (if microsecond t =? 0 then []
        else c_dot :: pad_digits 6 (microsecond t)).

(** One bucket of [by_intent]. *)
Record bucket := { b_total : Z; b_correct : Z }.

(** The dict returned by [get_training_stats]. *)
Record Stats := {
  total : Z;
  accuracy : pyval;
  by_intent : list (pyval * bucket);
}.

(** The local variables of the loop of [get_training_stats]. *)
Record counters := {
  c_total : Z;
  c_correct : Z;
  c_by_intent : list (pyval * bucket);
}.

(** What a handler did: the response sent, the state left behind, and the
    transcripts handed to [classifier.classify]. *)
Record Response := { status : Z; data : pyval }.

(** Keys of a dict: lists and dicts are unhashable. *)
Definition hashable (v : pyval) : bool :=
  match v with
  | VList _ | VDict _ => false
  | _ => true
  end.

(** Key comparison of a dict lookup: identity, then [==]. *)
Definition key_eq (a b : pyval) : bool := both_nan a b || py_eq a b.

Fixpoint bucket_lookup (k : pyval) (d : list (pyval * bucket))
  : option bucket :=
  match d with
  | [] => None
  | (k', b) :: d' => if key_eq k' k then Some b else bucket_lookup k d'
  end.

(** Update of the bucket stored under an existing key. *)
Fixpoint bucket_update (k : pyval) (f : bucket -> bucket)
         (d : list (pyval * bucket)) : list (pyval * bucket) :=
  match d with
  | [] => []
  | (k', b) :: d' =>
      if key_eq k' k then (k', f b) :: d' else (k', b) :: bucket_update k f d'
  end.

Definition incr_total (b : bucket) : bucket :=
  {| b_total := b_total b + 1; b_correct := b_correct b |}.
Definition incr_correct (b : bucket) : bucket :=
  {| b_total := b_total b; b_correct := b_correct b + 1 |}.

(** The body of the [try] of [get_training_stats] for one line.  The
    bare [except: pass] swallows whatever is raised; the assignments made
    before the raise stay. *)
Definition stats_step (st : counters) (line : str) : counters :=
  match Json.loads line with
  | Raise _ => st
  | Ok sample =>
      (* total += 1 *)
      let st := {| c_total := c_total st + 1; c_correct := c_correct st;
                   c_by_intent := c_by_intent st |} in
      match py_get sample (lit "correct") VNone with
      | Raise _ => st
      | Ok correct =>
          (* if sample.get("correct"): correct += 1 *)
          let st := if truthy correct
                    then {| c_total := c_total st;
                            c_correct := c_correct st + 1;
                            c_by_intent := c_by_intent st |}
                    else st in
          match py_get sample (lit "user_label") (VStr (lit "unknown")) with
          | Raise _ => st
          | Ok label =>
              (* label not in by_intent: hashes the label *)
              if negb (hashable label) then st
              else
                let by0 := c_by_intent st in
                let by1 := match bucket_lookup label by0 with
                           | None =>
                               by0 ++ [(label, {| b_total := 0;
                                                  b_correct := 0 |})]
                           | Some _ => by0
                           end in
                let by2 := bucket_update label incr_total by1 in
                let by3 := if truthy correct
                           then bucket_update label incr_correct by2
                           else by2 in
                {| c_total := c_total st; c_correct := c_correct st;
                   c_by_intent := by3 |}
          end
      end
  end.

Definition counters0 : counters :=
  {| c_total := 0; c_correct := 0; c_by_intent := [] |}.

(** The whole loop over the lines of the log. *)
Definition scan_log (content : str) : counters :=
  List.fold_left stats_step (file_lines content) counters0.

(** The seed phrases of [__init__]. *)
Definition seed_examples : list (str * list str) :=
  [ (lit "add_wish",
     List.map lit ["I wish we had"; "would be nice if"; "can we add";
                   "idea for"; "we should build"; "it would help if";
                   "we need a way to"; "feature request"]%string);
    (lit "log_issue",
     List.map lit ["there's a bug"; "broken"; "error when"; "fails to";
                   "not working"; "crashed"; "exception in";
                   "something wrong with"]%string);
    (lit "log_friction",
     List.map lit ["annoying that"; "keeps happening"; "painful to";
                   "frustrating"; "slows me down"; "every time I have to";
                   "tedious"; "friction point"]%string);
    (lit "log_crit",
     List.map lit ["I noticed"; "observation"; "the design feels";
                   "UI looks"; "feels off"; "visually"; "the layout";
                   "spacing seems"]%string);
    (lit "record_learning",
     List.map lit ["I learned"; "TIL"; "figured out"; "turns out";
                   "the trick is"; "gotcha"; "lesson learned";
                   "discovered that"]%string);
    (lit "search",
     List.map lit ["find"; "where is"; "show me"; "look up"; "search for";
                   "what is the status of"]%string);
    (lit "ask_oracle",
     List.map lit ["what should I work on"; "project status"; "roadmap";
                   "health check"; "priorities"; "next actions"]%string) ].

(* ================================================================== *)
(** ** IntentClassifier, the singleton and the HTTP handlers *)

Section Service.

(** The pretrained model every instance loads
    ([SentenceTransformer('all-MiniLM-L6-v2')]). *)
Variable model : SentenceTransformer.

(** What [classify] does with a transcript that is not text; it depends
    on the internals of the encoder and is left open. *)
Variable classify_nontext : pyval -> result (str * Float.float).

(** [str(e)] of a caught exception. *)
Variable exn_message : exn -> str.

(** The attributes of an instance. *)
Record IntentClassifier := {
  examples : list (str * list str);
  example_embeddings : embeddings model;
  training_log : Path;
}.

(** The state of the process and of its surroundings. *)
Record World := {
  files : filesystem;
  utcnow : datetime;                 (* what [datetime.utcnow()] returns *)
  heap : list IntentClassifier;      (* objects; a reference is an index *)
  _classifier : option nat;          (* [intent_classifier._classifier] *)
  classifier : option nat;           (* [server.classifier] *)
}.

(** [IntentClassifier.__init__]. *)
Definition init (data_root : option str) : IntentClassifier :=
  {| examples := seed_examples;
     example_embeddings :=
       List.map (fun ip => (fst ip, List.map (encode model) (snd ip)))
                seed_examples;
     training_log :=
       match data_root with
       | Some (c :: root) =>
           [c :: root; lit ".decibel"; lit "ml";
            lit "training_samples.jsonl"]
       | _ => [lit ".decibel/ml/training_samples.jsonl"]
       end |}.

(** [self.classify(transcript)] on any value. *)
Definition classify_method (self : IntentClassifier) (transcript : pyval)
  : result (str * Float.float) :=
  match transcript with
  | VStr t => classify model (example_embeddings self) t
  | other => classify_nontext other
  end.

(** [self.log_sample(...)]: [None] is returned, the file grows. *)
Definition log_sample (self : IntentClassifier)
           (transcript user_label predicted confidence was_overridden : pyval)
           (w : World) : result World :=
  c <- py_round confidence 4 ;;
  let sample :=
    VDict [ (lit "transcript", transcript);
            (lit "user_label", user_label);
            (lit "predicted", predicted);
            (lit "confidence", c);
            (lit "correct", VBool (py_eq user_label predicted));
            (lit "was_overridden", was_overridden);
            (lit "ts", VStr (isoformat (utcnow w) ++ lit "Z")) ] in
  Ok {| files := append_file (files w) (training_log self)
                             (Json.dumps sample ++ [c_nl]);
        utcnow := utcnow w; heap := heap w;
        _classifier := _classifier w; classifier := classifier w |}.

(** [self.get_training_stats()]. *)
Definition get_training_stats (self : IntentClassifier) (w : World)
  : Stats :=
  match files w (training_log self) with
  | None => {| total := 0; accuracy := VInt 0; by_intent := [] |}
  | Some content =>
      let st := scan_log content in
      {| total := c_total st;
         accuracy :=
           if 0 <? c_total st
           then VFloat (Float.round
                          (Float.truediv (c_correct st) (c_total st)) 3)
           else VInt 0;
         by_intent := c_by_intent st |}
  end.

(** [get_classifier(data_root)]: the reference held by the module global,
    created on first use. *)
Definition get_classifier (data_root : option str) (w : World)
  : nat * World :=
  match _classifier w with
  | None =>
      let r := List.length (heap w) in
      (r, {| files := files w; utcnow := utcnow w;
             heap := heap w ++ [init data_root];
             _classifier := Some r; classifier := classifier w |})
  | Some r => (r, w)
  end.

(** The part of [main] that binds [server.classifier]. *)
Definition main_startup (data_root : option str) (w : World) : World :=
  let '(r, w') := get_classifier data_root w in
  {| files := files w'; utcnow := utcnow w'; heap := heap w';
     _classifier := _classifier w'; classifier := Some r |}.

(** The object behind the global [classifier] of the server. *)
Definition the_classifier (w : World) : result IntentClassifier :=
  match classifier w with
  | Some r =>
      match List.nth_error (heap w) r with
      | Some obj => Ok obj
      | None => Raise AttributeError
      end
  | None => Raise AttributeError
  end.

Record Outcome := {
  response : Response;
  world : World;
  classified : list pyval;
}.

Definition error_body (msg : str) : pyval := VDict [(lit "error", VStr msg)].

Definition server_error (e : exn) : Response :=
  {| status := 500; data := error_body (exn_message e) |}.

(** [_handle_classify], given the text of the request body. *)
Definition handle_classify (body : str) (w : World) : Outcome :=
  match (b <- Json.loads body ;; py_get b (lit "transcript") (VStr [])) with
  | Raise e => {| response := server_error e; world := w; classified := [] |}
  | Ok transcript =>
      if negb (truthy transcript) then
        {| response := {| status := 400;
                          data := error_body (lit "Missing transcript") |};
           world := w; classified := [] |}
      else
        match the_classifier w with
        | Raise e =>
            {| response := server_error e; world := w; classified := [] |}
        | Ok self =>
            match (r <- classify_method self transcript ;;
                   c <- py_round (VFloat (snd r)) 4 ;;
                   Ok {| status := 200;
                         data := VDict [ (lit "intent", VStr (fst r));
                                         (lit "confidence", c) ] |})
            with
            | Ok resp =>
                {| response := resp; world := w;
                   classified := [transcript] |}
            | Raise e =>
                {| response := server_error e; world := w;
                   classified := [transcript] |}
            end
        end
  end.

(** [_handle_log]. *)
Definition handle_log (body : str) (w : World) : Outcome :=
  match
    (b <- Json.loads body ;;
     transcript <- py_get b (lit "transcript") (VStr []) ;;
     user_label <- py_get b (lit "user_label") (VStr (lit "unknown")) ;;
     predicted <- py_get b (lit "predicted") (VStr (lit "unknown")) ;;
     confidence <- py_get b (lit "confidence") (VInt 0) ;;
     was_overridden <- py_get b (lit "was_overridden") (VBool false) ;;
     self <- the_classifier w ;;
     log_sample self transcript user_label predicted confidence
                was_overridden w)
  with
  | Ok w' =>
      {| response := {| status := 200;
                        data := VDict [(lit "logged", VBool true)] |};
         world := w'; classified := [] |}
  | Raise e => {| response := server_error e; world := w; classified := [] |}
  end.

(** [do_POST]. *)
Definition do_POST (path body : str) (w : World) : Outcome :=
  if str_eqb path (lit "/classify") then handle_classify body w
  else if str_eqb path (lit "/log") then handle_log body w
  else {| response := {| status := 404;
                         data := error_body (lit "Not found") |};
          world := w; classified := [] |}.

(** What [do_GET] hands to [_send_json]: a dict written in the handler,
    or the dict returned by [get_training_stats]. *)
Inductive payload :=
| Literal (d : pyval)
| Statistics (s : Stats).

Record Reply := { reply_status : Z; reply_data : payload }.

(** [do_GET]: it reads the state and never writes it.  Nothing in it
    catches an exception: a [Raise] leaves the handler before any
    response is sent. *)
Definition do_GET (path : str) (w : World) : result Reply :=
  if str_eqb path (lit "/health") then
    Ok {| reply_status := 200;
          reply_data :=
            Literal (VDict [ (lit "status", VStr (lit "ok"));
                             (lit "model", VStr (lit "all-MiniLM-L6-v2")) ]) |}
  else if str_eqb path (lit "/stats") then
    self <- the_classifier w ;;
    Ok {| reply_status := 200;
          reply_data := Statistics (get_training_stats self w) |}
  else Ok {| reply_status := 404;
             reply_data := Literal (error_body (lit "Not found")) |}.

(** [s.startswith(sub)]. *)
Fixpoint starts_with (sub s : str) : bool :=
  match sub, s with
  | [], _ => true
  | _ :: _, [] => false
  | a :: sub', b :: s' => char_eqb a b && starts_with sub' s'
  end.

(** [sub in s] for two strings. *)
Fixpoint contains (sub s : str) : bool :=
  starts_with sub s
  || match s with
     | [] => false
     | _ :: s' => contains sub s'
     end.

(** [log_message(format, *args)] when [args[0]] is text, as it is when
    [log_request] passes the request line: the lines printed. *)
Definition log_message (arg0 : str) : list str :=
  if negb (contains (lit "/health") arg0)
  then [lit "[intent-classifier] " ++ arg0]
  else [].

End Service.

(* ================================================================== *)
(** ** A small concrete encoder

    Two-dimensional embeddings in float32, with the naive dot product and
    Euclidean norm; used to run the definitions on concrete inputs. *)

Module Demo.

Definition f32_add (a b : Float.float) : Float.float :=
  SFadd Float.prec32 Float.emax32 a b.
Definition f32_sqrt (a : Float.float) : Float.float :=
  SFsqrt Float.prec32 Float.emax32 a.
Definition f32 (n : Z) : Float.float :=
  binary_normalize Float.prec32 Float.emax32 n 0 false.

Definition dot (a b : list Float.float) : Float.float :=
  List.fold_left f32_add (List.map (fun p => f32_mul (fst p) (snd p))
                                   (List.combine a b)) Float.zero.
Definition norm (a : list Float.float) : Float.float := f32_sqrt (dot a a).

(** Plain text of length [n] is the vector [(1, n)]; a leading [-] negates
    the vector of the rest; the empty text is the zero vector. *)
Definition embed (t : str) : list Float.float :=
  match t with
  | c :: r =>
      if (c =? 45)%N
      then [f32 (-1); f32 (- Z.of_nat (List.length r))]
      else [f32 1; f32 (Z.of_nat (List.length t))]
  | [] => [Float.zero; Float.zero]
  end.

Definition model : SentenceTransformer :=
  {| vec := list Float.float; encode := embed;
     np_dot := dot; np_norm := norm |}.

Definition classify_nontext (v : pyval) : result (str * Float.float) :=
  Raise TypeError.

Definition exn_message (e : exn) : str :=
  match e with
  | ValueError => lit "ValueError"
  | TypeError => lit "TypeError"
  | AttributeError => lit "AttributeError"
  | JSONDecodeError => lit "JSONDecodeError"
  end.

Definition noon : datetime :=
  {| year := 2024; month := 5; day := 17;
     hour := 12; minute := 0; second := 9; microsecond := 250000 |}.

(** A fresh process: no files, nothing loaded. *)
Definition boot : World model :=
  {| files := fun _ => None; utcnow := noon; heap := [];
     _classifier := None; classifier := None |}.

(** The process once [main] has bound the classifier. *)
Definition served : World model := main_startup None boot.

Definition log_path : Path := [lit ".decibel/ml/training_samples.jsonl"].

(** The body of a [POST /log] request with all five fields. *)
Definition log_body (transcript user_label predicted : string)
           (confidence : Float.float) (was_overridden : bool) : str :=
  Json.dumps
    (VDict [ (lit "transcript", VStr (lit transcript));
             (lit "user_label", VStr (lit user_label));
             (lit "predicted", VStr (lit predicted));
             (lit "confidence", VFloat confidence);
             (lit "was_overridden", VBool was_overridden) ]).

Definition post_log (body : str) (w : World model) : World model :=
  world (handle_log exn_message body w).

(** Some other writer adds raw text to the log. *)
Definition scribble (text : str) (w : World model) : World model :=
  {| files := append_file (files w) log_path text;
     utcnow := utcnow w; heap := heap w;
     _classifier := _classifier w; classifier := classifier w |}.

Definition sample_a : str :=
  log_body "there's a bug in checkout" "log_issue" "log_issue"
           (Float.of_decimal false 87654321 (-8)) false.
Definition sample_b : str :=
  log_body "find the roadmap" "search" "ask_oracle"
           (Float.of_decimal false 4125 (-4)) true.
Definition sample_c : str :=
  log_body "it keeps crashing" "log_issue" "log_friction"
           (Float.of_decimal false 5 (-1)) true.

(** Two request bodies: one with a transcript, one without. *)
Definition hello : list (str * pyval) :=
  [(lit "transcript", VStr (lit "hello"))].
Definition hello_body : str := Json.dumps (VDict hello).
Definition other : list (str * pyval) := [(lit "text", VStr (lit "hello"))].
Definition other_body : str := Json.dumps (VDict other).

End Demo.

(* ================================================================== *)
(** ** Vocabulary of the statements *)

Section Vocabulary.

Variable model : SentenceTransformer.

(** Every intent of the catalog has at least one example row. *)
Definition has_examples (catalog : embeddings model) : Prop :=
  List.Forall (fun e => snd e <> []) catalog.

(** The intent labels of a catalog, in iteration order. *)
Definition labels (catalog : embeddings model) : list str :=
  List.map fst catalog.

(** The score of one catalog entry against an encoded transcript. *)
Definition score (emb : vec model) (e : str * list (vec model))
  : result Float.float :=
  max_sim model (snd e) emb.

End Vocabulary.

Arguments score : clear implicits.
Arguments has_examples : clear implicits.
Arguments labels : clear implicits.

(** Printable ASCII, the alphabet of [json.dumps]. *)
Definition printable (c : char) : Prop := (32 <= c <= 126)%N.

(** Text made of printable ASCII only. *)
Definition plain (s : str) : Prop := List.Forall printable s.

(** Text that is valid Unicode: code points below 0x110000, none a
    surrogate. *)
Definition scalar (c : char) : Prop :=
  (c < 55296 \/ 57343 < c < 1114112)%N.
Definition unicode_text (s : str) : Prop := List.Forall scalar s.

(** The content of a log left by complete writes: nothing yet, or text
    that ends with a newline. *)
Definition complete_lines (content : str) : Prop :=
  content = [] \/ exists body, content = body ++ [c_nl].

(** What is in the log, whether the file exists or not. *)
Definition log_text {model : SentenceTransformer}
           (self : IntentClassifier model) (w : World model) : str :=
  match files w (training_log self) with
  | Some old => old
  | None => []
  end.

(** The record [log_sample] writes. *)
Definition sample_record
           (transcript user_label predicted confidence correct
                       was_overridden : pyval) (now : datetime) : pyval :=
  VDict [ (lit "transcript", transcript);
          (lit "user_label", user_label);
          (lit "predicted", predicted);
          (lit "confidence", confidence);
          (lit "correct", correct);
          (lit "was_overridden", was_overridden);
          (lit "ts", VStr (isoformat now ++ lit "Z")) ].

(** An [int] or a [float]. *)
Definition number (v : pyval) : Prop :=
  match v with
  | VInt _ | VFloat _ => True
  | _ => False
  end.

(** The values [round] accepts: [int], [float] and [bool]. *)
Definition roundable (v : pyval) : bool :=
  match v with
  | VInt _ | VFloat _ | VBool _ => true
  | _ => false
  end.

(** The bucket of a label, the empty bucket when it has none yet. *)
Definition bucket_of (k : pyval) (d : list (pyval * bucket)) : bucket :=
  match bucket_lookup k d with
  | Some b => b
  | None => {| b_total := 0; b_correct := 0 |}
  end.

(** What one sample does to its bucket. *)
Definition tally (flag : bool) (b : bucket) : bucket :=
  {| b_total := b_total b + 1; b_correct := b_correct b + int_of_bool flag |}.

(** The sums of the two counters over all buckets. *)
Definition sum_totals (d : list (pyval * bucket)) : Z :=
  List.fold_right (fun kb acc => b_total (snd kb) + acc) 0 d.
Definition sum_corrects (d : list (pyval * bucket)) : Z :=
  List.fold_right (fun kb acc => b_correct (snd kb) + acc) 0 d.

(** The object on a line of the log, when the line holds one. *)
Definition line_object (line : str) : option (list (str * pyval)) :=
  match Json.loads line with
  | Ok (VDict d) => Some d
  | _ => None
  end.

(** Its label, "unknown" when the object has none. *)
Definition line_label (line : str) : option pyval :=
  match line_object line with
  | Some d => Some (dict_get d (lit "user_label") (VStr (lit "unknown")))
  | None => None
  end.

(** The line holds an object whose [correct] is truthy. *)
Definition line_correct (line : str) : bool :=
  match line_object line with
  | Some d => truthy (dict_get d (lit "correct") VNone)
  | None => false
  end.

(** The line holds an object whose label can be a key of [by_intent]. *)
Definition line_bucketed (line : str) : bool :=
  match line_label line with
  | Some l => hashable l
  | None => false
  end.

(** The line holds an object whose label is the text [u]. *)
Definition labelled (u : str) (line : str) : bool :=
  match line_label line with
  | Some (VStr v) => str_eqb v u
  | _ => false
  end.

(** How many lines satisfy a test. *)
Definition count (f : str -> bool) (lines : list str) : Z :=
  Z.of_nat (List.length (List.filter f lines)).

(** A bucket that counted at least one sample, its correct samples
    among them. *)
Definition bucket_ok (b : bucket) : Prop :=
  1 <= b_total b /\ 0 <= b_correct b <= b_total b.

(** What the loop of [get_training_stats] keeps true after [n] lines. *)
Definition counters_ok (n : Z) (st : counters) : Prop :=
  0 <= c_correct st <= c_total st /\ c_total st <= n /\
  sum_totals (c_by_intent st) <= c_total st /\
  sum_corrects (c_by_intent st) <= c_correct st /\
  List.Forall (fun kb => bucket_ok (snd kb)) (c_by_intent st).

(** The lines of a log that [json.loads] accepts. *)
Definition parseable (line : str) : bool :=
  match Json.loads line with
  | Ok _ => true
  | Raise _ => false
  end.



(** The parts of a JSON number. *)

(** The text after a digit run does not go on with a digit. *)
Definition stops (rest : str) : Prop :=
  match rest with
  | [] => True
  | c :: _ => is_digit c = false
  end.

Definition all_digits (s : str) : Prop :=
  List.Forall (fun c => is_digit c = true) s.

(** The integer part of a JSON number: [0], or digits that do not start
    with [0]. *)
Definition int_part (ip : str) : Prop :=
  ip = [c_zero] \/
  exists d r, ip = d :: r /\ is_digit d = true /\ d <> c_zero /\ all_digits r.

(** The fraction: nothing, or a dot and at least one digit. *)
Definition frac_part (fr fp : str) : Prop :=
  (fr = [] /\ fp = []) \/ (fr = c_dot :: fp /\ fp <> [] /\ all_digits fp).

(** The exponent: nothing, or [e], a sign and at least one digit. *)
Definition exp_part (ex : str) : Prop :=
  ex = [] \/
  exists sg xd, ex = c_e :: sg :: xd /\ (sg = c_plus \/ sg = c_minus) /\
                xd <> [] /\ all_digits xd.

(** The text of a float as [repr] writes it, sign apart. *)
Definition float_token (tok : str) : Prop :=
  exists ip fr fp ex,
    tok = ip ++ fr ++ ex /\ int_part ip /\ frac_part fr fp /\ exp_part ex /\
    (fr <> [] \/ ex <> []).

(** [scan_number] once the sign is known. *)
Definition number_body (neg : bool) (s1 : str) : option (pyval * str) :=
  match s1 with
  | c :: r =>
      if is_digit c then
        let '(ip, r1) :=
          if (c =? 48)%N then ([c], r) else Json.span_digits s1 in
        let '(fp, r2) := Json.scan_frac r1 in
        let '(ex, r3) := Json.scan_exp r2 in
        match fp, ex with
        | [], None =>
            Some (VInt (if neg then - Json.digits_val ip
                        else Json.digits_val ip), r3)
        | _, None => Some (VFloat (Json.float_of_literal neg ip fp 0), r3)
        | _, Some x => Some (VFloat (Json.float_of_literal neg ip fp x), r3)
        end
      else None
  | [] => None
  end.

(* ================================================================== *)
(** * Properties *)

Unset Implicit Arguments.

(** ** The order of floats *)

Module FloatOrder.

(** A float that is not NaN, as the triple compared by [SFcompare]:
    a class (-2 for -inf, -1 negative, 0 zero, 1 positive, 2 for +inf)
    and, inside the finite classes, exponent and mantissa. *)
Definition rank (x : Float.float) : option (Z * Z * Z) :=
  match x with
  | S754_nan => None
  | S754_infinity true => Some (-2, 0, 0)
  | S754_infinity false => Some (2, 0, 0)
  | S754_zero _ => Some (0, 0, 0)
  | S754_finite true m e => Some (-1, - e, - Zpos m)
  | S754_finite false m e => Some (1, e, Zpos m)
  end.

Definition lex_lt (a b : Z * Z * Z) : Prop :=
  let '(a1, a2, a3) := a in
  let '(b1, b2, b3) := b in
  a1 < b1 \/ (a1 = b1 /\ (a2 < b2 \/ (a2 = b2 /\ a3 < b3))).

Definition lex_le (a b : Z * Z * Z) : Prop := lex_lt a b \/ a = b.

Lemma compare_cont_Eq (m n : positive) :
  Pos.compare_cont Eq m n = (Zpos m ?= Zpos n).
Proof. reflexivity. Qed.

Ltac order_cases :=
  repeat match goal with
         | |- context [Z.compare ?a ?b] =>
             destruct (Z.compare_spec a b)
         | H : context [Z.compare ?a ?b] |- _ =>
             destruct (Z.compare_spec a b)
         end.

Ltac rank_fwd :=
  intros H; try discriminate H; do 2 eexists;
  repeat (split; try reflexivity); unfold lex_le; cbn;
  order_cases; cbn in *; try discriminate H;
  first [ lia | left; lia | right; repeat f_equal; lia ].

Ltac rank_bwd :=
  intros (a & b & Ha & Hb & Hlt); try discriminate Ha; try discriminate Hb;
  inversion Ha; inversion Hb; subst; unfold lex_le in Hlt; cbn in Hlt;
  order_cases; cbn; try reflexivity;
  first [ lia | destruct Hlt as [Hlt | Hlt]; [lia | inversion Hlt; lia] ].

Lemma ltb_rank (x y : Float.float) :
  SFltb x y = true <->
  exists a b, rank x = Some a /\ rank y = Some b /\ lex_lt a b.
Proof.
  unfold SFltb, SFcompare.
  destruct x as [sx | sx | | sx mx ex], y as [sy | sy | | sy my ey];
    try destruct sx; try destruct sy; cbn [rank];
    try rewrite compare_cont_Eq; split; try rank_fwd; try rank_bwd.
Qed.

Lemma leb_rank (x y : Float.float) :
  SFleb x y = true <->
  exists a b, rank x = Some a /\ rank y = Some b /\ lex_le a b.
Proof.
  unfold SFleb, SFcompare.
  destruct x as [sx | sx | | sx mx ex], y as [sy | sy | | sy my ey];
    try destruct sx; try destruct sy; cbn [rank];
    try rewrite compare_cont_Eq; split; try rank_fwd; try rank_bwd.
Qed.

Lemma lex_lt_trans a b c : lex_lt a b -> lex_lt b c -> lex_lt a c.
Proof.
  destruct a as [[a1 a2] a3], b as [[b1 b2] b3], c as [[c1 c2] c3].
  cbn. lia.
Qed.

Lemma lex_lt_le_trans a b c : lex_lt a b -> lex_le b c -> lex_lt a c.
Proof.
  intros Hab [Hbc | ->]; [eapply lex_lt_trans; eassumption | exact Hab].
Qed.

Lemma lex_lt_irrefl a : ~ lex_lt a a.
Proof. destruct a as [[a1 a2] a3]. cbn. lia. Qed.

(** [a > b] and [b > c] give [a > c]. *)
Lemma gt_trans (a b c : Float.float) :
  Float.gt a b = true -> Float.gt b c = true -> Float.gt a c = true.
Proof.
  unfold Float.gt. rewrite !ltb_rank.
  intros (rb & ra & Hb & Ha & Hba) (rc & rb' & Hc & Hb' & Hcb).
  rewrite Hb in Hb'. injection Hb' as <-.
  exists rc, ra. repeat split; trivial. eapply lex_lt_trans; eassumption.
Qed.

(** [a >= c] and [c > b] give [a > b]. *)
Lemma ge_gt_trans (a b c : Float.float) :
  Float.ge a c = true -> Float.gt c b = true -> Float.gt a b = true.
Proof.
  unfold Float.gt, Float.ge. rewrite !ltb_rank, leb_rank.
  intros (rc & ra & Hc & Ha & Hca) (rb & rc' & Hb & Hc' & Hbc).
  rewrite Hc in Hc'. injection Hc' as <-.
  exists rb, ra. repeat split; trivial. eapply lex_lt_le_trans; eassumption.
Qed.

Lemma gt_ge (a b : Float.float) :
  Float.gt a b = true -> Float.ge a b = true.
Proof.
  unfold Float.gt, Float.ge. rewrite ltb_rank, leb_rank.
  intros (rb & ra & Hb & Ha & Hlt). exists rb, ra.
  repeat split; trivial. left. exact Hlt.
Qed.

Lemma gt_irrefl (a : Float.float) : Float.gt a a = false.
Proof.
  destruct (Float.gt a a) eqn:E; trivial.
  unfold Float.gt in E. rewrite ltb_rank in E.
  destruct E as (x & y & Hx & Hy & Hlt). rewrite Hx in Hy.
  injection Hy as <-. now apply lex_lt_irrefl in Hlt.
Qed.

Lemma gt_asym (a b : Float.float) :
  Float.gt a b = true -> Float.gt b a = false.
Proof.
  intros H. destruct (Float.gt b a) eqn:E; trivial.
  rewrite <- (gt_irrefl a). symmetry. eapply gt_trans; eassumption.
Qed.

(** [a > b] excludes [b >= a]. *)
Lemma gt_not_ge (a b : Float.float) :
  Float.gt a b = true -> Float.ge b a = false.
Proof.
  intros H. destruct (Float.ge b a) eqn:E; trivial.
  rewrite <- (gt_irrefl b). symmetry. eapply ge_gt_trans; eassumption.
Qed.

(** What is not above [b] is not at or above anything above [b]. *)
Lemma not_gt_below (a b c : Float.float) :
  Float.gt a b = false -> Float.gt c b = true -> Float.ge a c = false.
Proof.
  intros Hab Hcb. destruct (Float.ge a c) eqn:E; trivial.
  rewrite <- Hab. symmetry. eapply ge_gt_trans; eassumption.
Qed.

Lemma not_ge_not_gt (a c : Float.float) :
  Float.ge a c = false -> Float.gt a c = false.
Proof.
  intros H. destruct (Float.gt a c) eqn:E; trivial.
  apply gt_ge in E. congruence.
Qed.

(** Anything above [+0.0] is at or above it, in particular not NaN. *)
Lemma gt_zero_ge (a : Float.float) :
  Float.gt a Float.zero = true -> Float.ge a Float.zero = true.
Proof. apply gt_ge. Qed.

Lemma rank_nan (x : Float.float) :
  rank x = None <-> Float.is_nan x = true.
Proof. destruct x as [[] | [] | | [] m e]; cbn; split; congruence. Qed.

Lemma lex_total a b : lex_le a b \/ lex_lt b a.
Proof.
  destruct a as [[a1 a2] a3], b as [[b1 b2] b3]. unfold lex_le.
  destruct (Z.compare_spec a1 b1) as [-> | H1 | H1];
    [| left; left; cbn; lia | right; cbn; lia].
  destruct (Z.compare_spec a2 b2) as [-> | H2 | H2];
    [| left; left; cbn; lia | right; cbn; lia].
  destruct (Z.compare_spec a3 b3) as [-> | H3 | H3];
    [left; right; reflexivity | left; left; cbn; lia | right; cbn; lia].
Qed.

(** Two floats that are not NaN are comparable. *)
Lemma ge_total (a b : Float.float) :
  Float.is_nan a = false -> Float.is_nan b = false ->
  Float.ge a b = true \/ Float.gt b a = true.
Proof.
  intros Ha Hb. unfold Float.ge, Float.gt. rewrite leb_rank, ltb_rank.
  destruct (rank a) as [ra |] eqn:Ea;
    [| apply rank_nan in Ea; congruence].
  destruct (rank b) as [rb |] eqn:Eb;
    [| apply rank_nan in Eb; congruence].
  destruct (lex_total rb ra) as [H | H]; [left | right].
  - exists rb, ra. repeat split; trivial.
  - exists ra, rb. repeat split; trivial.
Qed.

Lemma ge_refl (a : Float.float) :
  Float.is_nan a = false -> Float.ge a a = true.
Proof.
  intros Ha. destruct (ge_total a a Ha Ha) as [H | H]; trivial.
  now rewrite gt_irrefl in H.
Qed.

Lemma ge_trans (a b c : Float.float) :
  Float.ge a b = true -> Float.ge b c = true -> Float.ge a c = true.
Proof.
  unfold Float.ge. rewrite !leb_rank.
  intros (rb & ra & Hb & Ha & Hba) (rc & rb' & Hc & Hb' & Hcb).
  rewrite Hb in Hb'. injection Hb' as <-.
  exists rc, ra. repeat split; trivial.
  destruct Hcb as [Hcb | ->]; trivial.
  left. eapply lex_lt_le_trans; eassumption.
Qed.

Lemma gt_not_nan (a b : Float.float) :
  Float.gt a b = true -> Float.is_nan a = false.
Proof.
  unfold Float.gt. rewrite ltb_rank. intros (rb & ra & _ & Ha & _).
  destruct (Float.is_nan a) eqn:E; trivial.
  apply rank_nan in E. congruence.
Qed.

End FloatOrder.

(* ================================================================== *)
(** ** classify *)

Section ClassifyFacts.

Variable model : SentenceTransformer.
Implicit Types (items catalog : embeddings model) (emb : vec model).

Lemma max_sim_ok (rows : list (vec model)) emb :
  rows <> [] -> exists m, max_sim model rows emb = Ok m.
Proof.
  destruct rows as [| r rows]; [congruence |].
  intros _. unfold max_sim, cosine_sims. cbn. eexists. reflexivity.
Qed.

(** The loop, from any starting pair: either the pair survives and no
    score is above the starting score, or the result is the entry at
    some position [i], whose score is above the starting score, is not
    reached by any earlier score and is not exceeded by any score. *)
Lemma classify_loop_spec items emb (bi : str) (bs : Float.float) :
  has_examples model items ->
  exists l c,
    classify_loop model items emb bi bs = Ok (l, c) /\
    ((l = bi /\ c = bs /\
      forall e m, In e items -> score model emb e = Ok m -> Float.gt m bs = false)
     \/
     (exists i rows,
         nth_error items i = Some (l, rows) /\
         max_sim model rows emb = Ok c /\
         Float.gt c bs = true /\
         (forall j e m, (j < i)%nat -> nth_error items j = Some e ->
                        score model emb e = Ok m -> Float.ge m c = false) /\
         (forall e m, In e items -> score model emb e = Ok m ->
                      Float.gt m c = false))).
Proof.
  intros Hex. revert bi bs.
  induction Hex as [| [intent rows] items Hrows Hex IH]; intros bi bs.
  - exists bi, bs. split; [reflexivity |]. left.
    repeat split; trivial. intros e m [].
  - cbn [snd] in Hrows.
    destruct (max_sim_ok rows emb Hrows) as [m Hm].
    cbn [classify_loop]. rewrite Hm. cbn [bind].
    destruct (Float.gt m bs) eqn:Hgt.
    + destruct (IH intent m) as (l & c & Hrun & Hcase).
      exists l, c. split; [exact Hrun |]. right.
      destruct Hcase as [(-> & -> & Hrest)
                        | (i & rows' & Hnth & Hsc & Hgt' & Hbefore & Hall)].
      * exists 0%nat, rows. cbn. repeat split; trivial.
        -- intros j e m' Hj. lia.
        -- intros e m' [<- | Hin] He.
           ++ unfold score in He. cbn in He. rewrite Hm in He.
              injection He as <-. apply FloatOrder.gt_irrefl.
           ++ eapply Hrest; eassumption.
      * exists (S i), rows'. cbn. repeat split; trivial.
        -- eapply FloatOrder.gt_trans; eassumption.
        -- intros [| j] e m' Hj Hnj He.
           ++ cbn in Hnj. injection Hnj as <-.
              unfold score in He. cbn in He. rewrite Hm in He.
              injection He as <-. now apply FloatOrder.gt_not_ge.
           ++ cbn in Hnj. eapply Hbefore; [| eassumption | eassumption].
              lia.
        -- intros e m' [<- | Hin] He.
           ++ unfold score in He. cbn in He. rewrite Hm in He.
              injection He as <-. now apply FloatOrder.gt_asym.
           ++ eapply Hall; eassumption.
    + destruct (IH bi bs) as (l & c & Hrun & Hcase).
      exists l, c. split; [exact Hrun |].
      destruct Hcase as [(-> & -> & Hrest)
                        | (i & rows' & Hnth & Hsc & Hgt' & Hbefore & Hall)].
      * left. repeat split; trivial.
        intros e m' [<- | Hin] He.
        -- unfold score in He. cbn in He. rewrite Hm in He.
           now injection He as <-.
        -- eapply Hrest; eassumption.
      * right. exists (S i), rows'. cbn. repeat split; trivial.
        -- intros [| j] e m' Hj Hnj He.
           ++ cbn in Hnj. injection Hnj as <-.
              unfold score in He. cbn in He. rewrite Hm in He.
              injection He as <-.
              eapply FloatOrder.not_gt_below; eassumption.
           ++ cbn in Hnj. eapply Hbefore; [| eassumption | eassumption].
              lia.
        -- intros e m' [<- | Hin] He.
           ++ unfold score in He. cbn in He. rewrite Hm in He.
              injection He as <-. apply FloatOrder.not_ge_not_gt.
              eapply FloatOrder.not_gt_below; eassumption.
           ++ eapply Hall; eassumption.
Qed.

(** [np.max]: the result is an element of the array; when it is not
    NaN the array holds no NaN and the result is at or above every
    element. *)
Lemma np_maximum_spec (a b : Float.float) :
  (np_maximum a b = a \/ np_maximum a b = b) /\
  (Float.is_nan (np_maximum a b) = false ->
   Float.is_nan a = false /\ Float.is_nan b = false /\
   Float.ge (np_maximum a b) a = true /\
   Float.ge (np_maximum a b) b = true).
Proof.
  unfold np_maximum.
  destruct (Float.is_nan a) eqn:Ea; [split; [now left | congruence] |].
  destruct (Float.is_nan b) eqn:Eb; [split; [now right | congruence] |].
  destruct (Float.ge a b) eqn:Eab; (split; [tauto |]); intros _;
    repeat split; trivial; try now apply FloatOrder.ge_refl.
  destruct (FloatOrder.ge_total a b Ea Eb) as [H | H]; [congruence |].
  now apply FloatOrder.gt_ge.
Qed.

Lemma fold_maximum_spec (xs : list Float.float) (acc : Float.float) :
  let m := List.fold_left np_maximum xs acc in
  In m (acc :: xs) /\
  (Float.is_nan m = false ->
   Float.is_nan acc = false /\ Float.ge m acc = true /\
   forall x, In x xs -> Float.ge m x = true).
Proof.
  revert acc. induction xs as [| x xs IH]; intros acc; cbn.
  - split; [now left |]. intros Hm. repeat split; trivial.
    + now apply FloatOrder.ge_refl.
    + intros x [].
  - destruct (IH (np_maximum acc x)) as [Hin Hmax].
    destruct (np_maximum_spec acc x) as [Hk Hkmax].
    set (k := np_maximum acc x) in *. split.
    + destruct Hin as [Hin | Hin]; [| now right; right].
      rewrite <- Hin. destruct Hk as [-> | ->]; [now left | now right; left].
    + intros Hm. destruct (Hmax Hm) as (Hn & Hge & Hrest).
      destruct (Hkmax Hn) as (Ha & Hx & Hka & Hkx).
      split; [exact Ha |]. split.
      * eapply FloatOrder.ge_trans; eassumption.
      * intros y [<- | Hy]; [| now apply Hrest].
        eapply FloatOrder.ge_trans; eassumption.
Qed.

Lemma max_sim_spec (rows : list (vec model)) emb (m : Float.float) :
  max_sim model rows emb = Ok m ->
  In m (cosine_sims model rows emb) /\
  (Float.is_nan m = false ->
   forall x, In x (cosine_sims model rows emb) -> Float.ge m x = true).
Proof.
  unfold max_sim, np_max.
  destruct (cosine_sims model rows emb) as [| x xs]; [discriminate |].
  intros H. injection H as <-.
  destruct (fold_maximum_spec xs x) as [Hin Hmax]. split; [exact Hin |].
  intros Hm. destruct (Hmax Hm) as (_ & Hx & Hrest).
  intros y [<- | Hy]; [exact Hx | now apply Hrest].
Qed.

(** [classify] returns whenever every intent has an example. *)
Lemma classify_spec catalog (t : str) :
  has_examples model catalog ->
  exists l c,
    classify model catalog t = Ok (l, c) /\
    ((l = lit "unknown" /\ c = Float.zero /\
      forall e m, In e catalog -> score model (encode model t) e = Ok m ->
                  Float.gt m Float.zero = false)
     \/
     (exists i rows,
         nth_error catalog i = Some (l, rows) /\
         max_sim model rows (encode model t) = Ok c /\
         Float.gt c Float.zero = true /\
         (forall j e m, (j < i)%nat -> nth_error catalog j = Some e ->
                        score model (encode model t) e = Ok m ->
                        Float.ge m c = false) /\
         (forall e m, In e catalog ->
                      score model (encode model t) e = Ok m ->
                      Float.gt m c = false))).
Proof.
  intros H. unfold classify.
  exact (classify_loop_spec catalog (encode model t) (lit "unknown")
                            Float.zero H).
Qed.

End ClassifyFacts.

(** C1 (amended).  For every transcript and every catalog in which each
    intent has at least one example, [classify] returns, and its result is
    either an intent of the catalog whose score is above 0.0, with that
    score as the confidence, or the label "unknown" with confidence 0.0;
    the latter exactly when no score of the catalog is above 0.0, which
    holds for the empty catalog but not only for it. *)
Theorem classify_label_in_catalog_or_unknown
        (model : SentenceTransformer) (catalog : embeddings model) (t : str) :
  has_examples model catalog ->
  exists l c,
    classify model catalog t = Ok (l, c) /\
    ((exists rows,
         In (l, rows) catalog /\
         max_sim model rows (encode model t) = Ok c /\
         Float.gt c Float.zero = true)
     \/
     (l = lit "unknown" /\ c = Float.zero /\
      forall e m, In e catalog -> score model (encode model t) e = Ok m ->
                  Float.gt m Float.zero = false)).
Proof.
  intros H.
  destruct (classify_spec model catalog t H)
    as (l & c & Hrun & [Hunk | (i & rows & Hnth & Hsc & Hgt & _)]).
  - exists l, c. split; [exact Hrun |]. right. exact Hunk.
  - exists l, c. split; [exact Hrun |]. left. exists rows.
    repeat split; trivial. eapply nth_error_In; eassumption.
Qed.

Lemma classify_label_in_catalog_or_unknown_witness :
  let catalog := example_embeddings (init Demo.model None) in
  let t := lit "there's a bug" in
  has_examples Demo.model catalog /\
  exists l c,
    classify Demo.model catalog t = Ok (l, c) /\
    ((exists rows,
         In (l, rows) catalog /\
         max_sim Demo.model rows (encode Demo.model t) = Ok c /\
         Float.gt c Float.zero = true)
     \/
     (l = lit "unknown" /\ c = Float.zero /\
      forall e m, In e catalog ->
                  score Demo.model (encode Demo.model t) e = Ok m ->
                  Float.gt m Float.zero = false)).
Proof.
  assert (H : has_examples Demo.model
                           (example_embeddings (init Demo.model None))).
  { unfold has_examples. cbn. repeat constructor; discriminate. }
  split; [exact H |].
  exact (classify_label_in_catalog_or_unknown
           Demo.model (example_embeddings (init Demo.model None))
           (lit "there's a bug") H).
Defined.

(** C1 as stated fails: a catalog with one intent and a non-empty
    transcript whose only similarity is 0.0 give the label "unknown", which
    is no label of the catalog. *)
Lemma classify_unknown_despite_labels :
  ~ (forall (model : SentenceTransformer) (catalog : embeddings model)
            (t l : str) (c : Float.float),
        t <> [] -> catalog <> [] ->
        classify model catalog t = Ok (l, c) ->
        In l (labels model catalog)).
Proof.
  intros H.
  specialize (H Demo.model [(lit "log_issue", [Demo.embed (lit "-")])]
                (lit "x") (lit "unknown") Float.zero).
  cbn in H. destruct H as [H | []]; try discriminate.
  vm_compute. reflexivity.
Qed.

(** C2 (amended).  For every transcript and every catalog in which each
    intent has at least one example: when some intent scores above 0.0,
    [classify] returns the intent at some position [i] of the catalog with
    that intent's score as the confidence, where the score is the maximum
    of the cosine similarities of the intent's examples, no intent of the
    catalog scores higher, and every intent before position [i] scores
    strictly lower (the first-seen intent wins a tie); and when no intent
    scores above 0.0, [classify] returns ("unknown", 0.0). *)
Theorem classify_argmax_first_seen
        (model : SentenceTransformer) (catalog : embeddings model) (t : str) :
  has_examples model catalog ->
  ((exists e m, In e catalog /\
                score model (encode model t) e = Ok m /\
                Float.gt m Float.zero = true) ->
   exists i l rows c,
     classify model catalog t = Ok (l, c) /\
     nth_error catalog i = Some (l, rows) /\
     In c (cosine_sims model rows (encode model t)) /\
     (forall x, In x (cosine_sims model rows (encode model t)) ->
                Float.ge c x = true) /\
     (forall e m, In e catalog -> score model (encode model t) e = Ok m ->
                  Float.gt m c = false) /\
     (forall j e m, (j < i)%nat -> nth_error catalog j = Some e ->
                    score model (encode model t) e = Ok m ->
                    Float.ge m c = false)) /\
  ((forall e m, In e catalog -> score model (encode model t) e = Ok m ->
                Float.gt m Float.zero = false) ->
   classify model catalog t = Ok (lit "unknown", Float.zero)).
Proof.
  intros H. split.
  - intros (e & m & Hin & Hm & Hpos).
    destruct (classify_spec model catalog t H)
      as (l & c & Hrun
          & [(_ & _ & Hnone)
            | (i & rows & Hnth & Hsc & Hgt & Hbefore & Hall)]).
    + rewrite (Hnone e m Hin Hm) in Hpos. discriminate.
    + destruct (max_sim_spec model rows (encode model t) c Hsc)
        as [Hmem Hmax].
      exists i, l, rows, c. repeat split; trivial.
      apply Hmax. eapply FloatOrder.gt_not_nan; eassumption.
  - intros Hnone.
    destruct (classify_spec model catalog t H)
      as (l & c & Hrun
          & [(-> & -> & _) | (i & rows & Hnth & Hsc & Hgt & _)]).
    + exact Hrun.
    + apply nth_error_In in Hnth.
      rewrite (Hnone (l, rows) c Hnth Hsc) in Hgt. discriminate.
Qed.

Lemma classify_argmax_first_seen_witness :
  (exists i l rows c,
      classify Demo.model (example_embeddings (init Demo.model None))
               (lit "show me all open issues") = Ok (l, c) /\
      nth_error (example_embeddings (init Demo.model None)) i
      = Some (l, rows) /\
      In c (cosine_sims Demo.model rows
                        (encode Demo.model (lit "show me all open issues"))) /\
      (forall x,
          In x (cosine_sims Demo.model rows
                            (encode Demo.model
                                    (lit "show me all open issues"))) ->
          Float.ge c x = true) /\
      (forall e m,
          In e (example_embeddings (init Demo.model None)) ->
          score Demo.model
                (encode Demo.model (lit "show me all open issues")) e
          = Ok m ->
          Float.gt m c = false) /\
      (forall j e m,
          (j < i)%nat ->
          nth_error (example_embeddings (init Demo.model None)) j = Some e ->
          score Demo.model
                (encode Demo.model (lit "show me all open issues")) e
          = Ok m ->
          Float.ge m c = false)) /\
  classify Demo.model
           [(lit "add_wish", [Demo.embed (lit "-I wish we had")]);
            (lit "search", [Demo.embed (lit "-")])]
           (lit "find the roadmap")
  = Ok (lit "unknown", Float.zero).
Proof.
  assert (H : has_examples Demo.model
                           (example_embeddings (init Demo.model None))).
  { unfold has_examples. cbn. repeat constructor; discriminate. }
  assert (P : exists e m,
             In e (example_embeddings (init Demo.model None)) /\
             score Demo.model
                   (encode Demo.model (lit "show me all open issues")) e
             = Ok m /\
             Float.gt m Float.zero = true).
  { eexists. eexists. split; [left; reflexivity |].
    split; vm_compute; reflexivity. }
  assert (H' : has_examples
                 Demo.model
                 [(lit "add_wish", [Demo.embed (lit "-I wish we had")]);
                  (lit "search", [Demo.embed (lit "-")])]).
  { unfold has_examples. repeat constructor; discriminate. }
  assert (N : forall e m,
             In e [(lit "add_wish", [Demo.embed (lit "-I wish we had")]);
                   (lit "search", [Demo.embed (lit "-")])] ->
             score Demo.model (encode Demo.model (lit "find the roadmap")) e
             = Ok m ->
             Float.gt m Float.zero = false).
  { intros e m [<- | [<- | []]] Hm; vm_compute in Hm;
      injection Hm as <-; vm_compute; reflexivity. }
  split.
  - exact (proj1 (classify_argmax_first_seen
                    Demo.model (example_embeddings (init Demo.model None))
                    (lit "show me all open issues") H) P).
  - exact (proj2 (classify_argmax_first_seen
                    Demo.model
                    [(lit "add_wish", [Demo.embed (lit "-I wish we had")]);
                     (lit "search", [Demo.embed (lit "-")])]
                    (lit "find the roadmap") H') N).
Defined.

(** C2 as stated fails: when no intent scores above 0.0 the result is
    ("unknown", 0.0), which is neither an intent of the catalog nor the
    score of one. *)
Lemma classify_not_always_argmax :
  ~ (forall (model : SentenceTransformer) (catalog : embeddings model)
            (t l : str) (c : Float.float),
        classify model catalog t = Ok (l, c) ->
        exists rows, In (l, rows) catalog /\
                     max_sim model rows (encode model t) = Ok c).
Proof.
  intros H.
  destruct (H Demo.model
              [(lit "add_wish", [Demo.embed (lit "-I wish we had")]);
               (lit "search", [Demo.embed (lit "-")])]
              (lit "find the roadmap") (lit "unknown") Float.zero)
    as (rows & Hin & _).
  - vm_compute. reflexivity.
  - cbn in Hin. destruct Hin as [Hin | [Hin | []]]; discriminate.
Qed.

(** C9 (amended).  For every transcript and every catalog in which each
    intent has at least one example, the confidence returned by
    [classify] is at or above 0.0; and when the catalog has no intent
    named "unknown", a returned label "unknown" comes with confidence
    exactly 0.0. *)
Theorem classify_confidence_nonnegative
        (model : SentenceTransformer) (catalog : embeddings model) (t : str) :
  has_examples model catalog ->
  exists l c,
    classify model catalog t = Ok (l, c) /\
    Float.ge c Float.zero = true /\
    (~ In (lit "unknown") (labels model catalog) ->
     l = lit "unknown" -> c = Float.zero).
Proof.
  intros H.
  destruct (classify_spec model catalog t H)
    as (l & c & Hrun & [(-> & -> & _) | (i & rows & Hnth & _ & Hgt & _)]).
  - exists (lit "unknown"), Float.zero. repeat split; trivial.
  - exists l, c. split; [exact Hrun |]. split.
    + now apply FloatOrder.gt_ge.
    + intros Hnot ->. exfalso. apply Hnot.
      apply nth_error_In in Hnth. unfold labels.
      change (lit "unknown") with (fst (lit "unknown", rows)).
      now apply in_map.
Qed.

Lemma classify_confidence_nonnegative_witness :
  let catalog := example_embeddings (init Demo.model None) in
  let t := lit "-" in
  has_examples Demo.model catalog /\
  exists l c,
    classify Demo.model catalog t = Ok (l, c) /\
    Float.ge c Float.zero = true /\
    (~ In (lit "unknown") (labels Demo.model catalog) ->
     l = lit "unknown" -> c = Float.zero).
Proof.
  assert (H : has_examples Demo.model
                           (example_embeddings (init Demo.model None))).
  { unfold has_examples. cbn. repeat constructor; discriminate. }
  split; [exact H |].
  exact (classify_confidence_nonnegative
           Demo.model (example_embeddings (init Demo.model None))
           (lit "-") H).
Defined.

(** C9 as stated fails for a catalog that has an intent named "unknown":
    the label "unknown" then comes back with that intent's score. *)
Lemma classify_unknown_intent_scores :
  ~ (forall (model : SentenceTransformer) (catalog : embeddings model)
            (t l : str) (c : Float.float),
        classify model catalog t = Ok (l, c) ->
        Float.ge c Float.zero = true /\
        (l = lit "unknown" -> c = Float.zero)).
Proof.
  intros H.
  destruct (H Demo.model [(lit "unknown", [Demo.embed (lit "x")])]
              (lit "x") (lit "unknown")
              (S754_finite false 8388609 (-23))) as [_ Hz].
  - vm_compute. reflexivity.
  - specialize (Hz eq_refl). discriminate.
Qed.

(* ================================================================== *)
(** ** The singleton *)

(** C10.  The first call of [get_classifier] creates the instance from its
    [data_root]; every later call, whatever its [data_root] and whatever
    happened to files and clock in between, returns the same reference,
    leaves the state as it is, and finds behind the reference the object
    with the log path of the first call. *)
Theorem get_classifier_singleton
        (model : SentenceTransformer) (d1 : option str) (w : World model) :
  _classifier w = None ->
  let r1 := fst (get_classifier d1 w) in
  let w1 := snd (get_classifier d1 w) in
  _classifier w1 = Some r1 /\
  nth_error (heap w1) r1 = Some (init model d1) /\
  forall (d2 : option str) (w' : World model),
    _classifier w' = _classifier w1 -> heap w' = heap w1 ->
    get_classifier d2 w' = (r1, w') /\
    option_map (@training_log model) (nth_error (heap w') r1)
    = Some (training_log (init model d1)).
Proof.
  intros Hnone. unfold get_classifier. rewrite Hnone. cbn.
  assert (Hobj : nth_error (heap w ++ [init model d1]) (List.length (heap w))
                 = Some (init model d1)).
  { rewrite nth_error_app2 by lia. now rewrite Nat.sub_diag. }
  repeat split; trivial.
  - rewrite H. reflexivity.
  - rewrite H0, Hobj. reflexivity.
Qed.

Lemma get_classifier_singleton_witness :
  _classifier Demo.boot = None /\
  get_classifier (Some (lit "/tmp/other"))
                 (snd (get_classifier (Some (lit "/srv/data")) Demo.boot))
  = get_classifier (Some (lit "/srv/data")) Demo.boot.
Proof.
  split; [reflexivity |].
  destruct (get_classifier_singleton
              Demo.model (Some (lit "/srv/data")) Demo.boot eq_refl)
    as (_ & _ & Hlater).
  destruct (Hlater (Some (lit "/tmp/other"))
                   (snd (get_classifier (Some (lit "/srv/data")) Demo.boot))
                   eq_refl eq_refl) as [Hcall _].
  rewrite Hcall. reflexivity.
Defined.

(** Nothing but [get_classifier] touches the singleton or the heap. *)
Lemma log_sample_keeps_objects
      (model : SentenceTransformer) (self : IntentClassifier model)
      (t u p c o : pyval) (w w' : World model) :
  log_sample self t u p c o w = Ok w' ->
  _classifier w' = _classifier w /\ heap w' = heap w /\
  classifier w' = classifier w /\ utcnow w' = utcnow w.
Proof.
  unfold log_sample. destruct (py_round c 4); cbn; [| discriminate].
  intros H. injection H as <-. cbn. repeat split.
Qed.

(* ================================================================== *)
(** ** get_training_stats *)

(** One line moves the counters by at most one, [correct] never past
    [total]. *)
Lemma stats_step_counts (st : counters) (line : str) :
  let st' := stats_step st line in
  c_total st <= c_total st' <= c_total st + 1 /\
  c_correct st' - c_correct st <= c_total st' - c_total st /\
  c_correct st <= c_correct st'.
Proof.
  unfold stats_step.
  destruct (Json.loads line) as [sample | e]; cbn; [| lia].
  destruct (py_get sample (lit "correct") VNone) as [correct | e]; cbn;
    [| lia].
  destruct (py_get sample (lit "user_label") (VStr (lit "unknown")))
    as [label | e];
    destruct (truthy correct); cbn; try lia;
    destruct (hashable label); cbn; lia.
Qed.

Lemma scan_counts_from (lines : list str) (st : counters) :
  0 <= c_correct st <= c_total st ->
  let st' := List.fold_left stats_step lines st in
  0 <= c_correct st' <= c_total st'.
Proof.
  revert st. induction lines as [| line lines IH]; intros st H; cbn.
  - exact H.
  - apply IH. pose proof (stats_step_counts st line) as S. cbn in S. lia.
Qed.

Lemma scan_log_counts (content : str) :
  0 <= c_correct (scan_log content) <= c_total (scan_log content).
Proof.
  unfold scan_log. apply scan_counts_from. cbn. lia.
Qed.

(** C5 (amended).  [get_training_stats] returns total 0, accuracy 0 and an
    empty [by_intent] when the log file does not exist.  Otherwise, with
    [total] and [correct] the counters of the loop over the file
    ([0 <= correct <= total]), the accuracy field is [correct / total]
    rounded to three decimal places when [total] is positive, and 0 when
    [total] is 0. *)
Theorem training_stats_accuracy
        (model : SentenceTransformer) (self : IntentClassifier model)
        (w : World model) :
  (files w (training_log self) = None ->
   get_training_stats self w
   = {| total := 0; accuracy := VInt 0; by_intent := [] |}) /\
  (forall content, files w (training_log self) = Some content ->
     let st := scan_log content in
     0 <= c_correct st <= c_total st /\
     total (get_training_stats self w) = c_total st /\
     by_intent (get_training_stats self w) = c_by_intent st /\
     (0 < c_total st ->
      accuracy (get_training_stats self w)
      = VFloat (Float.round (Float.truediv (c_correct st) (c_total st)) 3)) /\
     (c_total st = 0 -> accuracy (get_training_stats self w) = VInt 0)).
Proof.
  unfold get_training_stats. split.
  - intros ->. reflexivity.
  - intros content ->. cbn. split; [apply scan_log_counts |].
    repeat split.
    + intros H. apply Z.ltb_lt in H. now rewrite H.
    + intros ->. reflexivity.
Qed.

Lemma training_stats_accuracy_witness :
  let self := init Demo.model None in
  let w := Demo.post_log Demo.sample_c
             (Demo.post_log Demo.sample_b
                (Demo.post_log Demo.sample_a Demo.served)) in
  files Demo.boot (training_log self) = None /\
  get_training_stats self Demo.boot
  = {| total := 0; accuracy := VInt 0; by_intent := [] |} /\
  total (get_training_stats self w) = 3 /\
  accuracy (get_training_stats self w)
  = VFloat (Float.round (Float.truediv 1 3) 3).
Proof.
  destruct (training_stats_accuracy
              Demo.model (init Demo.model None) Demo.boot) as [Hnone _].
  split; [reflexivity |]. split; [exact (Hnone eq_refl) |].
  vm_compute. split; reflexivity.
Defined.

(** C5 as stated fails: with one correct sample out of three the
    accuracy field is 0.333, not the quotient 1/3. *)
Lemma accuracy_is_rounded_quotient :
  ~ (forall (model : SentenceTransformer) (self : IntentClassifier model)
            (w : World model) (content : str),
        files w (training_log self) = Some content ->
        0 < c_total (scan_log content) ->
        accuracy (get_training_stats self w)
        = VFloat (Float.truediv (c_correct (scan_log content))
                                (c_total (scan_log content)))).
Proof.
  intros H.
  pose (w := Demo.post_log Demo.sample_c
               (Demo.post_log Demo.sample_b
                  (Demo.post_log Demo.sample_a Demo.served))).
  destruct (files w (training_log (init Demo.model None)))
    as [content |] eqn:E; [| vm_compute in E; discriminate].
  specialize (H Demo.model (init Demo.model None) w content E).
  vm_compute in E. injection E as <-.
  vm_compute in H. specialize (H eq_refl). discriminate.
Qed.

(** A line that [json.loads] rejects leaves the counters as they are. *)
Lemma stats_step_skips_unparseable (st : counters) (line : str) (e : exn) :
  Json.loads line = Raise e -> stats_step st line = st.
Proof. unfold stats_step. now intros ->. Qed.

(** The code at the failing input of C3: between two logged samples lies
    the line [[]], which is well-formed JSON but no sample.  It is counted
    in [total] (3 instead of 2) and pulls the accuracy from 0.5 down to
    0.333; the buckets of [by_intent] stay as for the two samples. *)
Theorem stats_count_non_object_line :
  let self := init Demo.model None in
  let two := Demo.post_log Demo.sample_b
               (Demo.post_log Demo.sample_a Demo.served) in
  let three := Demo.post_log Demo.sample_b
                 (Demo.scribble (lit "[]" ++ [c_nl])
                    (Demo.post_log Demo.sample_a Demo.served)) in
  Json.loads (lit "[]" ++ [c_nl]) = Ok (VList []) /\
  total (get_training_stats self two) = 2 /\
  accuracy (get_training_stats self two)
  = VFloat (Float.of_decimal false 5 (-1)) /\
  total (get_training_stats self three) = 3 /\
  accuracy (get_training_stats self three)
  = VFloat (Float.of_decimal false 333 (-3)) /\
  by_intent (get_training_stats self three)
  = by_intent (get_training_stats self two).
Proof. vm_compute. repeat split. Qed.

(* ================================================================== *)
(** ** Text and paths: equality tests *)

Lemma str_eqb_eq (a b : str) : str_eqb a b = true <-> a = b.
Proof.
  revert b. induction a as [| x a IH]; intros [| y b]; cbn;
    try (split; [discriminate | congruence]); [tauto |].
  unfold char_eqb. rewrite andb_true_iff, N.eqb_eq, IH.
  split; [intros [-> ->]; reflexivity | intros H; injection H; auto].
Qed.

Lemma str_eqb_refl (a : str) : str_eqb a a = true.
Proof. now apply str_eqb_eq. Qed.

Lemma path_eqb_eq (p q : Path) : path_eqb p q = true <-> p = q.
Proof.
  unfold path_eqb. revert q.
  induction p as [| x p IH]; intros [| y q];
    try (split; [discriminate | congruence]); [tauto |].
  rewrite andb_true_iff, str_eqb_eq, IH.
  split; [intros [-> ->]; reflexivity | intros H; injection H; auto].
Qed.

Lemma append_file_same (fs : filesystem) (p : Path) (data : str) :
  append_file fs p data p
  = Some (match fs p with Some old => old | None => [] end ++ data).
Proof.
  unfold append_file. rewrite (proj2 (path_eqb_eq p p) eq_refl).
  now destruct (fs p).
Qed.

Lemma append_file_other (fs : filesystem) (p q : Path) (data : str) :
  q <> p -> append_file fs p data q = fs q.
Proof.
  intros H. unfold append_file.
  destruct (path_eqb q p) eqn:E; [| reflexivity].
  apply path_eqb_eq in E. contradiction.
Qed.


(* ================================================================== *)
(** ** json.dumps writes printable ASCII *)

Section PyvalInduction.

Variable P : pyval -> Prop.
Hypothesis HNone : P VNone.
Hypothesis HBool : forall b, P (VBool b).
Hypothesis HInt : forall n, P (VInt n).
Hypothesis HFloat : forall f, P (VFloat f).
Hypothesis HStr : forall s, P (VStr s).
Hypothesis HList : forall l, List.Forall P l -> P (VList l).
Hypothesis HDict :
  forall d, List.Forall (fun kv => P (snd kv)) d -> P (VDict d).

(** Induction on values, through the lists and dicts they nest. *)
Fixpoint pyval_nested_ind (v : pyval) : P v :=
  match v with
  | VNone => HNone
  | VBool b => HBool b
  | VInt n => HInt n
  | VFloat f => HFloat f
  | VStr s => HStr s
  | VList l =>
      HList l ((fix go (l : list pyval) : List.Forall P l :=
                  match l with
                  | [] => List.Forall_nil _
                  | x :: l' => List.Forall_cons _ (pyval_nested_ind x) (go l')
                  end) l)
  | VDict d =>
      HDict d ((fix go (d : list (str * pyval))
                : List.Forall (fun kv => P (snd kv)) d :=
                  match d with
                  | [] => List.Forall_nil _
                  | kv :: d' =>
                      List.Forall_cons _ (pyval_nested_ind (snd kv)) (go d')
                  end) d)
  end.

End PyvalInduction.

Lemma plain_app (a b : str) : plain a -> plain b -> plain (a ++ b).
Proof. unfold plain. intros. apply Forall_app. now split. Qed.

Lemma plain_cons (c : char) (s : str) :
  printable c -> plain s -> plain (c :: s).
Proof. unfold plain. now constructor. Qed.

Lemma plain_lit_check (s : str) :
  List.forallb (fun c => (32 <=? c)%N && (c <=? 126)%N) s = true -> plain s.
Proof.
  unfold plain. rewrite forallb_forall, Forall_forall.
  intros H c Hc. specialize (H c Hc). unfold printable.
  apply andb_true_iff in H. rewrite !N.leb_le in H. exact H.
Qed.

Ltac plain_lit := apply plain_lit_check; reflexivity.

Lemma digit_char_digit (d : Z) :
  0 <= d < 10 -> is_digit (digit_char d) = true.
Proof.
  intros H. unfold is_digit, digit_char.
  apply andb_true_iff. rewrite !N.leb_le. lia.
Qed.

Lemma digit_printable (c : char) : is_digit c = true -> printable c.
Proof.
  unfold is_digit, printable. rewrite andb_true_iff, !N.leb_le. lia.
Qed.

Lemma digits_plain (s : str) :
  List.Forall (fun c => is_digit c = true) s -> plain s.
Proof.
  unfold plain. intros H. eapply Forall_impl; [| exact H].
  intros c. apply digit_printable.
Qed.

Lemma digits_acc_digits (fuel : nat) (n : Z) (acc : str) :
  List.Forall (fun c => is_digit c = true) acc ->
  List.Forall (fun c => is_digit c = true) (digits_acc fuel n acc).
Proof.
  revert n acc. induction fuel as [| fuel IH]; intros n acc Hacc; cbn.
  - exact Hacc.
  - assert (Hd : is_digit (digit_char (n mod 10)) = true).
    { apply digit_char_digit. apply Z.mod_pos_bound. lia. }
    destruct (n / 10 =? 0); [now constructor |].
    apply IH. now constructor.
Qed.

Lemma nat_repr_digits (n : Z) :
  List.Forall (fun c => is_digit c = true) (nat_repr n).
Proof. apply digits_acc_digits. constructor. Qed.

Lemma pad_digits_digits (w : nat) (n : Z) :
  List.Forall (fun c => is_digit c = true) (pad_digits w n).
Proof.
  revert n. induction w as [| w IH]; intros n; cbn; [constructor |].
  apply Forall_app. split; [apply IH |].
  constructor; [| constructor].
  apply digit_char_digit. apply Z.mod_pos_bound. lia.
Qed.

Lemma int_repr_plain (n : Z) : plain (int_repr n).
Proof.
  unfold int_repr. destruct (n <? 0).
  - apply plain_cons; [unfold printable, c_minus; lia |].
    apply digits_plain, nat_repr_digits.
  - apply digits_plain, nat_repr_digits.
Qed.

Lemma zeros_digits (n : nat) :
  List.Forall (fun c => is_digit c = true) (Float.zeros n).
Proof.
  unfold Float.zeros. induction n; cbn; constructor; trivial.
Qed.

Lemma format_short_plain (ds : str) (k : Z) :
  List.Forall (fun c => is_digit c = true) ds ->
  plain (Float.format_short ds k).
Proof.
  intros Hds. pose proof (digits_plain ds Hds) as Hp.
  unfold Float.format_short.
  destruct ((-4 <? k) && (k <=? 16)).
  - destruct (k <=? 0).
    + apply plain_cons; [unfold printable, c_zero; lia |].
      apply plain_cons; [unfold printable, c_dot; lia |].
      apply plain_app; [apply digits_plain, zeros_digits | exact Hp].
    + destruct (Z.of_nat (List.length ds) <=? k).
      * apply plain_app; [exact Hp |].
        apply plain_app; [apply digits_plain, zeros_digits | plain_lit].
      * rewrite <- (firstn_skipn (Z.to_nat k) ds) in Hp.
        apply Forall_app in Hp. destruct Hp as [H1 H2].
        apply plain_app; [exact H1 |].
        apply plain_cons; [unfold printable, c_dot; lia | exact H2].
  - apply plain_app.
    + destruct ds as [| d [| d' rest]]; [constructor | exact Hp |].
      inversion Hp; subst.
      apply plain_cons; [assumption |].
      apply plain_cons; [unfold printable, c_dot; lia | assumption].
    + apply plain_cons; [unfold printable, c_e; lia |].
      apply plain_cons;
        [destruct (k - 1 <? 0); unfold printable, c_minus, c_plus; lia |].
      destruct (Z.abs (k - 1) <? 10).
      * apply plain_cons; [unfold printable, c_zero; lia |].
        apply digits_plain, nat_repr_digits.
      * apply digits_plain, nat_repr_digits.
Qed.

Lemma repr_finite_plain (f : Float.float) : plain (Float.repr_finite f).
Proof.
  unfold Float.repr_finite. destruct f as [s | s | | s m e].
  - destruct s; plain_lit.
  - constructor.
  - constructor.
  - destruct (Float.shortest 16 1 m e (Float.decpt m e)) as [c q].
    destruct (Float.strip_zeros 17 c q) as [c' q'].
    apply plain_app.
    + destruct s; [plain_lit | constructor].
    + destruct c'; try plain_lit.
      apply format_short_plain, nat_repr_digits.
Qed.

Lemma encode_float_plain (f : Float.float) : plain (Json.encode_float f).
Proof.
  destruct f as [s | s | | s m e]; cbn [Json.encode_float].
  - apply repr_finite_plain.
  - destruct s; plain_lit.
  - plain_lit.
  - apply repr_finite_plain.
Qed.

Lemma hex_char_printable (d : N) :
  (d < 16)%N -> printable (Json.hex_char d).
Proof.
  intros H. unfold Json.hex_char, printable.
  destruct (N.ltb_spec d 10); lia.
Qed.

Lemma u_escape_plain (c : N) : plain (Json.u_escape c).
Proof.
  unfold Json.u_escape.
  repeat (apply plain_cons;
          [first [ unfold printable, c_backslash, c_u; lia
                 | apply hex_char_printable; apply N.mod_lt; lia ] |]).
  constructor.
Qed.

Lemma escape_char_plain (c : char) : plain (Json.escape_char c).
Proof.
  unfold Json.escape_char.
  repeat match goal with
         | |- plain (if ?b then _ else _) => destruct b eqn:?
         end; try plain_lit.
  - apply plain_cons; [| constructor].
    unfold printable. apply andb_true_iff in Heqb6.
    rewrite !N.leb_le in Heqb6. exact Heqb6.
  - apply u_escape_plain.
  - apply plain_app; apply u_escape_plain.
Qed.

Lemma encode_str_plain (s : str) : plain (Json.encode_str s).
Proof.
  unfold Json.encode_str.
  apply plain_cons; [unfold printable, c_dquote; lia |].
  apply plain_app; [| plain_lit].
  induction s as [| c s IH]; cbn; [constructor |].
  apply plain_app; [apply escape_char_plain | exact IH].
Qed.

Lemma join_plain (items : list str) :
  List.Forall plain items -> plain (Json.join items).
Proof.
  induction 1 as [| x items Hx Hitems IH]; cbn; [constructor |].
  destruct items as [| y items]; [exact Hx |].
  apply plain_app; [exact Hx |].
  apply plain_cons; [unfold printable, c_comma; lia |].
  apply plain_cons; [unfold printable, c_space; lia | exact IH].
Qed.

(** Whatever the value, [json.dumps] writes printable ASCII. *)
Lemma dumps_plain (v : pyval) : plain (Json.dumps v).
Proof.
  induction v using pyval_nested_ind; cbn [Json.dumps].
  - plain_lit.
  - destruct b; plain_lit.
  - apply int_repr_plain.
  - apply encode_float_plain.
  - apply encode_str_plain.
  - apply plain_cons; [unfold printable, c_lbracket; lia |].
    apply plain_app; [| plain_lit].
    apply join_plain. apply Forall_map. exact H.
  - apply plain_cons; [unfold printable, c_lbrace; lia |].
    apply plain_app; [| plain_lit].
    apply join_plain. apply Forall_map.
    eapply Forall_impl; [| exact H].
    intros [k x] Hx. cbn [fst snd] in *.
    apply plain_app; [apply encode_str_plain |].
    apply plain_cons; [unfold printable, c_colon; lia |].
    apply plain_cons; [unfold printable, c_space; lia | exact Hx].
Qed.

Lemma plain_no_newline (s : str) :
  plain s -> ~ In c_nl s /\ ~ In c_cr s.
Proof.
  unfold plain. rewrite Forall_forall. intros H.
  split; intros Hin; apply H in Hin; unfold printable, c_nl, c_cr in Hin; lia.
Qed.


(* ================================================================== *)
(** ** log_sample *)




(* ================================================================== *)
(** ** The HTTP handlers *)

Lemma init_has_examples (model : SentenceTransformer) (d : option str) :
  has_examples model (example_embeddings (init model d)).
Proof. unfold has_examples. cbn. repeat constructor; discriminate. Qed.

(** After [main] has bound it, the global of the server refers to the
    singleton. *)
Lemma main_startup_ready
      (model : SentenceTransformer) (d : option str) (w : World model) :
  _classifier w = None ->
  the_classifier (main_startup d w) = Ok (init model d).
Proof.
  intros H. unfold main_startup, get_classifier, the_classifier.
  rewrite H. cbn. rewrite nth_error_app2 by lia.
  now rewrite Nat.sub_diag.
Qed.

(** C7.  A [POST /log] whose body is an object that supplies transcript
    and none of user_label, predicted, confidence and was_overridden
    is answered with 200 and [{logged: true}], and the sample appended to
    the log has user_label "unknown", predicted "unknown", confidence 0
    and was_overridden false (hence correct true). *)
Theorem handle_log_defaults
        (model : SentenceTransformer) (exn_message : exn -> str)
        (self : IntentClassifier model) (body : str)
        (d : list (str * pyval)) (transcript : pyval) (w : World model) :
  the_classifier w = Ok self ->
  Json.loads body = Ok (VDict d) ->
  dict_lookup (lit "transcript") d = Some transcript ->
  dict_lookup (lit "user_label") d = None ->
  dict_lookup (lit "predicted") d = None ->
  dict_lookup (lit "confidence") d = None ->
  dict_lookup (lit "was_overridden") d = None ->
  exists w' : World model,
    handle_log exn_message body w
    = {| response := {| status := 200;
                        data := VDict [(lit "logged", VBool true)] |};
         world := w'; classified := [] |} /\
    files w' (training_log self)
    = Some (log_text self w
              ++ Json.dumps
                   (sample_record transcript (VStr (lit "unknown"))
                                  (VStr (lit "unknown")) (VInt 0)
                                  (VBool true) (VBool false) (utcnow w))
              ++ [c_nl]) /\
    (forall q, q <> training_log self -> files w' q = files w q).
Proof.
  intros Hself Hbody Ht Hu Hp Hc Ho.
  unfold handle_log. rewrite Hbody. cbn [bind py_get].
  unfold dict_get. rewrite Ht, Hu, Hp, Hc, Ho, Hself. cbn [bind].
  unfold log_sample. cbn [py_round bind].
  eexists. split; [reflexivity |]. cbn [files]. split.
  - rewrite append_file_same. reflexivity.
  - intros q Hq. now apply append_file_other.
Qed.

Lemma handle_log_defaults_witness :
  the_classifier Demo.served = Ok (init Demo.model None) /\
  Json.loads Demo.hello_body = Ok (VDict Demo.hello) /\
  exists w' : World Demo.model,
    handle_log Demo.exn_message Demo.hello_body Demo.served
    = {| response := {| status := 200;
                        data := VDict [(lit "logged", VBool true)] |};
         world := w'; classified := [] |} /\
    files w' (training_log (init Demo.model None))
    = Some (log_text (init Demo.model None) Demo.served
              ++ Json.dumps
                   (sample_record (VStr (lit "hello")) (VStr (lit "unknown"))
                                  (VStr (lit "unknown")) (VInt 0)
                                  (VBool true) (VBool false)
                                  (utcnow Demo.served))
              ++ [c_nl]) /\
    (forall q, q <> training_log (init Demo.model None) ->
               files w' q = files Demo.served q).
Proof.
  assert (Hself : the_classifier Demo.served = Ok (init Demo.model None))
    by reflexivity.
  assert (Hbody : Json.loads Demo.hello_body = Ok (VDict Demo.hello))
    by (vm_compute; reflexivity).
  split; [exact Hself |]. split; [exact Hbody |].
  exact (handle_log_defaults
           Demo.model Demo.exn_message (init Demo.model None)
           Demo.hello_body Demo.hello (VStr (lit "hello")) Demo.served
           Hself Hbody eq_refl eq_refl eq_refl eq_refl eq_refl).
Defined.

(** C6 (amended).  [POST /classify] never changes the state.  When the
    body is a JSON object without transcript, or with the empty string as
    transcript, the answer is 400 and nothing is classified.  When the
    body is not a JSON object (no JSON at all, or JSON of another kind), it
    has no transcript either, but the answer is 500 with the message of
    the exception, and nothing is classified.  When the body is a JSON
    object whose transcript is a non-empty string, and the classifier is
    bound and each of its intents has an example, the transcript is
    classified once and the answer is 200 with the object
    [{intent, confidence}] of the classification, the confidence
    rounded to 4 decimal places. *)
Theorem handle_classify_contract
        (model : SentenceTransformer)
        (classify_nontext : pyval -> result (str * Float.float))
        (exn_message : exn -> str) (body : str) (w : World model) :
  world (handle_classify classify_nontext exn_message body w) = w /\
  (forall d : list (str * pyval),
      Json.loads body = Ok (VDict d) ->
      dict_lookup (lit "transcript") d = None \/
      dict_lookup (lit "transcript") d = Some (VStr []) ->
      handle_classify classify_nontext exn_message body w
      = {| response := {| status := 400;
                          data := error_body (lit "Missing transcript") |};
           world := w; classified := [] |}) /\
  (forall (d : list (str * pyval)) (t : str)
          (self : IntentClassifier model),
      Json.loads body = Ok (VDict d) ->
      dict_lookup (lit "transcript") d = Some (VStr t) ->
      t <> [] ->
      the_classifier w = Ok self ->
      has_examples model (example_embeddings self) ->
      exists (intent : str) (confidence : Float.float),
        classify model (example_embeddings self) t = Ok (intent, confidence) /\
        handle_classify classify_nontext exn_message body w
        = {| response :=
               {| status := 200;
                  data := VDict [ (lit "intent", VStr intent);
                                  (lit "confidence",
                                   VFloat (Float.round confidence 4)) ] |};
             world := w; classified := [VStr t] |}) /\
  ((forall d, Json.loads body <> Ok (VDict d)) ->
   exists e : exn,
     (Json.loads body = Raise e \/
      (exists v, Json.loads body = Ok v) /\ e = AttributeError) /\
     handle_classify classify_nontext exn_message body w
     = {| response := {| status := 500;
                         data := error_body (exn_message e) |};
          world := w; classified := [] |}).
Proof.
  split; [| split; [| split]].
  - unfold handle_classify.
    destruct (b <- Json.loads body ;; py_get b (lit "transcript") (VStr []))
      as [tr | e]; [| reflexivity].
    destruct (negb (truthy tr)); [reflexivity |].
    destruct (the_classifier w) as [self | e]; [| reflexivity].
    destruct (r <- classify_method classify_nontext self tr ;;
              c <- py_round (VFloat (snd r)) 4 ;; _); reflexivity.
  - intros d Hbody Hmissing. unfold handle_classify.
    rewrite Hbody. cbn [bind py_get]. unfold dict_get.
    destruct Hmissing as [-> | ->]; reflexivity.
  - intros d t self Hbody Ht Hne Hself Hex.
    destruct (classify_spec model (example_embeddings self) t Hex)
      as (intent & confidence & Hrun & _).
    exists intent, confidence. split; [exact Hrun |].
    unfold handle_classify. rewrite Hbody. cbn [bind py_get].
    unfold dict_get. rewrite Ht.
    destruct t as [| c t]; [congruence |]. cbn [truthy negb].
    rewrite Hself. cbn [classify_method]. rewrite Hrun. reflexivity.
  - intros Hnone. unfold handle_classify.
    destruct (Json.loads body) as [v | e] eqn:Hloads.
    + exists AttributeError.
      split; [right; split; [now exists v | reflexivity] |].
      destruct v as [| b | n | f | s | l | d]; try reflexivity.
      exfalso. now apply (Hnone d).
    + exists e. split; [now left | reflexivity].
Qed.

Lemma handle_classify_contract_witness :
  status (response (handle_classify Demo.classify_nontext Demo.exn_message
                                    Demo.other_body Demo.served)) = 400 /\
  classified (handle_classify Demo.classify_nontext Demo.exn_message
                              Demo.other_body Demo.served) = [] /\
  (exists (intent : str) (confidence : Float.float),
      classify Demo.model (example_embeddings (init Demo.model None))
               (lit "hello") = Ok (intent, confidence) /\
      handle_classify Demo.classify_nontext Demo.exn_message
                      Demo.hello_body Demo.served
      = {| response :=
             {| status := 200;
                data := VDict [ (lit "intent", VStr intent);
                                (lit "confidence",
                                 VFloat (Float.round confidence 4)) ] |};
           world := Demo.served; classified := [VStr (lit "hello")] |}) /\
  exists e : exn,
    (Json.loads (lit "[]") = Raise e \/
     (exists v, Json.loads (lit "[]") = Ok v) /\ e = AttributeError) /\
    handle_classify Demo.classify_nontext Demo.exn_message
                    (lit "[]") Demo.served
    = {| response := {| status := 500;
                        data := error_body (Demo.exn_message e) |};
         world := Demo.served; classified := [] |}.
Proof.
  assert (Hother : Json.loads Demo.other_body = Ok (VDict Demo.other))
    by (vm_compute; reflexivity).
  assert (Hbody : Json.loads Demo.hello_body = Ok (VDict Demo.hello))
    by (vm_compute; reflexivity).
  assert (Hne : lit "hello" <> []) by discriminate.
  assert (Hlist : forall d, Json.loads (lit "[]") <> Ok (VDict d))
    by (intros d; vm_compute; discriminate).
  destruct (handle_classify_contract
              Demo.model Demo.classify_nontext Demo.exn_message
              Demo.other_body Demo.served) as (_ & H400 & _).
  rewrite (H400 Demo.other Hother (or_introl eq_refl)).
  split; [reflexivity |]. split; [reflexivity |].
  destruct (handle_classify_contract
              Demo.model Demo.classify_nontext Demo.exn_message
              Demo.hello_body Demo.served) as (_ & _ & H200 & _).
  split.
  - exact (H200 Demo.hello (lit "hello") (init Demo.model None)
                Hbody eq_refl Hne eq_refl
                (init_has_examples Demo.model None)).
  - destruct (handle_classify_contract
                Demo.model Demo.classify_nontext Demo.exn_message
                (lit "[]") Demo.served) as (_ & _ & _ & H500).
    exact (H500 Hlist).
Defined.

(** C6 as stated fails: a request whose body is the JSON list [[]] has no
    transcript field, and it is answered with 500, not with 400. *)
Lemma classify_request_without_object :
  ~ (forall (body : str) (w : World Demo.model),
        (forall d, Json.loads body = Ok (VDict d) ->
                   dict_lookup (lit "transcript") d = None \/
                   dict_lookup (lit "transcript") d = Some (VStr [])) ->
        status (response (handle_classify Demo.classify_nontext
                                          Demo.exn_message body w)) = 400).
Proof.
  intros H.
  specialize (H (lit "[]") Demo.served).
  assert (Hnone : forall d,
             Json.loads (lit "[]") = Ok (VDict d) ->
             dict_lookup (lit "transcript") d = None \/
             dict_lookup (lit "transcript") d = Some (VStr []))
    by (intros d Hd; vm_compute in Hd; discriminate Hd).
  specialize (H Hnone). vm_compute in H. discriminate H.
Qed.


(* ================================================================== *)
(** ** json.loads reads back what json.dumps wrote *)

(** *** Strings *)

Lemma scan_plain_char (c : char) (r : str) :
  c <> 34%N -> c <> 92%N -> (32 <= c)%N ->
  Json.scanstring (c :: r) = Json.push c (Json.scanstring r).
Proof.
  intros H1 H2 H3. cbn [Json.scanstring].
  destruct (N.eqb_spec c 34); [contradiction |].
  destruct (N.eqb_spec c 92); [contradiction |].
  destruct (N.ltb_spec c 32); [lia | reflexivity].
Qed.

Lemma scan_letter_escape (e x : char) (r : str) :
  e <> 117%N -> Json.backslash_escape e = Some x ->
  Json.scanstring (92%N :: e :: r) = Json.push x (Json.scanstring r).
Proof.
  intros H1 H2. cbn [Json.scanstring].
  change (92 =? 34)%N with false. change (92 =? 92)%N with true. cbv iota.
  destruct (N.eqb_spec e 117); [contradiction |]. now rewrite H2.
Qed.

Lemma scan_u_escape (h1 h2 h3 h4 : char) (u : N) (r : str) :
  Json.hex4 h1 h2 h3 h4 = Some u -> Json.is_high_surrogate u = false ->
  Json.scanstring (92%N :: 117%N :: h1 :: h2 :: h3 :: h4 :: r)
  = Json.push u (Json.scanstring r).
Proof.
  intros H1 H2. cbn [Json.scanstring].
  change (92 =? 34)%N with false. change (92 =? 92)%N with true.
  change (117 =? 117)%N with true. cbv iota.
  now rewrite H1, H2.
Qed.

Lemma scan_surrogate_pair (h1 h2 h3 h4 g1 g2 g3 g4 : char) (u u2 : N)
      (r : str) :
  Json.hex4 h1 h2 h3 h4 = Some u -> Json.is_high_surrogate u = true ->
  Json.hex4 g1 g2 g3 g4 = Some u2 -> Json.is_low_surrogate u2 = true ->
  Json.scanstring (92%N :: 117%N :: h1 :: h2 :: h3 :: h4
                     :: 92%N :: 117%N :: g1 :: g2 :: g3 :: g4 :: r)
  = Json.push (Json.join_surrogates u u2) (Json.scanstring r).
Proof.
  intros H1 H2 H3 H4. cbn [Json.scanstring].
  change (92 =? 34)%N with false. change (92 =? 92)%N with true.
  change (117 =? 117)%N with true. cbv iota.
  rewrite H1, H2. cbn [andb]. now rewrite H3, H4.
Qed.

Lemma hex_val_hex_char (d : N) :
  (d < 16)%N -> Json.hex_val (Json.hex_char d) = Some d.
Proof.
  intros H. unfold Json.hex_val, Json.hex_char.
  destruct (N.ltb_spec d 10).
  - replace ((48 <=? 48 + d) && (48 + d <=? 57))%N with true
      by (symmetry; apply andb_true_iff; rewrite !N.leb_le; lia).
    f_equal. lia.
  - replace ((48 <=? 87 + d) && (87 + d <=? 57))%N with false
      by (symmetry; apply andb_false_iff; right; apply N.leb_gt; lia).
    replace ((97 <=? 87 + d) && (87 + d <=? 102))%N with true
      by (symmetry; apply andb_true_iff; rewrite !N.leb_le; lia).
    f_equal. lia.
Qed.

(** The four hexadecimal digits of [\uXXXX] read back as the number. *)
Lemma hex4_u_escape (c : N) :
  (c < 65536)%N ->
  Json.hex4 (Json.hex_char (c / 4096 mod 16)) (Json.hex_char (c / 256 mod 16))
            (Json.hex_char (c / 16 mod 16)) (Json.hex_char (c mod 16))
  = Some c.
Proof.
  intros H. unfold Json.hex4.
  rewrite !hex_val_hex_char by (apply N.mod_lt; lia).
  f_equal.
  pose proof (N.div_mod c 16 ltac:(lia)) as E0.
  pose proof (N.div_mod (c / 16) 16 ltac:(lia)) as E1.
  pose proof (N.div_mod (c / 256) 16 ltac:(lia)) as E2.
  replace (c / 16 / 16)%N with (c / 256)%N in E1
    by (rewrite N.Div0.div_div; reflexivity).
  replace (c / 256 / 16)%N with (c / 4096)%N in E2
    by (rewrite N.Div0.div_div; reflexivity).
  assert (c / 4096 < 16)%N by (apply N.Div0.div_lt_upper_bound; lia).
  rewrite (N.mod_small (c / 4096) 16) by assumption. lia.
Qed.

Lemma scan_escape_char (c : char) (r : str) :
  scalar c ->
  Json.scanstring (Json.escape_char c ++ r) = Json.push c (Json.scanstring r).
Proof.
  intros Hc. unfold Json.escape_char.
  destruct (N.eqb_spec c 34) as [-> | N34];
    [now apply scan_letter_escape |].
  destruct (N.eqb_spec c 92) as [-> | N92];
    [now apply scan_letter_escape |].
  destruct (N.eqb_spec c 10) as [-> | N10];
    [now apply scan_letter_escape |].
  destruct (N.eqb_spec c 13) as [-> | N13];
    [now apply scan_letter_escape |].
  destruct (N.eqb_spec c 9) as [-> | N9];
    [now apply scan_letter_escape |].
  destruct (N.eqb_spec c 8) as [-> | N8];
    [now apply scan_letter_escape |].
  destruct (N.eqb_spec c 12) as [-> | N12];
    [now apply scan_letter_escape |].
  destruct ((32 <=? c)%N && (c <=? 126)%N) eqn:Hp.
  - apply andb_true_iff in Hp. rewrite !N.leb_le in Hp.
    apply scan_plain_char; trivial; lia.
  - clear Hp N34 N92 N10 N13 N9 N8 N12.
    destruct (N.ltb_spec c 65536) as [Hlt | Hge].
    + unfold Json.u_escape. cbn [app].
      apply scan_u_escape; [now apply hex4_u_escape |].
      unfold Json.is_high_surrogate, scalar in *.
      apply andb_false_iff. rewrite !N.leb_gt. lia.
    + unfold scalar in Hc.
      assert (Hv : (c - 65536 < 1048576)%N) by lia.
      remember (c - 65536)%N as v eqn:Ev.
      assert (Hq : (v / 1024 < 1024)%N)
        by (apply N.Div0.div_lt_upper_bound; lia).
      rewrite (N.mod_small (v / 1024) 1024) by assumption.
      assert (Hm : (v mod 1024 < 1024)%N) by (apply N.mod_lt; lia).
      pose proof (N.div_mod v 1024 ltac:(lia)) as E.
      remember (v / 1024)%N as q eqn:Eq. remember (v mod 1024)%N as m eqn:Em.
      clear Eq Em. unfold char in *.
      unfold Json.u_escape. cbn [app].
      rewrite scan_surrogate_pair
        with (u := (55296 + q)%N) (u2 := (56320 + m)%N).
      * f_equal. unfold Json.join_surrogates. lia.
      * apply hex4_u_escape. lia.
      * unfold Json.is_high_surrogate.
        apply andb_true_iff. rewrite !N.leb_le. lia.
      * apply hex4_u_escape. lia.
      * unfold Json.is_low_surrogate.
        apply andb_true_iff. rewrite !N.leb_le. lia.
Qed.

(** What [encode_basestring_ascii] wrote between the quotes is read back
    as the text itself, for text that is valid Unicode. *)
Lemma scan_escaped (s rest : str) :
  unicode_text s ->
  Json.scanstring (List.flat_map Json.escape_char s ++ c_dquote :: rest)
  = Some (s, rest).
Proof.
  induction 1 as [| c s Hc Hs IH]; cbn [List.flat_map app].
  - reflexivity.
  - rewrite <- app_assoc, scan_escape_char by exact Hc.
    now rewrite IH.
Qed.

Lemma scan_encoded (s rest : str) :
  unicode_text s ->
  exists body,
    Json.encode_str s ++ rest = c_dquote :: body /\
    Json.scanstring body = Some (s, rest).
Proof.
  intros H. unfold Json.encode_str.
  exists (List.flat_map Json.escape_char s ++ c_dquote :: rest). split.
  - cbn [app]. now rewrite <- app_assoc.
  - now apply scan_escaped.
Qed.

Lemma plain_unicode_text (s : str) : plain s -> unicode_text s.
Proof.
  unfold plain, unicode_text. intros H. eapply Forall_impl; [| exact H].
  unfold printable, scalar. intros c Hc. lia.
Qed.

(** *** Numbers *)

Lemma span_digits_app (ds rest : str) :
  all_digits ds -> stops rest -> Json.span_digits (ds ++ rest) = (ds, rest).
Proof.
  intros Hds Hrest. induction Hds as [| c ds Hc Hds IH]; cbn [app].
  - destruct rest as [| c r]; [reflexivity |]. cbn in *. now rewrite Hrest.
  - cbn [Json.span_digits]. now rewrite Hc, IH.
Qed.

Lemma digits_acc_nonempty (fuel : nat) (n : Z) (acc : str) :
  acc <> [] \/ fuel <> O -> digits_acc fuel n acc <> [].
Proof.
  revert n acc. induction fuel as [| fuel IH]; intros n acc H; cbn.
  - destruct H; congruence.
  - destruct (n / 10 =? 0); [discriminate |].
    apply IH. left. discriminate.
Qed.

Lemma nat_repr_nonempty (n : Z) : nat_repr n <> [].
Proof. apply digits_acc_nonempty. right. discriminate. Qed.

(** With enough fuel the first digit written is not [0]. *)
Lemma digits_acc_head (fuel : nat) (n : Z) (acc : str) :
  0 < n < 2 ^ Z.of_nat fuel -> all_digits acc ->
  exists d r, digits_acc fuel n acc = d :: r /\
              is_digit d = true /\ d <> c_zero /\ all_digits r.
Proof.
  revert n acc. induction fuel as [| fuel IH]; intros n acc Hn Hacc.
  - cbn in Hn. lia.
  - cbn [digits_acc].
    assert (Hmod : 0 <= n mod 10 < 10) by (apply Z.mod_pos_bound; lia).
    assert (Hd : is_digit (digit_char (n mod 10)) = true)
      by now apply digit_char_digit.
    destruct (Z.eqb_spec (n / 10) 0) as [Hq | Hq].
    + exists (digit_char (n mod 10)), acc. repeat split; trivial.
      pose proof (Z.div_mod n 10 ltac:(lia)) as E.
      unfold digit_char, c_zero. intros H.
      assert (n mod 10 = 0) by lia. lia.
    + apply IH; [| now constructor].
      rewrite Nat2Z.inj_succ, Z.pow_succ_r in Hn by lia.
      pose proof (Z.div_mod n 10 ltac:(lia)) as E.
      assert (0 <= n / 10) by (apply Z.div_pos; lia).
      split; [lia |].
      apply Z.div_lt_upper_bound; lia.
Qed.

Lemma nat_repr_head (n : Z) :
  0 < n ->
  exists d r, nat_repr n = d :: r /\
              is_digit d = true /\ d <> c_zero /\ all_digits r.
Proof.
  intros Hn. unfold nat_repr. apply digits_acc_head; [| constructor].
  split; [exact Hn |].
  rewrite Nat2Z.inj_succ, Z2Nat.id by apply Z.log2_nonneg.
  apply Z.log2_spec. exact Hn.
Qed.

Lemma all_digits_app (a b : str) :
  all_digits a -> all_digits b -> all_digits (a ++ b).
Proof. unfold all_digits. intros. apply Forall_app. now split. Qed.

Lemma zero_is_digit : is_digit c_zero = true.
Proof. reflexivity. Qed.

(** [format_short] writes a float token whenever the digits do not start
    with [0]. *)
Lemma format_short_token (d : char) (r : str) (k : Z) :
  is_digit d = true -> d <> c_zero -> all_digits r ->
  float_token (Float.format_short (d :: r) k).
Proof.
  intros Hd Hnz Hr.
  assert (Hds : all_digits (d :: r)) by now constructor.
  unfold Float.format_short.
  destruct ((-4 <? k) && (k <=? 16)).
  - destruct (Z.leb_spec k 0) as [Hk | Hk].
    + exists [c_zero], (c_dot :: Float.zeros (Z.to_nat (- k)) ++ d :: r),
        (Float.zeros (Z.to_nat (- k)) ++ d :: r), [].
      split; [now rewrite app_nil_r |].
      split; [now left |]. split.
      * right. split; [reflexivity |]. split.
        -- intros H. apply app_eq_nil in H. destruct H; discriminate.
        -- apply all_digits_app; [apply zeros_digits | exact Hds].
      * split; [now left | left; discriminate].
    + destruct (Z.leb_spec (Z.of_nat (List.length (d :: r))) k) as [Hn | Hn].
      * exists ((d :: r) ++ Float.zeros
                  (Z.to_nat (k - Z.of_nat (List.length (d :: r))))),
          [c_dot; c_zero], [c_zero], [].
        split; [now rewrite app_nil_r, <- app_assoc |].
        split.
        -- right. exists d, (r ++ Float.zeros
                               (Z.to_nat (k - Z.of_nat (List.length (d :: r))))).
           repeat split; trivial.
           apply all_digits_app; [exact Hr | apply zeros_digits].
        -- split.
           ++ right. repeat split; [discriminate |].
              constructor; [reflexivity | constructor].
           ++ split; [now left | left; discriminate].
      * destruct (Z.to_nat k) as [| k'] eqn:Ek; [lia |].
        assert (Hlen : (k' < List.length r)%nat) by (cbn in Hn; lia).
        exists (d :: List.firstn k' r), (c_dot :: List.skipn k' r),
          (List.skipn k' r), [].
        cbn [List.firstn List.skipn app].
        split; [now rewrite app_nil_r |].
        pose proof (firstn_skipn k' r) as Hsplit.
        assert (Hboth : all_digits (List.firstn k' r)
                        /\ all_digits (List.skipn k' r)).
        { apply Forall_app. unfold all_digits in Hr.
          now rewrite Hsplit. }
        split.
        -- right. exists d, (List.firstn k' r). now repeat split.
        -- split.
           ++ right. repeat split; [| apply Hboth].
              intros H. apply (f_equal (@List.length char)) in H.
              rewrite length_skipn in H. cbn in H. lia.
           ++ split; [now left | left; discriminate].
  - set (x := k - 1).
    set (xs := nat_repr (Z.abs x)).
    set (sg := if x <? 0 then c_minus else c_plus).
    set (xd := if Z.abs x <? 10 then c_zero :: xs else xs).
    assert (Hxs : all_digits xs) by apply nat_repr_digits.
    assert (Hxd : all_digits xd /\ xd <> []).
    { unfold xd. destruct (Z.abs x <? 10).
      - split; [now constructor | discriminate].
      - split; [exact Hxs | apply nat_repr_nonempty]. }
    assert (Hex : exp_part (c_e :: sg :: xd)).
    { right. exists sg, xd. repeat split; try apply Hxd.
      unfold sg. destruct (x <? 0); [now right | now left]. }
    destruct r as [| d' r'].
    + exists [d], [], [], (c_e :: sg :: xd).
      split; [reflexivity |].
      split; [right; exists d, []; repeat split; trivial; constructor |].
      split; [now left |]. split; [exact Hex | right; discriminate].
    + exists [d], (c_dot :: d' :: r'), (d' :: r'), (c_e :: sg :: xd).
      split; [reflexivity |].
      split; [right; exists d, []; repeat split; trivial; constructor |].
      split; [right; repeat split; [discriminate | exact Hr] |].
      split; [exact Hex | right; discriminate].
Qed.

Lemma scan_number_minus (s1 : str) :
  Json.scan_number (c_minus :: s1) = number_body true s1.
Proof. reflexivity. Qed.

Lemma scan_number_digit (c : char) (r : str) :
  is_digit c = true -> Json.scan_number (c :: r) = number_body false (c :: r).
Proof.
  intros H. unfold Json.scan_number.
  destruct (N.eqb_spec c 45) as [-> | _]; [discriminate | reflexivity].
Qed.

Lemma scan_frac_ok (fr fp tail : str) :
  frac_part fr fp -> stops tail ->
  (forall r, tail <> c_dot :: r) ->
  Json.scan_frac (fr ++ tail) = (fp, tail).
Proof.
  intros [[-> ->] | (-> & Hne & Hfp)] Hstop Hdot.
  - cbn [app]. unfold Json.scan_frac.
    destruct tail as [| d [| x r]]; try reflexivity.
    destruct (N.eqb_spec d 46) as [-> | _]; [| reflexivity].
    now specialize (Hdot (x :: r)).
  - destruct fp as [| x fp']; [congruence |].
    cbn [app]. unfold Json.scan_frac.
    change (c_dot =? 46)%N with true.
    inversion Hfp as [| ? ? Hx Hrest]; subst. rewrite Hx. cbn [andb].
    apply (span_digits_app (x :: fp') tail); assumption.
Qed.

Lemma scan_exp_ok (ex rest : str) :
  exp_part ex ->
  exists o, Json.scan_exp (ex ++ c_comma :: rest) = (o, c_comma :: rest) /\
            (ex <> [] -> o <> None).
Proof.
  intros [-> | (sg & xd & -> & Hsg & Hne & Hxd)].
  - exists None. split; [reflexivity | congruence].
  - destruct xd as [| x xd']; [congruence |].
    assert (Hspan : Json.span_digits ((x :: xd') ++ c_comma :: rest)
                    = (x :: xd', c_comma :: rest))
      by (apply span_digits_app; [exact Hxd | reflexivity]).
    cbn [app] in *. unfold Json.scan_exp.
    change ((c_e =? 101)%N || (c_e =? 69)%N) with true. cbv iota.
    destruct Hsg as [-> | ->].
    + change ((c_plus =? 43)%N || (c_plus =? 45)%N) with true. cbv iota.
      rewrite Hspan. eexists. split; [reflexivity | discriminate].
    + change ((c_minus =? 43)%N || (c_minus =? 45)%N) with true. cbv iota.
      rewrite Hspan. eexists. split; [reflexivity | discriminate].
Qed.

Lemma exp_tail_stops (ex rest : str) :
  exp_part ex ->
  stops (ex ++ c_comma :: rest) /\
  forall r, ex ++ c_comma :: rest <> c_dot :: r.
Proof.
  intros [-> | (sg & xd & -> & _)]; cbn; split; trivial; discriminate.
Qed.

Lemma frac_tail_stops (fr fp tail : str) :
  frac_part fr fp -> stops tail -> stops (fr ++ tail).
Proof. intros [[-> ->] | (-> & _)] H; [exact H | reflexivity]. Qed.

(** A float token followed by a comma is read as a float, up to the
    comma. *)
Lemma number_body_token (neg : bool) (tok rest : str) :
  float_token tok ->
  exists f, number_body neg (tok ++ c_comma :: rest)
            = Some (VFloat f, c_comma :: rest).
Proof.
  intros (ip & fr & fp & ex & -> & Hip & Hfr & Hex & Hfloat).
  rewrite <- !app_assoc.
  destruct (exp_tail_stops ex rest Hex) as [Hstop2 Hdot2].
  pose proof (frac_tail_stops fr fp _ Hfr Hstop2) as Hstop1.
  pose proof (scan_frac_ok fr fp _ Hfr Hstop2 Hdot2) as Hfrac.
  destruct (scan_exp_ok ex rest Hex) as (o & Hexp & Ho).
  assert (Hfinal :
            forall ip',
            exists f,
              (let '(fp0, r2) := Json.scan_frac (fr ++ ex ++ c_comma :: rest) in
               let '(ex0, r3) := Json.scan_exp r2 in
               match fp0, ex0 with
               | [], None =>
                   Some (VInt (if neg then - Json.digits_val ip'
                               else Json.digits_val ip'), r3)
               | _, None =>
                   Some (VFloat (Json.float_of_literal neg ip' fp0 0), r3)
               | _, Some x =>
                   Some (VFloat (Json.float_of_literal neg ip' fp0 x), r3)
               end) = Some (VFloat f, c_comma :: rest)).
  { intros ip'. rewrite Hfrac, Hexp.
    destruct o as [x |].
    - destruct fp; eexists; reflexivity.
    - destruct fp as [| y fp']; [| eexists; reflexivity].
      exfalso. destruct Hfloat as [H | H]; [| now apply Ho].
      destruct Hfr as [[-> _] | (_ & Hne & _)]; congruence. }
  destruct Hip as [-> | (d & r & -> & Hd & Hnz & Hr)].
  - cbn [app]. unfold number_body.
    change (is_digit c_zero) with true. change (c_zero =? 48)%N with true.
    cbv iota. apply Hfinal.
  - cbn [app]. unfold number_body. rewrite Hd.
    destruct (N.eqb_spec d 48) as [E | _]; [contradiction |].
    change (d :: r ++ fr ++ ex ++ c_comma :: rest)
      with ((d :: r) ++ fr ++ ex ++ c_comma :: rest).
    rewrite span_digits_app; [| now constructor | exact Hstop1].
    apply Hfinal.
Qed.

Lemma float_token_head (tok : str) :
  float_token tok -> exists c r, tok = c :: r /\ is_digit c = true.
Proof.
  intros (ip & fr & fp & ex & -> & [-> | (d & r & -> & Hd & _)] & _).
  - eexists. eexists. split; [reflexivity | reflexivity].
  - eexists. eexists. split; [reflexivity | exact Hd].
Qed.

Lemma strip_prefix_mismatch (a c : char) (w r : str) :
  a <> c -> Json.strip_prefix (a :: w) (c :: r) = None.
Proof.
  intros H. cbn [Json.strip_prefix]. unfold char_eqb.
  destruct (N.eqb_spec a c); [contradiction | reflexivity].
Qed.

Lemma strip_prefix_match (a : char) (w r : str) :
  Json.strip_prefix (a :: w) (a :: r) = Json.strip_prefix w r.
Proof.
  cbn [Json.strip_prefix]. unfold char_eqb. now rewrite N.eqb_refl.
Qed.

(** [scan_once] on text that starts with a digit goes to the number. *)
Lemma parse_value_digit (fuel : nat) (c : char) (r : str) :
  is_digit c = true ->
  Json.parse_value (S fuel) (c :: r)
  = match number_body false (c :: r) with
    | Some (v, r') => Json.POk v r'
    | None => Json.PErr
    end.
Proof.
  intros Hd. pose proof Hd as Hd'. unfold is_digit in Hd'.
  apply andb_true_iff in Hd'. rewrite !N.leb_le in Hd'.
  cbn [Json.parse_value].
  repeat match goal with
         | |- context [(c =? ?k)%N] =>
             destruct (N.eqb_spec c k) as [E | _];
             [exfalso; unfold char in *; lia |]
         end.
  change (lit "-Infinity") with (c_minus :: lit "Infinity").
  rewrite strip_prefix_mismatch
    by (unfold c_minus, char in *; intros E; lia).
  now rewrite scan_number_digit.
Qed.

Lemma parse_value_minus_digit (fuel : nat) (c : char) (r : str) :
  is_digit c = true ->
  Json.parse_value (S fuel) (c_minus :: c :: r)
  = match number_body true (c :: r) with
    | Some (v, r') => Json.POk v r'
    | None => Json.PErr
    end.
Proof.
  intros Hd. pose proof Hd as Hd'. unfold is_digit in Hd'.
  apply andb_true_iff in Hd'. rewrite !N.leb_le in Hd'.
  cbn [Json.parse_value].
  change (c_minus =? 34)%N with false. change (c_minus =? 123)%N with false.
  change (c_minus =? 91)%N with false. change (c_minus =? 110)%N with false.
  change (c_minus =? 116)%N with false. change (c_minus =? 102)%N with false.
  change (c_minus =? 78)%N with false. change (c_minus =? 73)%N with false.
  cbv iota.
  change (lit "-Infinity") with (c_minus :: 73%N :: lit "nfinity").
  rewrite strip_prefix_match, strip_prefix_mismatch
    by (unfold char in *; intros E; lia).
  now rewrite scan_number_minus.
Qed.

Lemma parse_signed_token (neg : bool) (tok : str) (fuel : nat) (rest : str) :
  float_token tok ->
  exists f,
    Json.parse_value (S fuel)
      (((if neg then [c_minus] else []) ++ tok) ++ c_comma :: rest)
    = Json.POk (VFloat f) (c_comma :: rest).
Proof.
  intros Htok.
  destruct (number_body_token neg tok rest Htok) as [f Hf].
  destruct (float_token_head tok Htok) as (c & r & -> & Hd).
  exists f. destruct neg; cbn [app] in *.
  - rewrite parse_value_minus_digit by exact Hd. now rewrite Hf.
  - rewrite parse_value_digit by exact Hd. now rewrite Hf.
Qed.

Lemma zero_point_zero_token : float_token (lit "0.0").
Proof.
  exists [c_zero], [c_dot; c_zero], [c_zero], [].
  split; [reflexivity |]. split; [now left |]. split.
  - right. repeat split; [discriminate |].
    constructor; [reflexivity | constructor].
  - split; [now left | left; discriminate].
Qed.

(** Whatever float [json.dumps] wrote before a comma, [json.loads] reads a
    float there. *)
Lemma parse_encoded_float (f : Float.float) (fuel : nat) (rest : str) :
  exists f',
    Json.parse_value (S fuel) (Json.encode_float f ++ c_comma :: rest)
    = Json.POk (VFloat f') (c_comma :: rest).
Proof.
  destruct f as [s | s | | s m e]; cbn [Json.encode_float].
  - unfold Float.repr_finite.
    apply (parse_signed_token s (lit "0.0")), zero_point_zero_token.
  - destruct s; eexists; reflexivity.
  - eexists; reflexivity.
  - unfold Float.repr_finite.
    destruct (Float.shortest 16 1 m e (Float.decpt m e)) as [c q].
    destruct (Float.strip_zeros 17 c q) as [c' q'].
    apply (parse_signed_token s). destruct c' as [| p | p].
    + apply zero_point_zero_token.
    + destruct (nat_repr_head (Zpos p) ltac:(lia))
        as (d & r & Hrepr & Hd & Hnz & Hr).
      cbv zeta. rewrite Hrepr. now apply format_short_token.
    + apply zero_point_zero_token.
Qed.

(** *** Values and members *)

Lemma parse_encoded_str (s : str) (fuel : nat) (rest : str) :
  unicode_text s ->
  Json.parse_value (S fuel) (Json.encode_str s ++ rest)
  = Json.POk (VStr s) rest.
Proof.
  intros H. destruct (scan_encoded s rest H) as (body & -> & Hscan).
  cbn [Json.parse_value]. change (c_dquote =? 34)%N with true. cbv iota.
  now rewrite Hscan.
Qed.

Lemma parse_dumped_bool (b : bool) (fuel : nat) (rest : str) :
  Json.parse_value (S fuel) (Json.dumps (VBool b) ++ rest)
  = Json.POk (VBool b) rest.
Proof. destruct b; reflexivity. Qed.

(** A value never starts with white space. *)
Lemma parse_ok_head (fuel : nat) (T : str) (v : pyval) (r : str) :
  Json.parse_value fuel T = Json.POk v r ->
  Json.skip_ws (c_space :: T) = T.
Proof.
  intros H. destruct fuel as [| fuel]; [discriminate |].
  destruct T as [| c T']; [discriminate |].
  change (Json.skip_ws (c_space :: c :: T')) with (Json.skip_ws (c :: T')).
  cbn [Json.skip_ws].
  destruct (Json.is_ws c) eqn:Hws; [| reflexivity].
  exfalso. unfold Json.is_ws in Hws.
  repeat (apply orb_true_iff in Hws; destruct Hws as [Hws | Hws]);
    apply N.eqb_eq in Hws; subst c; discriminate H.
Qed.

Lemma skip_ws_encoded (k rest : str) :
  Json.skip_ws (c_space :: Json.encode_str k ++ rest)
  = Json.encode_str k ++ rest.
Proof. reflexivity. Qed.

(** One member of an object, followed by another one. *)
Lemma members_comma (f : nat) (acc : list (str * pyval)) (k vt : str)
      (v : pyval) (k' X : str) :
  unicode_text k ->
  Json.parse_value f (vt ++ c_comma :: c_space :: Json.encode_str k' ++ X)
  = Json.POk v (c_comma :: c_space :: Json.encode_str k' ++ X) ->
  Json.parse_members (S f) acc
    (Json.encode_str k ++ c_colon :: c_space :: vt
       ++ c_comma :: c_space :: Json.encode_str k' ++ X)
  = Json.parse_members f (dict_set k v acc) (Json.encode_str k' ++ X).
Proof.
  intros Hk Hv.
  destruct (scan_encoded k (c_colon :: c_space :: vt ++ c_comma :: c_space
                              :: Json.encode_str k' ++ X) Hk)
    as (body & -> & Hscan).
  cbn [Json.parse_members]. change (c_dquote =? 34)%N with true. cbv iota.
  rewrite Hscan.
  change (Json.skip_ws (c_colon :: ?t)) with (c_colon :: t).
  change (c_colon =? 58)%N with true. cbv iota.
  rewrite (parse_ok_head f _ _ _ Hv), Hv.
  change (Json.skip_ws (c_comma :: ?t)) with (c_comma :: t).
  change (c_comma =? 125)%N with false. change (c_comma =? 44)%N with true.
  cbv iota. now rewrite skip_ws_encoded.
Qed.

(** The last member of an object. *)
Lemma members_close (f : nat) (acc : list (str * pyval)) (k vt : str)
      (v : pyval) (rest : str) :
  unicode_text k ->
  Json.parse_value f (vt ++ c_rbrace :: rest)
  = Json.POk v (c_rbrace :: rest) ->
  Json.parse_members (S f) acc
    (Json.encode_str k ++ c_colon :: c_space :: vt ++ c_rbrace :: rest)
  = Json.POk (VDict (dict_set k v acc)) rest.
Proof.
  intros Hk Hv.
  destruct (scan_encoded k (c_colon :: c_space :: vt ++ c_rbrace :: rest) Hk)
    as (body & -> & Hscan).
  cbn [Json.parse_members]. change (c_dquote =? 34)%N with true. cbv iota.
  rewrite Hscan.
  change (Json.skip_ws (c_colon :: ?t)) with (c_colon :: t).
  change (c_colon =? 58)%N with true. cbv iota.
  rewrite (parse_ok_head f _ _ _ Hv), Hv.
  change (Json.skip_ws (c_rbrace :: ?t)) with (c_rbrace :: t).
  change (c_rbrace =? 125)%N with true. cbv iota. reflexivity.
Qed.

(** The opening brace of a non-empty object. *)
Lemma parse_object_open (f : nat) (k X : str) :
  Json.parse_value (S f) (c_lbrace :: Json.encode_str k ++ X)
  = Json.parse_members f [] (Json.encode_str k ++ X).
Proof. reflexivity. Qed.

(** *** One line of the log *)

Lemma isoformat_plain (t : datetime) : plain (isoformat t ++ lit "Z").
Proof.
  unfold isoformat. destruct (microsecond t =? 0);
    repeat match goal with
           | |- plain (pad_digits _ _) => apply digits_plain, pad_digits_digits
           | |- plain (_ ++ _) => apply plain_app
           | |- plain (_ :: _) => apply plain_cons; [cbv; split; discriminate |]
           | |- plain (lit _) => plain_lit
           | |- plain [] => constructor
           end.
Qed.

(** The text of a record, member by member. *)
Lemma sample_record_text
      (v1 v2 v3 v4 v5 v6 : pyval) (now : datetime) (rest : str) :
  Json.dumps (sample_record v1 v2 v3 v4 v5 v6 now) ++ rest
  = c_lbrace
      :: Json.encode_str (lit "transcript") ++ c_colon :: c_space
      :: Json.dumps v1 ++ c_comma :: c_space
      :: Json.encode_str (lit "user_label") ++ c_colon :: c_space
      :: Json.dumps v2 ++ c_comma :: c_space
      :: Json.encode_str (lit "predicted") ++ c_colon :: c_space
      :: Json.dumps v3 ++ c_comma :: c_space
      :: Json.encode_str (lit "confidence") ++ c_colon :: c_space
      :: Json.dumps v4 ++ c_comma :: c_space
      :: Json.encode_str (lit "correct") ++ c_colon :: c_space
      :: Json.dumps v5 ++ c_comma :: c_space
      :: Json.encode_str (lit "was_overridden") ++ c_colon :: c_space
      :: Json.dumps v6 ++ c_comma :: c_space
      :: Json.encode_str (lit "ts") ++ c_colon :: c_space
      :: Json.dumps (VStr (isoformat now ++ lit "Z")) ++ c_rbrace :: rest.
Proof.
  unfold sample_record.
  change (Json.dumps (VDict ?d))
    with (c_lbrace
            :: Json.join
                 (List.map (fun kv => Json.encode_str (fst kv) ++ c_colon
                                        :: c_space :: Json.dumps (snd kv)) d)
            ++ [c_rbrace]).
  cbn [List.map Json.join fst snd].
  repeat (rewrite <- app_assoc; cbn [app]).
  reflexivity.
Qed.

Lemma json_fuel_enough (s : str) :
  (4 <= List.length s)%nat -> exists n, Json.json_fuel s = (9 + n)%nat.
Proof.
  intros H. exists (Json.json_fuel s - 9)%nat. unfold Json.json_fuel. lia.
Qed.

Lemma literal_key (k : string) :
  List.forallb (fun c => (32 <=? c)%N && (c <=? 126)%N) (lit k) = true ->
  unicode_text (lit k).
Proof. intros H. now apply plain_unicode_text, plain_lit_check. Qed.

Lemma number_body_int (neg : bool) (ip rest : str) :
  int_part ip ->
  exists m, number_body neg (ip ++ c_comma :: rest)
            = Some (VInt m, c_comma :: rest).
Proof.
  intros Hip.
  assert (Hfrac : Json.scan_frac (c_comma :: rest) = ([], c_comma :: rest)).
  { apply (scan_frac_ok [] [] (c_comma :: rest));
      [left; split; reflexivity | reflexivity | intros r; discriminate]. }
  assert (Hexp : Json.scan_exp (c_comma :: rest) = (None, c_comma :: rest))
    by reflexivity.
  destruct Hip as [-> | (d & r & -> & Hd & Hnz & Hr)].
  - cbn [app]. unfold number_body.
    change (is_digit c_zero) with true. change (c_zero =? 48)%N with true.
    cbv iota. rewrite Hfrac, Hexp. eexists; reflexivity.
  - cbn [app]. unfold number_body. rewrite Hd.
    destruct (N.eqb_spec d 48) as [E | _]; [contradiction |].
    change (d :: r ++ c_comma :: rest) with ((d :: r) ++ c_comma :: rest).
    rewrite span_digits_app; [| now constructor | reflexivity].
    rewrite Hfrac, Hexp. eexists; reflexivity.
Qed.

Lemma int_repr_token (n : Z) :
  exists (neg : bool) (ip : str),
    int_repr n = (if neg then [c_minus] else []) ++ ip /\ int_part ip.
Proof.
  unfold int_repr. destruct (Z.ltb_spec n 0) as [Hn | Hn].
  - destruct (nat_repr_head (- n) ltac:(lia)) as (d & r & -> & H).
    exists true, (d :: r). split; [reflexivity |]. right. now exists d, r.
  - destruct (Z.eq_dec n 0) as [-> | Hnz].
    + exists false, [c_zero]. split; [reflexivity | now left].
    + destruct (nat_repr_head n ltac:(lia)) as (d & r & -> & H).
      exists false, (d :: r). split; [reflexivity |]. right. now exists d, r.
Qed.

(** Whatever int [json.dumps] wrote before a comma, [json.loads] reads an
    int there. *)
Lemma parse_encoded_int (n : Z) (fuel : nat) (rest : str) :
  exists m,
    Json.parse_value (S fuel) (int_repr n ++ c_comma :: rest)
    = Json.POk (VInt m) (c_comma :: rest).
Proof.
  destruct (int_repr_token n) as (neg & ip & -> & Hip).
  destruct (number_body_int neg ip rest Hip) as [m Hm].
  assert (Hhead : exists c r, ip = c :: r /\ is_digit c = true).
  { destruct Hip as [-> | (d & r & -> & Hd & _)].
    - eexists. eexists. split; reflexivity.
    - eexists. eexists. split; [reflexivity | exact Hd]. }
  destruct Hhead as (c & r & -> & Hd). exists m.
  destruct neg; cbn [app] in *.
  - rewrite parse_value_minus_digit by exact Hd. now rewrite Hm.
  - rewrite parse_value_digit by exact Hd. now rewrite Hm.
Qed.

Lemma parse_encoded_number (v : pyval) (fuel : nat) (rest : str) :
  number v ->
  exists v',
    number v' /\
    Json.parse_value (S fuel) (Json.dumps v ++ c_comma :: rest)
    = Json.POk v' (c_comma :: rest).
Proof.
  destruct v as [| b | n | f | s | l | d]; cbn [number]; try contradiction;
    intros _.
  - destruct (parse_encoded_int n fuel rest) as [m Hm].
    exists (VInt m). split; [exact I | exact Hm].
  - destruct (parse_encoded_float f fuel rest) as [f' Hf].
    exists (VFloat f'). split; [exact I | exact Hf].
Qed.

(** [json.loads] reads a line written by [log_sample] back as the record
    that was written, the confidence as some number. *)
Lemma loads_sample (t u p : str) (c : pyval) (b o : bool)
      (now : datetime) :
  unicode_text t -> unicode_text u -> unicode_text p -> number c ->
  exists c' : pyval,
    number c' /\
    Json.loads (Json.dumps (sample_record (VStr t) (VStr u) (VStr p)
                                          c (VBool b) (VBool o) now)
                  ++ [c_nl])
    = Ok (sample_record (VStr t) (VStr u) (VStr p) c'
                        (VBool b) (VBool o) now).
Proof.
  intros Ht Hu Hp Hc.
  assert (Hts : unicode_text (isoformat now ++ lit "Z"))
    by apply plain_unicode_text, isoformat_plain.
  rewrite sample_record_text. unfold Json.loads.
  match goal with
  | |- context [Json.json_fuel ?s] =>
      destruct (json_fuel_enough s) as [n ->]
  end.
  { unfold Json.encode_str at 1. cbn [List.length app].
    rewrite !length_app. cbn [List.length]. lia. }
  cbn [Nat.add].
  change (Json.skip_ws (c_lbrace :: ?x)) with (c_lbrace :: x).
  rewrite parse_object_open.
  erewrite members_comma;
    [| apply literal_key; reflexivity | now apply parse_encoded_str].
  erewrite members_comma;
    [| apply literal_key; reflexivity | now apply parse_encoded_str].
  erewrite members_comma;
    [| apply literal_key; reflexivity | now apply parse_encoded_str].
  match goal with
  | |- context [Json.parse_members (S (S ?f)) _
                  (_ ++ _ :: _ :: Json.dumps c ++ c_comma :: ?R)] =>
      destruct (parse_encoded_number c f R Hc) as (c' & Hnum & Hc')
  end.
  erewrite members_comma;
    [| apply literal_key; reflexivity | exact Hc'].
  erewrite members_comma;
    [| apply literal_key; reflexivity | apply parse_dumped_bool].
  erewrite members_comma;
    [| apply literal_key; reflexivity | apply parse_dumped_bool].
  erewrite members_close;
    [| apply literal_key; reflexivity | now apply parse_encoded_str].
  exists c'. split; [exact Hnum | reflexivity].
Qed.

(* ================================================================== *)
(** ** Reading the log line by line *)

Lemma universal_newlines_plain_app (a b : str) :
  ~ In c_cr a ->
  universal_newlines (a ++ b) = a ++ universal_newlines b.
Proof.
  induction a as [| c a IH]; intros H; cbn [app]; [reflexivity |].
  cbn [universal_newlines].
  destruct (N.eqb_spec c 13) as [-> | _]; [exfalso; apply H; now left |].
  rewrite IH; [reflexivity |]. intros Hin. apply H. now right.
Qed.

(** Translation of a text that is followed by something other than a
    line feed: the two parts translate independently. *)
Lemma universal_newlines_app (a b : str) :
  (forall r, b <> c_nl :: r) ->
  universal_newlines (a ++ b) = universal_newlines a ++ universal_newlines b.
Proof.
  intros Hb. induction a as [| c a IH]; [reflexivity |].
  cbn [app]. cbn [universal_newlines].
  destruct (N.eqb_spec c 13) as [-> | _].
  - destruct a as [| d a'].
    + cbn [app]. destruct b as [| d b']; [reflexivity |].
      destruct (N.eqb_spec d 10) as [-> | _]; [| reflexivity].
      exfalso. now apply (Hb b').
    + cbn [app] in *. cbn [universal_newlines] in IH.
      destruct (N.eqb_spec d 10) as [-> | Hd].
      * change (10 =? 13)%N with false in IH. cbv iota in IH.
        injection IH as IH. cbn [app]. now rewrite IH.
      * cbn [app]. f_equal. exact IH.
  - cbn [app]. now rewrite IH.
Qed.

(** A text that ends with a line feed still does after translation. *)
Lemma universal_newlines_ends (body : str) :
  exists x, universal_newlines (body ++ [c_nl]) = x ++ [c_nl].
Proof.
  induction body as [| c body IH]; [now exists [] |].
  cbn [app]. cbn [universal_newlines].
  destruct (N.eqb_spec c 13) as [-> | _].
  - destruct body as [| d body'].
    + cbn [app]. change (c_nl =? 10)%N with true. cbv iota.
      now exists [].
    + cbn [app] in *.
      destruct (N.eqb_spec d 10) as [-> | Hd].
      * cbn [universal_newlines] in IH.
        change (10 =? 13)%N with false in IH. cbv iota in IH.
        destruct IH as [x Hx].
        destruct x as [| y x'].
        -- cbn [app] in Hx. injection Hx as Hx.
           exists []. cbn [app]. now rewrite Hx.
        -- cbn [app] in Hx. injection Hx as _ Hx.
           exists (c_nl :: x'). cbn [app]. now rewrite Hx.
      * destruct IH as [x Hx]. exists (c_nl :: x). cbn [app].
        now rewrite Hx.
  - destruct IH as [x Hx]. exists (c :: x). cbn [app]. now rewrite Hx.
Qed.

Lemma lines_from_complete (x y cur : str) :
  lines_from cur ((x ++ [c_nl]) ++ y)
  = lines_from cur (x ++ [c_nl]) ++ lines_from [] y.
Proof.
  revert cur. induction x as [| c x IH]; intros cur; cbn [app].
  - cbn [lines_from]. change (c_nl =? 10)%N with true. cbv iota.
    reflexivity.
  - cbn [lines_from]. destruct (c =? 10)%N.
    + cbn [app]. f_equal. apply IH.
    + apply IH.
Qed.

Lemma lines_from_one (line cur : str) :
  ~ In c_nl line ->
  lines_from cur (line ++ [c_nl]) = [cur ++ line ++ [c_nl]].
Proof.
  revert cur. induction line as [| c line IH]; intros cur H; cbn [app].
  - cbn [lines_from]. change (c_nl =? 10)%N with true. reflexivity.
  - cbn [lines_from].
    destruct (N.eqb_spec c 10) as [-> | _]; [exfalso; apply H; now left |].
    rewrite IH by (intros Hin; apply H; now right).
    now rewrite <- app_assoc.
Qed.

(** After a complete log, one more line without a break inside is one
    more line read. *)
Lemma file_lines_append (old line : str) :
  complete_lines old -> ~ In c_nl line -> ~ In c_cr line -> line <> [] ->
  file_lines (old ++ line ++ [c_nl]) = file_lines old ++ [line ++ [c_nl]].
Proof.
  intros Hold Hnl Hcr Hne.
  assert (Hun : universal_newlines (line ++ [c_nl]) = line ++ [c_nl])
    by now rewrite universal_newlines_plain_app.
  unfold file_lines. destruct Hold as [-> | (body & ->)].
  - cbn [app]. rewrite Hun. now apply lines_from_one.
  - rewrite universal_newlines_app, Hun.
    + destruct (universal_newlines_ends body) as [x ->].
      rewrite lines_from_complete. f_equal. now apply lines_from_one.
    + intros r E. destruct line as [| c line']; [congruence |].
      cbn [app] in E. injection E as -> _. apply Hnl. now left.
Qed.

(* ================================================================== *)
(** ** The buckets of [by_intent] *)

Lemma float_eq_refl (x : Float.float) :
  Float.is_nan x = false -> Float.eq x x = true.
Proof.
  unfold Float.eq, SFeqb, SFcompare.
  destruct x as [s | s | | s m e]; cbn; try discriminate; intros _.
  - reflexivity.
  - destruct s; reflexivity.
  - destruct s; rewrite Z.compare_refl, Pos.compare_cont_refl; reflexivity.
Qed.

(** A hashable key finds itself. *)
Lemma key_eq_refl (k : pyval) : hashable k = true -> key_eq k k = true.
Proof.
  unfold key_eq.
  destruct k as [| b | n | f | s | l | d]; cbn [hashable]; try discriminate;
    intros _.
  - reflexivity.
  - destruct b; reflexivity.
  - cbn. apply Z.eqb_refl.
  - cbn [both_nan py_eq]. destruct (Float.is_nan f) eqn:E; [reflexivity |].
    cbn [andb orb]. now apply float_eq_refl.
  - cbn. apply str_eqb_refl.
Qed.

(** Text is equal to the same text only. *)
Lemma key_eq_str_r (k : pyval) (u : str) :
  key_eq k (VStr u) = true -> k = VStr u.
Proof.
  unfold key_eq. destruct k; cbn; try discriminate.
  intros H. apply str_eqb_eq in H. now subst.
Qed.

Lemma key_eq_str_l (k : pyval) (u : str) :
  key_eq (VStr u) k = true -> k = VStr u.
Proof.
  unfold key_eq. destruct k; cbn; try discriminate.
  intros H. apply str_eqb_eq in H. now subst.
Qed.

Lemma bucket_lookup_update_same (k : pyval) (f : bucket -> bucket)
      (d : list (pyval * bucket)) :
  bucket_lookup k (bucket_update k f d) = option_map f (bucket_lookup k d).
Proof.
  induction d as [| [k' b] d IH]; [reflexivity |].
  cbn [bucket_update bucket_lookup].
  destruct (key_eq k' k) eqn:E; cbn [bucket_lookup]; rewrite E;
    [reflexivity | exact IH].
Qed.

Lemma bucket_lookup_update_other (k k2 : pyval) (f : bucket -> bucket)
      (d : list (pyval * bucket)) :
  (forall k', key_eq k' k = true -> key_eq k' k2 = false) ->
  bucket_lookup k2 (bucket_update k f d) = bucket_lookup k2 d.
Proof.
  intros H. induction d as [| [k' b] d IH]; [reflexivity |].
  cbn [bucket_update bucket_lookup].
  destruct (key_eq k' k) eqn:E; cbn [bucket_lookup].
  - now rewrite (H k' E).
  - now rewrite IH.
Qed.

Lemma bucket_lookup_new (k k2 : pyval) (b : bucket)
      (d : list (pyval * bucket)) :
  bucket_lookup k2 (d ++ [(k, b)])
  = match bucket_lookup k2 d with
    | Some x => Some x
    | None => if key_eq k k2 then Some b else None
    end.
Proof.
  induction d as [| [k' b'] d IH]; [reflexivity |].
  cbn [app bucket_lookup]. now destruct (key_eq k' k2).
Qed.

Lemma bucket_update_twice (k : pyval) (f g : bucket -> bucket)
      (d : list (pyval * bucket)) :
  bucket_update k f (bucket_update k g d)
  = bucket_update k (fun b => f (g b)) d.
Proof.
  induction d as [| [k' b] d IH]; [reflexivity |].
  cbn [bucket_update].
  destruct (key_eq k' k) eqn:E; cbn [bucket_update]; rewrite E;
    [reflexivity | now rewrite IH].
Qed.

Lemma bucket_update_ext (k : pyval) (f g : bucket -> bucket)
      (d : list (pyval * bucket)) :
  (forall b, f b = g b) -> bucket_update k f d = bucket_update k g d.
Proof.
  intros H. induction d as [| [k' b] d IH]; [reflexivity |].
  cbn [bucket_update]. now rewrite H, IH.
Qed.

(** The loop body on a line that holds an object with a hashable label:
    both counters move, and the bucket of the label is created if needed
    and moved the same way. *)
Lemma stats_step_object (st : counters) (line : str)
      (d : list (str * pyval)) :
  Json.loads line = Ok (VDict d) ->
  hashable (dict_get d (lit "user_label") (VStr (lit "unknown"))) = true ->
  stats_step st line
  = let flag := truthy (dict_get d (lit "correct") VNone) in
    let label := dict_get d (lit "user_label") (VStr (lit "unknown")) in
    {| c_total := c_total st + 1;
       c_correct := c_correct st + int_of_bool flag;
       c_by_intent :=
         bucket_update label (tally flag)
           (match bucket_lookup label (c_by_intent st) with
            | None => c_by_intent st
                        ++ [(label, {| b_total := 0; b_correct := 0 |})]
            | Some _ => c_by_intent st
            end) |}.
Proof.
  intros Hline Hhash. unfold stats_step. rewrite Hline.
  cbn [py_get]. rewrite Hhash. cbn [negb].
  destruct (truthy (dict_get d (lit "correct") VNone)); cbn -[lit].
  - rewrite bucket_update_twice. reflexivity.
  - rewrite Z.add_0_r. f_equal. apply bucket_update_ext.
    intros b. unfold tally, incr_total. cbn. now rewrite Z.add_0_r.
Qed.

(** The same, read through the buckets, when the label is text. *)
Lemma stats_step_sample (st : counters) (line : str)
      (d : list (str * pyval)) (u : str) :
  Json.loads line = Ok (VDict d) ->
  dict_get d (lit "user_label") (VStr (lit "unknown")) = VStr u ->
  c_total (stats_step st line) = c_total st + 1 /\
  c_correct (stats_step st line)
  = c_correct st + int_of_bool (truthy (dict_get d (lit "correct") VNone)) /\
  bucket_lookup (VStr u) (c_by_intent (stats_step st line))
  = Some (tally (truthy (dict_get d (lit "correct") VNone))
                (bucket_of (VStr u) (c_by_intent st))) /\
  (forall k, k <> VStr u ->
             bucket_lookup k (c_by_intent (stats_step st line))
             = bucket_lookup k (c_by_intent st)).
Proof.
  intros Hline Hu.
  rewrite (stats_step_object st line d Hline) by now rewrite Hu.
  rewrite Hu. cbv zeta. cbn [c_total c_correct c_by_intent].
  split; [reflexivity |]. split; [reflexivity |]. split.
  - rewrite bucket_lookup_update_same. unfold bucket_of.
    destruct (bucket_lookup (VStr u) (c_by_intent st)) as [x |] eqn:E.
    + now rewrite E.
    + rewrite bucket_lookup_new, E, key_eq_refl by reflexivity.
      reflexivity.
  - intros k Hk. rewrite bucket_lookup_update_other.
    + destruct (bucket_lookup (VStr u) (c_by_intent st)); [reflexivity |].
      rewrite bucket_lookup_new.
      destruct (bucket_lookup k (c_by_intent st)); [reflexivity |].
      destruct (key_eq (VStr u) k) eqn:E; [| reflexivity].
      apply key_eq_str_l in E. contradiction.
    + intros k' E. apply key_eq_str_r in E. subst k'.
      destruct (key_eq (VStr u) k) eqn:E'; [| reflexivity].
      apply key_eq_str_l in E'. contradiction.
Qed.

(** The loop over a log that grew by one line. *)
Lemma scan_log_append (old line : str) :
  complete_lines old -> ~ In c_nl line -> ~ In c_cr line -> line <> [] ->
  scan_log (old ++ line ++ [c_nl])
  = stats_step (scan_log old) (line ++ [c_nl]).
Proof.
  intros Hold Hnl Hcr Hne. unfold scan_log.
  rewrite file_lines_append by assumption.
  now rewrite fold_left_app.
Qed.

Lemma dumps_nonempty (v : pyval) : Json.dumps v <> [].
Proof.
  destruct v as [| [|] | n | f | s | l | d]; cbn [Json.dumps];
    try discriminate.
  - unfold int_repr. destruct (n <? 0); [discriminate |].
    apply nat_repr_nonempty.
  - intros H. destruct (parse_encoded_float f O []) as [f' Hf].
    rewrite H in Hf. discriminate Hf.
Qed.

(** The counters behind the dict [get_training_stats] returns, whether
    the file exists or not. *)
Lemma training_stats_scan
      (model : SentenceTransformer) (self : IntentClassifier model)
      (w : World model) :
  let st := scan_log (log_text self w) in
  total (get_training_stats self w) = c_total st /\
  by_intent (get_training_stats self w) = c_by_intent st /\
  accuracy (get_training_stats self w)
  = (if 0 <? c_total st
     then VFloat (Float.round (Float.truediv (c_correct st) (c_total st)) 3)
     else VInt 0).
Proof.
  unfold get_training_stats, log_text.
  destruct (files w (training_log self)) as [content |]; cbn;
    repeat split; reflexivity.
Qed.

Lemma py_round_number (v c : pyval) (k : nat) :
  py_round v k = Ok c -> number c.
Proof.
  destruct v; cbn; intros H; try discriminate; injection H as <-; exact I.
Qed.

(* ================================================================== *)
(** ** Logging a sample and reading the statistics *)

Lemma roundable_round (v : pyval) (k : nat) :
  roundable v = true -> exists c, py_round v k = Ok c /\ number c.
Proof.
  destruct v; cbn; try discriminate; intros _; eexists; split;
    try reflexivity; exact I.
Qed.

Lemma the_classifier_frame
      (model : SentenceTransformer) (w w' : World model) :
  heap w' = heap w -> classifier w' = classifier w ->
  the_classifier w' = the_classifier w.
Proof. unfold the_classifier. now intros -> ->. Qed.

(** One logged sample, seen through [get_training_stats]. *)
Lemma log_sample_stats
      (model : SentenceTransformer) (self : IntentClassifier model)
      (t u p : str) (conf : pyval) (o : bool) (w : World model) :
  complete_lines (log_text self w) ->
  unicode_text t -> unicode_text u -> unicode_text p ->
  roundable conf = true ->
  exists w' : World model,
    log_sample self (VStr t) (VStr u) (VStr p) conf (VBool o) w = Ok w' /\
    the_classifier w' = the_classifier w /\
    complete_lines (log_text self w') /\
    total (get_training_stats self w')
    = total (get_training_stats self w) + 1 /\
    bucket_lookup (VStr u) (by_intent (get_training_stats self w'))
    = Some (tally (str_eqb u p)
                  (bucket_of (VStr u)
                             (by_intent (get_training_stats self w)))) /\
    (forall k, k <> VStr u ->
               bucket_lookup k (by_intent (get_training_stats self w'))
               = bucket_lookup k (by_intent (get_training_stats self w))) /\
    accuracy (get_training_stats self w')
    = VFloat (Float.round
                (Float.truediv
                   (c_correct (scan_log (log_text self w))
                    + int_of_bool (str_eqb u p))
                   (total (get_training_stats self w) + 1)) 3).
Proof.
  intros Hold Ht Hu Hp Hconf.
  destruct (roundable_round conf 4 Hconf) as (c & Hround & Hc).
  unfold log_sample. rewrite Hround. cbn [bind].
  eexists. split; [reflexivity |].
  split; [now apply the_classifier_frame |].
  set (line := Json.dumps (VDict _)).
  match goal with
  | |- context [get_training_stats self ?x] => set (w' := x)
  end.
  assert (Htext : log_text self w' = log_text self w ++ line ++ [c_nl]).
  { unfold log_text at 1, w'. cbn [files]. rewrite append_file_same.
    reflexivity. }
  split.
  { right. exists (log_text self w ++ line). rewrite Htext.
    now rewrite <- app_assoc. }
  destruct (training_stats_scan model self w) as (Htot & Hby & _).
  destruct (training_stats_scan model self w') as (Htot' & Hby' & Hacc').
  cbv zeta in *. rewrite Htot', Hby', Hacc', Htot, Hby, Htext.
  rewrite scan_log_append;
    [| exact Hold | apply plain_no_newline, dumps_plain
     | apply plain_no_newline, dumps_plain | apply dumps_nonempty].
  destruct (loads_sample t u p c (str_eqb u p) o (utcnow w) Ht Hu Hp Hc)
    as (c' & _ & Hloads).
  unfold sample_record in Hloads.
  destruct (stats_step_sample (scan_log (log_text self w)) (line ++ [c_nl])
                              _ u Hloads eq_refl)
    as (H1 & H2 & H3 & H4).
  change (truthy (dict_get _ (lit "correct") VNone))
    with (str_eqb u p) in H2, H3.
  rewrite H1, H2.
  split; [reflexivity |]. split; [exact H3 |]. split; [exact H4 |].
  pose proof (scan_log_counts (log_text self w)) as Hpos.
  destruct (Z.ltb_spec 0 (c_total (scan_log (log_text self w)) + 1)) as [_ | H];
    [reflexivity | lia].
Qed.

(** The counters of the loop after one logged sample. *)
Lemma log_sample_scan
      (model : SentenceTransformer) (self : IntentClassifier model)
      (t u p : str) (conf : pyval) (o : bool) (w : World model) :
  complete_lines (log_text self w) ->
  unicode_text t -> unicode_text u -> unicode_text p ->
  roundable conf = true ->
  exists w' : World model,
    log_sample self (VStr t) (VStr u) (VStr p) conf (VBool o) w = Ok w' /\
    c_total (scan_log (log_text self w'))
    = c_total (scan_log (log_text self w)) + 1 /\
    c_correct (scan_log (log_text self w'))
    = c_correct (scan_log (log_text self w)) + int_of_bool (str_eqb u p) /\
    bucket_lookup (VStr u) (c_by_intent (scan_log (log_text self w')))
    = Some (tally (str_eqb u p)
                  (bucket_of (VStr u)
                             (c_by_intent (scan_log (log_text self w))))).
Proof.
  intros Hold Ht Hu Hp Hconf.
  destruct (roundable_round conf 4 Hconf) as (c & Hround & Hc).
  unfold log_sample. rewrite Hround. cbn [bind].
  eexists. split; [reflexivity |].
  set (line := Json.dumps (VDict _)).
  match goal with
  | |- context [log_text self ?x] =>
      match x with
      | w => fail 1
      | _ => set (w' := x)
      end
  end.
  assert (Htext : log_text self w' = log_text self w ++ line ++ [c_nl]).
  { unfold log_text at 1, w'. cbn [files]. rewrite append_file_same.
    reflexivity. }
  rewrite Htext.
  rewrite scan_log_append;
    [| exact Hold | apply plain_no_newline, dumps_plain
     | apply plain_no_newline, dumps_plain | apply dumps_nonempty].
  destruct (loads_sample t u p c (str_eqb u p) o (utcnow w) Ht Hu Hp Hc)
    as (c' & _ & Hloads).
  unfold sample_record in Hloads.
  destruct (stats_step_sample (scan_log (log_text self w)) (line ++ [c_nl])
                              _ u Hloads eq_refl)
    as (H1 & H2 & H3 & _).
  change (truthy (dict_get _ (lit "correct") VNone))
    with (str_eqb u p) in H2, H3.
  split; [exact H1 |]. split; [exact H2 | exact H3].
Qed.

(** C4 (amended).  For every log that is absent, empty or ends with a
    newline, and every sample whose transcript, user_label and predicted
    are (valid Unicode) text and whose confidence is a number, [log_sample]
    followed by [get_training_stats] yields a total exactly 1 greater than
    before, a total of the bucket of the user label exactly 1 greater than
    before (a bucket that did not exist counting as 0), and a count of
    correct samples, the counter [correct] of the loop, greater by 1 when
    user_label equals predicted and unchanged otherwise. *)
Theorem log_then_stats_counts_sample
        (model : SentenceTransformer) (self : IntentClassifier model)
        (t u p : str) (conf : pyval) (o : bool) (w : World model) :
  complete_lines (log_text self w) ->
  unicode_text t -> unicode_text u -> unicode_text p ->
  roundable conf = true ->
  exists w' : World model,
    log_sample self (VStr t) (VStr u) (VStr p) conf (VBool o) w = Ok w' /\
    total (get_training_stats self w')
    = total (get_training_stats self w) + 1 /\
    b_total (bucket_of (VStr u) (by_intent (get_training_stats self w')))
    = b_total (bucket_of (VStr u) (by_intent (get_training_stats self w)))
      + 1 /\
    (u = p ->
     c_correct (scan_log (log_text self w'))
     = c_correct (scan_log (log_text self w)) + 1) /\
    (u <> p ->
     c_correct (scan_log (log_text self w'))
     = c_correct (scan_log (log_text self w))).
Proof.
  intros Hold Ht Hu Hp Hconf.
  destruct (log_sample_scan model self t u p conf o w Hold Ht Hu Hp Hconf)
    as (w' & Hrun & Htot & Hcor & Hbucket).
  exists w'. split; [exact Hrun |].
  destruct (training_stats_scan model self w) as (Ht0 & Hb0 & _).
  destruct (training_stats_scan model self w') as (Ht1 & Hb1 & _).
  cbv zeta in *. rewrite Ht0, Ht1, Hb0, Hb1.
  split; [exact Htot |]. split.
  - unfold bucket_of at 1. rewrite Hbucket. reflexivity.
  - rewrite Hcor. split.
    + intros ->. now rewrite str_eqb_refl.
    + intros Hne. destruct (str_eqb u p) eqn:E.
      * apply str_eqb_eq in E. contradiction.
      * cbn. lia.
Qed.

Lemma log_then_stats_counts_sample_witness :
  exists w' : World Demo.model,
    log_sample (init Demo.model None)
               (VStr (lit "find the roadmap")) (VStr (lit "search"))
               (VStr (lit "search"))
               (VFloat (Float.of_decimal false 4125 (-4))) (VBool false)
               (Demo.post_log Demo.sample_a Demo.served) = Ok w' /\
    total (get_training_stats (init Demo.model None) w')
    = total (get_training_stats (init Demo.model None)
                                (Demo.post_log Demo.sample_a Demo.served))
      + 1 /\
    b_total (bucket_of (VStr (lit "search"))
                       (by_intent (get_training_stats
                                     (init Demo.model None) w')))
    = b_total (bucket_of (VStr (lit "search"))
                         (by_intent
                            (get_training_stats
                               (init Demo.model None)
                               (Demo.post_log Demo.sample_a Demo.served))))
      + 1 /\
    (lit "search" = lit "search" ->
     c_correct (scan_log (log_text (init Demo.model None) w'))
     = c_correct (scan_log (log_text
                              (init Demo.model None)
                              (Demo.post_log Demo.sample_a Demo.served)))
       + 1) /\
    (lit "search" <> lit "search" ->
     c_correct (scan_log (log_text (init Demo.model None) w'))
     = c_correct (scan_log (log_text
                              (init Demo.model None)
                              (Demo.post_log Demo.sample_a Demo.served)))).
Proof.
  assert (Hold : complete_lines
                   (log_text (init Demo.model None)
                             (Demo.post_log Demo.sample_a Demo.served))).
  { right.
    exists (removelast
              (log_text (init Demo.model None)
                        (Demo.post_log Demo.sample_a Demo.served))).
    vm_compute. reflexivity. }
  exact (log_then_stats_counts_sample
           Demo.model (init Demo.model None)
           (lit "find the roadmap") (lit "search") (lit "search")
           (VFloat (Float.of_decimal false 4125 (-4))) false
           (Demo.post_log Demo.sample_a Demo.served)
           Hold
           (literal_key "find the roadmap" eq_refl)
           (literal_key "search" eq_refl)
           (literal_key "search" eq_refl) eq_refl).
Defined.

(** C4 as stated fails: on a log that holds [{}] without a newline, the
    total is 1 before the sample is logged and 0 after it, because the
    sample is written behind the open line and the two do not parse
    together. *)
Lemma log_then_stats_torn_log :
  ~ (forall (self : IntentClassifier Demo.model) (w w' : World Demo.model)
            (t u p : str) (c : Float.float) (o : bool),
        log_sample self (VStr t) (VStr u) (VStr p) (VFloat c) (VBool o) w
        = Ok w' ->
        total (get_training_stats self w')
        = total (get_training_stats self w) + 1).
Proof.
  intros H.
  pose (w := Demo.scribble (lit "{}") Demo.served).
  pose (r := log_sample (init Demo.model None)
                        (VStr (lit "find the roadmap")) (VStr (lit "search"))
                        (VStr (lit "search"))
                        (VFloat (Float.of_decimal false 4125 (-4)))
                        (VBool false) w).
  specialize (H (init Demo.model None) w
                (match r with Ok x => x | Raise _ => w end)
                (lit "find the roadmap") (lit "search") (lit "search")
                (Float.of_decimal false 4125 (-4)) false eq_refl).
  vm_compute in H. discriminate H.
Qed.

(** X1.  Every line [log_sample] writes for text fields is read back by
    [json.loads], as [get_training_stats] reads it, into the sample that
    was logged: the same transcript, labels, flags and timestamp, and a
    number as confidence. *)
Theorem logged_sample_reads_back
        (model : SentenceTransformer) (self : IntentClassifier model)
        (t u p : str) (conf : pyval) (o : bool) (w : World model) :
  unicode_text t -> unicode_text u -> unicode_text p ->
  roundable conf = true ->
  exists (w' : World model) (line : str) (c' : pyval),
    log_sample self (VStr t) (VStr u) (VStr p) conf (VBool o) w = Ok w' /\
    files w' (training_log self)
    = Some (log_text self w ++ line ++ [c_nl]) /\
    number c' /\
    Json.loads (line ++ [c_nl])
    = Ok (sample_record (VStr t) (VStr u) (VStr p) c'
                        (VBool (str_eqb u p)) (VBool o) (utcnow w)).
Proof.
  intros Ht Hu Hp Hconf.
  destruct (roundable_round conf 4 Hconf) as (c & Hround & Hc).
  destruct (loads_sample t u p c (str_eqb u p) o (utcnow w) Ht Hu Hp Hc)
    as (c' & Hc' & Hloads).
  unfold log_sample. rewrite Hround. cbn [bind].
  eexists. eexists. exists c'. split; [reflexivity |].
  cbn [files]. rewrite append_file_same.
  split; [reflexivity |]. split; [exact Hc' | exact Hloads].
Qed.

Lemma logged_sample_reads_back_witness :
  exists (w' : World Demo.model) (line : str) (c' : pyval),
    log_sample (init Demo.model None)
               (VStr (lit "find the roadmap")) (VStr (lit "search"))
               (VStr (lit "ask_oracle")) (VInt 1) (VBool true) Demo.served
    = Ok w' /\
    files w' (training_log (init Demo.model None))
    = Some (log_text (init Demo.model None) Demo.served
              ++ line ++ [c_nl]) /\
    number c' /\
    Json.loads (line ++ [c_nl])
    = Ok (sample_record (VStr (lit "find the roadmap")) (VStr (lit "search"))
                        (VStr (lit "ask_oracle")) c'
                        (VBool (str_eqb (lit "search") (lit "ask_oracle")))
                        (VBool true) (utcnow Demo.served)).
Proof.
  exact (logged_sample_reads_back
           Demo.model (init Demo.model None)
           (lit "find the roadmap") (lit "search") (lit "ask_oracle")
           (VInt 1) true Demo.served
           (literal_key "find the roadmap" eq_refl)
           (literal_key "search" eq_refl)
           (literal_key "ask_oracle" eq_refl) eq_refl).
Defined.

(** X2.  Logging one sample with text fields to a log made of complete
    lines leaves a log made of complete lines and moves the statistics by
    exactly that sample: the total grows by one, the bucket of the user
    label gains one sample (and one correct sample exactly when the user
    label equals the prediction), every other bucket stays as it was, and
    the accuracy is the rounded quotient of the new counters. *)
Theorem log_sample_then_stats
        (model : SentenceTransformer) (self : IntentClassifier model)
        (t u p : str) (conf : pyval) (o : bool) (w : World model) :
  complete_lines (log_text self w) ->
  unicode_text t -> unicode_text u -> unicode_text p ->
  roundable conf = true ->
  exists w' : World model,
    log_sample self (VStr t) (VStr u) (VStr p) conf (VBool o) w = Ok w' /\
    complete_lines (log_text self w') /\
    total (get_training_stats self w')
    = total (get_training_stats self w) + 1 /\
    bucket_lookup (VStr u) (by_intent (get_training_stats self w'))
    = Some (tally (str_eqb u p)
                  (bucket_of (VStr u)
                             (by_intent (get_training_stats self w)))) /\
    (forall k, k <> VStr u ->
               bucket_lookup k (by_intent (get_training_stats self w'))
               = bucket_lookup k (by_intent (get_training_stats self w))) /\
    accuracy (get_training_stats self w')
    = VFloat (Float.round
                (Float.truediv
                   (c_correct (scan_log (log_text self w))
                    + int_of_bool (str_eqb u p))
                   (total (get_training_stats self w) + 1)) 3).
Proof.
  intros Hold Ht Hu Hp Hconf.
  destruct (log_sample_stats model self t u p conf o w Hold Ht Hu Hp Hconf)
    as (w' & Hrun & _ & H).
  exists w'. split; [exact Hrun | exact H].
Qed.

Lemma log_sample_then_stats_witness :
  exists w' : World Demo.model,
    log_sample (init Demo.model None)
               (VStr (lit "find the roadmap")) (VStr (lit "search"))
               (VStr (lit "search")) (VFloat (Float.of_decimal false 4125 (-4)))
               (VBool false) Demo.served = Ok w' /\
    complete_lines (log_text (init Demo.model None) w') /\
    total (get_training_stats (init Demo.model None) w')
    = total (get_training_stats (init Demo.model None) Demo.served) + 1 /\
    bucket_lookup (VStr (lit "search"))
                  (by_intent (get_training_stats (init Demo.model None) w'))
    = Some (tally (str_eqb (lit "search") (lit "search"))
                  (bucket_of (VStr (lit "search"))
                             (by_intent (get_training_stats
                                           (init Demo.model None)
                                           Demo.served)))) /\
    (forall k, k <> VStr (lit "search") ->
               bucket_lookup
                 k (by_intent (get_training_stats (init Demo.model None) w'))
               = bucket_lookup
                   k (by_intent (get_training_stats (init Demo.model None)
                                                    Demo.served))) /\
    accuracy (get_training_stats (init Demo.model None) w')
    = VFloat (Float.round
                (Float.truediv
                   (c_correct (scan_log (log_text (init Demo.model None)
                                                  Demo.served))
                    + int_of_bool (str_eqb (lit "search") (lit "search")))
                   (total (get_training_stats (init Demo.model None)
                                              Demo.served) + 1)) 3).
Proof.
  exact (log_sample_then_stats
           Demo.model (init Demo.model None)
           (lit "find the roadmap") (lit "search") (lit "search")
           (VFloat (Float.of_decimal false 4125 (-4))) false Demo.served
           (or_introl eq_refl)
           (literal_key "find the roadmap" eq_refl)
           (literal_key "search" eq_refl)
           (literal_key "search" eq_refl) eq_refl).
Defined.

Lemma do_POST_log
      (model : SentenceTransformer)
      (classify_nontext : pyval -> result (str * Float.float))
      (exn_message : exn -> str) (body : str) (w : World model) :
  do_POST classify_nontext exn_message (lit "/log") body w
  = handle_log exn_message body w.
Proof. reflexivity. Qed.

Lemma do_POST_classify
      (model : SentenceTransformer)
      (classify_nontext : pyval -> result (str * Float.float))
      (exn_message : exn -> str) (body : str) (w : World model) :
  do_POST classify_nontext exn_message (lit "/classify") body w
  = handle_classify classify_nontext exn_message body w.
Proof. reflexivity. Qed.

Lemma do_GET_stats
      (model : SentenceTransformer) (self : IntentClassifier model)
      (w : World model) :
  the_classifier w = Ok self ->
  do_GET (lit "/stats") w
  = Ok {| reply_status := 200;
          reply_data := Statistics (get_training_stats self w) |}.
Proof.
  intros H. unfold do_GET.
  change (str_eqb (lit "/stats") (lit "/health")) with false.
  change (str_eqb (lit "/stats") (lit "/stats")) with true.
  cbv iota. now rewrite H.
Qed.

(** X3.  Over HTTP: when [POST /log] carries an object whose transcript,
    user_label and predicted are text (or absent), whose confidence is a
    number (or absent) and whose was_overridden is a boolean (or absent),
    and the log is made of complete lines, the request is answered with
    200 and [{logged: true}], and [GET /stats] afterwards reports one
    sample more than before, in total and in the bucket of the user
    label, with one more correct sample there exactly when the user label
    equals the prediction. *)
Theorem post_log_then_get_stats
        (model : SentenceTransformer)
        (classify_nontext : pyval -> result (str * Float.float))
        (exn_message : exn -> str) (self : IntentClassifier model)
        (body : str) (d : list (str * pyval)) (t u p : str) (o : bool)
        (w : World model) :
  the_classifier w = Ok self ->
  complete_lines (log_text self w) ->
  Json.loads body = Ok (VDict d) ->
  dict_get d (lit "transcript") (VStr []) = VStr t ->
  dict_get d (lit "user_label") (VStr (lit "unknown")) = VStr u ->
  dict_get d (lit "predicted") (VStr (lit "unknown")) = VStr p ->
  roundable (dict_get d (lit "confidence") (VInt 0)) = true ->
  dict_get d (lit "was_overridden") (VBool false) = VBool o ->
  unicode_text t -> unicode_text u -> unicode_text p ->
  exists (w' : World model) (before after : Stats),
    do_POST classify_nontext exn_message (lit "/log") body w
    = {| response := {| status := 200;
                        data := VDict [(lit "logged", VBool true)] |};
         world := w'; classified := [] |} /\
    do_GET (lit "/stats") w
    = Ok {| reply_status := 200; reply_data := Statistics before |} /\
    do_GET (lit "/stats") w'
    = Ok {| reply_status := 200; reply_data := Statistics after |} /\
    total after = total before + 1 /\
    b_total (bucket_of (VStr u) (by_intent after))
    = b_total (bucket_of (VStr u) (by_intent before)) + 1 /\
    b_correct (bucket_of (VStr u) (by_intent after))
    = b_correct (bucket_of (VStr u) (by_intent before))
      + int_of_bool (str_eqb u p).
Proof.
  intros Hself Hold Hbody Ht Hu Hp Hconf Ho Htt Huu Hpp.
  destruct (log_sample_stats model self t u p _ o w Hold Htt Huu Hpp Hconf)
    as (w' & Hrun & Hobj & _ & Htot & Hbucket & _).
  exists w', (get_training_stats self w), (get_training_stats self w').
  split.
  - rewrite do_POST_log. unfold handle_log. rewrite Hbody.
    cbn [bind py_get]. rewrite Ht, Hu, Hp, Ho, Hself. cbn [bind].
    now rewrite Hrun.
  - split; [now apply do_GET_stats |].
    split; [apply do_GET_stats; now rewrite Hobj |].
    split; [exact Htot |].
    unfold bucket_of at 1 3. rewrite Hbucket. split; reflexivity.
Qed.

Lemma post_log_then_get_stats_witness :
  exists (w' : World Demo.model) (before after : Stats),
    do_POST Demo.classify_nontext Demo.exn_message (lit "/log")
            Demo.sample_b Demo.served
    = {| response := {| status := 200;
                        data := VDict [(lit "logged", VBool true)] |};
         world := w'; classified := [] |} /\
    do_GET (lit "/stats") Demo.served
    = Ok {| reply_status := 200; reply_data := Statistics before |} /\
    do_GET (lit "/stats") w'
    = Ok {| reply_status := 200; reply_data := Statistics after |} /\
    total after = total before + 1 /\
    b_total (bucket_of (VStr (lit "search")) (by_intent after))
    = b_total (bucket_of (VStr (lit "search")) (by_intent before)) + 1 /\
    b_correct (bucket_of (VStr (lit "search")) (by_intent after))
    = b_correct (bucket_of (VStr (lit "search")) (by_intent before))
      + int_of_bool (str_eqb (lit "search") (lit "ask_oracle")).
Proof.
  pose (d := [ (lit "transcript", VStr (lit "find the roadmap"));
               (lit "user_label", VStr (lit "search"));
               (lit "predicted", VStr (lit "ask_oracle"));
               (lit "confidence", VFloat (Float.of_decimal false 4125 (-4)));
               (lit "was_overridden", VBool true) ]).
  assert (Hbody : Json.loads Demo.sample_b = Ok (VDict d))
    by (vm_compute; reflexivity).
  exact (post_log_then_get_stats
           Demo.model Demo.classify_nontext Demo.exn_message
           (init Demo.model None) Demo.sample_b d
           (lit "find the roadmap") (lit "search") (lit "ask_oracle") true
           Demo.served eq_refl (or_introl eq_refl) Hbody
           eq_refl eq_refl eq_refl eq_refl eq_refl
           (literal_key "find the roadmap" eq_refl)
           (literal_key "search" eq_refl)
           (literal_key "ask_oracle" eq_refl)).
Defined.

(* ================================================================== *)
(** ** What the statistics always satisfy *)

Lemma sum_totals_app (d e : list (pyval * bucket)) :
  sum_totals (d ++ e) = sum_totals d + sum_totals e.
Proof.
  induction d as [| kb d IH]; cbn [app sum_totals fold_right];
    [reflexivity |].
  fold (sum_totals (d ++ e)). fold (sum_totals d). lia.
Qed.

Lemma sum_corrects_app (d e : list (pyval * bucket)) :
  sum_corrects (d ++ e) = sum_corrects d + sum_corrects e.
Proof.
  induction d as [| kb d IH]; cbn [app sum_corrects fold_right];
    [reflexivity |].
  fold (sum_corrects (d ++ e)). fold (sum_corrects d). lia.
Qed.

(** Updating the bucket of a key that has one moves the sums by what the
    bucket gained, and touches no other bucket. *)
Lemma bucket_update_found (k : pyval) (f : bucket -> bucket)
      (d : list (pyval * bucket)) (x : bucket) :
  bucket_lookup k d = Some x ->
  sum_totals (bucket_update k f d)
  = sum_totals d + (b_total (f x) - b_total x) /\
  sum_corrects (bucket_update k f d)
  = sum_corrects d + (b_correct (f x) - b_correct x) /\
  (List.Forall (fun kb => bucket_ok (snd kb)) d ->
   (bucket_ok x -> bucket_ok (f x)) ->
   List.Forall (fun kb => bucket_ok (snd kb)) (bucket_update k f d)).
Proof.
  induction d as [| [k' b] d IH]; [discriminate |].
  cbn [bucket_lookup bucket_update].
  destruct (key_eq k' k).
  - intros H. injection H as ->.
    cbn [sum_totals sum_corrects fold_right snd].
    fold (sum_totals d). fold (sum_corrects d).
    split; [lia |]. split; [lia |].
    intros Hall Hf. inversion Hall as [| ? ? Hx Hrest]; subst.
    constructor; [now apply Hf | exact Hrest].
  - intros H. destruct (IH H) as (Ht & Hc & Hok).
    cbn [sum_totals sum_corrects fold_right snd].
    fold (sum_totals (bucket_update k f d)). fold (sum_totals d).
    fold (sum_corrects (bucket_update k f d)). fold (sum_corrects d).
    split; [lia |]. split; [lia |].
    intros Hall Hf. inversion Hall as [| ? ? Hx Hrest]; subst.
    constructor; [exact Hx | now apply Hok].
Qed.

(** A bucket created for a new key is the one the update then finds. *)
Lemma bucket_update_new (k : pyval) (f : bucket -> bucket)
      (d : list (pyval * bucket)) (e : bucket) :
  bucket_lookup k d = None -> key_eq k k = true ->
  bucket_update k f (d ++ [(k, e)]) = d ++ [(k, f e)].
Proof.
  intros Hnone Hk. induction d as [| [k' b] d IH].
  - cbn. now rewrite Hk.
  - cbn [bucket_lookup] in Hnone. cbn [app bucket_update].
    destruct (key_eq k' k); [discriminate |]. now rewrite IH.
Qed.

Lemma tally_ok (flag : bool) (b : bucket) :
  0 <= b_total b -> 0 <= b_correct b <= b_total b -> bucket_ok (tally flag b).
Proof.
  unfold bucket_ok, tally. cbn. destruct flag; cbn; lia.
Qed.

(** One line keeps the invariant, with one more line read. *)
Lemma stats_step_ok (n : Z) (st : counters) (line : str) :
  counters_ok n st -> counters_ok (n + 1) (stats_step st line).
Proof.
  intros (Hc & Hn & Hst & Hsc & Hall).
  destruct (Json.loads line) as [sample | e] eqn:Hline.
  2:{ rewrite (stats_step_skips_unparseable st line e Hline).
      unfold counters_ok. repeat split; trivial; lia. }
  destruct sample as [| b | z | f | s | l | d];
    try (unfold stats_step; rewrite Hline; cbn [py_get];
         unfold counters_ok; cbn [c_total c_correct c_by_intent];
         repeat split; trivial; lia).
  destruct (hashable (dict_get d (lit "user_label") (VStr (lit "unknown"))))
    eqn:Hhash.
  2:{ unfold stats_step. rewrite Hline. cbn [py_get]. rewrite Hhash.
      cbn [negb].
      destruct (truthy (dict_get d (lit "correct") VNone));
        unfold counters_ok; cbn [c_total c_correct c_by_intent];
        repeat split; trivial; lia. }
  rewrite (stats_step_object st line d Hline Hhash). cbv zeta.
  set (flag := truthy (dict_get d (lit "correct") VNone)).
  set (label := dict_get d (lit "user_label") (VStr (lit "unknown"))) in *.
  assert (Hflag : 0 <= int_of_bool flag <= 1) by (destruct flag; cbn; lia).
  unfold counters_ok. cbn [c_total c_correct c_by_intent].
  destruct (bucket_lookup label (c_by_intent st)) as [x |] eqn:E.
  - destruct (bucket_update_found label (tally flag) (c_by_intent st) x E)
      as (Ht & Hco & Hok).
    rewrite Ht, Hco. cbn [tally b_total b_correct].
    repeat split; try lia.
    apply Hok; [exact Hall |].
    intros (H1 & H2). apply tally_ok; lia.
  - rewrite bucket_update_new by (trivial; now apply key_eq_refl).
    rewrite sum_totals_app, sum_corrects_app.
    cbn [sum_totals sum_corrects fold_right snd tally b_total b_correct].
    repeat split; try lia.
    apply Forall_app. split; [exact Hall |].
    constructor; [| constructor]. cbn [snd].
    apply (tally_ok flag {| b_total := 0; b_correct := 0 |}); cbn; lia.
Qed.

Lemma scan_ok_from (lines : list str) (n : Z) (st : counters) :
  counters_ok n st ->
  counters_ok (n + Z.of_nat (List.length lines))
              (List.fold_left stats_step lines st).
Proof.
  revert n st. induction lines as [| line lines IH]; intros n st H.
  - cbn. now rewrite Z.add_0_r.
  - cbn [List.fold_left List.length]. rewrite Nat2Z.inj_succ.
    replace (n + Z.succ (Z.of_nat (List.length lines)))
      with ((n + 1) + Z.of_nat (List.length lines)) by lia.
    apply IH. now apply stats_step_ok.
Qed.

Lemma scan_log_ok (content : str) :
  counters_ok (Z.of_nat (List.length (file_lines content)))
              (scan_log content).
Proof.
  unfold scan_log.
  apply (scan_ok_from (file_lines content) 0 counters0).
  unfold counters_ok, counters0. cbn. repeat split; try lia. constructor.
Qed.

(** X4.  For every log that is read as text (a file is held here as the
    text its bytes decode to; bytes that do not decode make the iteration
    of the file raise outside the [try], and no statistics are returned),
    the statistics returned are consistent: the total lies between 0 and
    the number of lines of the log; the buckets of [by_intent] together
    hold at most [total] samples; every bucket holds at least one sample
    and between 0 and its total correct ones; and the accuracy is the
    int 0 exactly when the total is 0. *)
Theorem training_stats_consistent
        (model : SentenceTransformer) (self : IntentClassifier model)
        (w : World model) :
  0 <= total (get_training_stats self w)
    <= Z.of_nat (List.length (file_lines (log_text self w))) /\
  sum_totals (by_intent (get_training_stats self w))
  <= total (get_training_stats self w) /\
  List.Forall (fun kb => bucket_ok (snd kb))
              (by_intent (get_training_stats self w)) /\
  (accuracy (get_training_stats self w) = VInt 0
   <-> total (get_training_stats self w) = 0).
Proof.
  destruct (training_stats_scan model self w) as (Htot & Hby & Hacc).
  cbv zeta in *. rewrite Htot, Hby, Hacc.
  destruct (scan_log_ok (log_text self w)) as (Hc & Hn & Hst & _ & Hall).
  split; [lia |]. split; [exact Hst |]. split; [exact Hall |].
  destruct (Z.ltb_spec 0 (c_total (scan_log (log_text self w))));
    split; intros H'; try discriminate; try reflexivity; lia.
Qed.

Lemma scan_parseable (lines : list str) (st : counters) :
  List.fold_left stats_step lines st
  = List.fold_left stats_step (List.filter parseable lines) st.
Proof.
  revert st. induction lines as [| line lines IH]; intros st;
    [reflexivity |].
  cbn [List.fold_left List.filter]. unfold parseable at 1.
  destruct (Json.loads line) as [v | e] eqn:E.
  - cbn [List.fold_left]. apply IH.
  - rewrite (stats_step_skips_unparseable st line e E). apply IH.
Qed.

(** X5.  The statistics depend on the lines that [json.loads] accepts and
    on nothing else: blank lines, torn lines and any other text that is
    not JSON change none of the three fields. *)
Theorem training_stats_skip_unparseable
        (model : SentenceTransformer) (self : IntentClassifier model)
        (w1 w2 : World model) :
  List.filter parseable (file_lines (log_text self w1))
  = List.filter parseable (file_lines (log_text self w2)) ->
  total (get_training_stats self w1) = total (get_training_stats self w2) /\
  accuracy (get_training_stats self w1)
  = accuracy (get_training_stats self w2) /\
  by_intent (get_training_stats self w1)
  = by_intent (get_training_stats self w2).
Proof.
  intros H.
  destruct (training_stats_scan model self w1) as (Htot1 & Hby1 & Hacc1).
  destruct (training_stats_scan model self w2) as (Htot2 & Hby2 & Hacc2).
  cbv zeta in *. rewrite Htot1, Hby1, Hacc1, Htot2, Hby2, Hacc2.
  assert (E : scan_log (log_text self w1) = scan_log (log_text self w2)).
  { unfold scan_log.
    rewrite (scan_parseable (file_lines (log_text self w1))),
            (scan_parseable (file_lines (log_text self w2))).
    now rewrite H. }
  rewrite E. repeat split.
Qed.

Lemma training_stats_skip_unparseable_witness :
  total (get_training_stats
           (init Demo.model None)
           (Demo.scribble (c_nl :: lit "{'transcript': " ++ [c_nl])
                          (Demo.post_log Demo.sample_a Demo.served)))
  = total (get_training_stats (init Demo.model None)
                              (Demo.post_log Demo.sample_a Demo.served)) /\
  accuracy (get_training_stats
              (init Demo.model None)
              (Demo.scribble (c_nl :: lit "{'transcript': " ++ [c_nl])
                             (Demo.post_log Demo.sample_a Demo.served)))
  = accuracy (get_training_stats (init Demo.model None)
                                 (Demo.post_log Demo.sample_a Demo.served)) /\
  by_intent (get_training_stats
               (init Demo.model None)
               (Demo.scribble (c_nl :: lit "{'transcript': " ++ [c_nl])
                              (Demo.post_log Demo.sample_a Demo.served)))
  = by_intent (get_training_stats (init Demo.model None)
                                  (Demo.post_log Demo.sample_a Demo.served)).
Proof.
  assert (H : List.filter parseable
                (file_lines
                   (log_text (init Demo.model None)
                      (Demo.scribble (c_nl :: lit "{'transcript': " ++ [c_nl])
                         (Demo.post_log Demo.sample_a Demo.served))))
              = List.filter parseable
                  (file_lines
                     (log_text (init Demo.model None)
                        (Demo.post_log Demo.sample_a Demo.served))))
    by (vm_compute; reflexivity).
  exact (training_stats_skip_unparseable
           Demo.model (init Demo.model None)
           (Demo.scribble (c_nl :: lit "{'transcript': " ++ [c_nl])
                          (Demo.post_log Demo.sample_a Demo.served))
           (Demo.post_log Demo.sample_a Demo.served) H).
Defined.

(** X6.  A line of the log that holds an object without the key
    user_label is counted under the label "unknown", and it counts as
    correct exactly when its correct member is truthy (an object without
    that key counts as incorrect): after such a line is added to a log of
    complete lines the total is one higher, the bucket of "unknown" has
    gained the sample, and every other bucket is as before. *)
Theorem stats_sample_without_label
        (model : SentenceTransformer) (self : IntentClassifier model)
        (line : str) (d : list (str * pyval)) (w w' : World model) :
  complete_lines (log_text self w) ->
  ~ In c_nl line -> ~ In c_cr line -> line <> [] ->
  log_text self w' = log_text self w ++ line ++ [c_nl] ->
  Json.loads (line ++ [c_nl]) = Ok (VDict d) ->
  dict_lookup (lit "user_label") d = None ->
  total (get_training_stats self w')
  = total (get_training_stats self w) + 1 /\
  bucket_lookup (VStr (lit "unknown"))
                (by_intent (get_training_stats self w'))
  = Some (tally (truthy (dict_get d (lit "correct") VNone))
                (bucket_of (VStr (lit "unknown"))
                           (by_intent (get_training_stats self w)))) /\
  (dict_lookup (lit "correct") d = None ->
   truthy (dict_get d (lit "correct") VNone) = false) /\
  (forall k, k <> VStr (lit "unknown") ->
             bucket_lookup k (by_intent (get_training_stats self w'))
             = bucket_lookup k (by_intent (get_training_stats self w))).
Proof.
  intros Hold Hnl Hcr Hne Htext Hline Hlabel.
  destruct (training_stats_scan model self w) as (Htot & Hby & _).
  destruct (training_stats_scan model self w') as (Htot' & Hby' & _).
  cbv zeta in *. rewrite Htot', Hby', Htot, Hby, Htext.
  rewrite scan_log_append by assumption.
  assert (Hu : dict_get d (lit "user_label") (VStr (lit "unknown"))
               = VStr (lit "unknown"))
    by (unfold dict_get; now rewrite Hlabel).
  destruct (stats_step_sample (scan_log (log_text self w)) (line ++ [c_nl])
                              d (lit "unknown") Hline Hu)
    as (H1 & _ & H3 & H4).
  split; [exact H1 |]. split; [exact H3 |]. split; [| exact H4].
  intros Hc. unfold dict_get. now rewrite Hc.
Qed.

Lemma stats_sample_without_label_witness :
  total (get_training_stats
           (init Demo.model None)
           (Demo.scribble (lit "{}" ++ [c_nl]) Demo.served))
  = total (get_training_stats (init Demo.model None) Demo.served) + 1 /\
  bucket_lookup (VStr (lit "unknown"))
                (by_intent (get_training_stats
                              (init Demo.model None)
                              (Demo.scribble (lit "{}" ++ [c_nl])
                                             Demo.served)))
  = Some (tally (truthy (dict_get [] (lit "correct") VNone))
                (bucket_of (VStr (lit "unknown"))
                           (by_intent (get_training_stats
                                         (init Demo.model None)
                                         Demo.served)))) /\
  (dict_lookup (lit "correct") (@nil (str * pyval)) = None ->
   truthy (dict_get [] (lit "correct") VNone) = false) /\
  (forall k, k <> VStr (lit "unknown") ->
             bucket_lookup k (by_intent
                                (get_training_stats
                                   (init Demo.model None)
                                   (Demo.scribble (lit "{}" ++ [c_nl])
                                                  Demo.served)))
             = bucket_lookup k (by_intent
                                  (get_training_stats
                                     (init Demo.model None) Demo.served))).
Proof.
  assert (Hnl : ~ In c_nl (lit "{}"))
    by (cbv; intros [H | [H | []]]; discriminate H).
  assert (Hcr : ~ In c_cr (lit "{}"))
    by (cbv; intros [H | [H | []]]; discriminate H).
  assert (Hne : lit "{}" <> []) by discriminate.
  assert (Hline : Json.loads (lit "{}" ++ [c_nl]) = Ok (VDict []))
    by (vm_compute; reflexivity).
  exact (stats_sample_without_label
           Demo.model (init Demo.model None) (lit "{}") []
           Demo.served (Demo.scribble (lit "{}" ++ [c_nl]) Demo.served)
           (or_introl eq_refl) Hnl Hcr Hne eq_refl Hline eq_refl).
Defined.

(* ================================================================== *)
(** ** More about classify *)

(** The loop over a catalog in two parts: the second part starts from
    what the first one left. *)
Lemma classify_loop_app
      (model : SentenceTransformer) (a b : embeddings model)
      (emb : vec model) (bi : str) (bs : Float.float) :
  classify_loop model (a ++ b) emb bi bs
  = match classify_loop model a emb bi bs with
    | Ok r => classify_loop model b emb (fst r) (snd r)
    | Raise e => Raise e
    end.
Proof.
  revert bi bs.
  induction a as [| [l rows] a IH]; intros bi bs; cbn [app classify_loop].
  - reflexivity.
  - destruct (max_sim model rows emb) as [m | e]; cbn [bind];
      [| reflexivity].
    destruct (Float.gt m bs); apply IH.
Qed.

Lemma classify_loop_raises
      (model : SentenceTransformer) (items : embeddings model)
      (emb : vec model) (bi : str) (bs : Float.float) :
  ~ has_examples model items ->
  classify_loop model items emb bi bs = Raise ValueError.
Proof.
  revert bi bs. induction items as [| [l rows] items IH]; intros bi bs H.
  - exfalso. apply H. constructor.
  - cbn [classify_loop]. destruct rows as [| r rows].
    + reflexivity.
    + destruct (max_sim_ok model (r :: rows) emb ltac:(discriminate))
        as [m ->].
      cbn [bind].
      assert (Hrest : ~ has_examples model items).
      { intros Hrest. apply H. constructor; [discriminate | exact Hrest]. }
      destruct (Float.gt m bs); now apply IH.
Qed.

(** X7.  When some intent of the catalog has no example, [classify] does
    not return: the encoder having returned the embedding of the
    transcript, the loop raises ValueError at the first such intent,
    whatever the scores of the intents before it. *)
Theorem classify_raises_without_examples
        (model : SentenceTransformer) (catalog : embeddings model) (t : str) :
  ~ has_examples model catalog ->
  classify model catalog t = Raise ValueError.
Proof.
  intros H. unfold classify. now apply classify_loop_raises.
Qed.

Lemma classify_raises_without_examples_witness :
  classify Demo.model
           [(lit "search", [Demo.embed (lit "find")]); (lit "empty", [])]
           (lit "find the roadmap")
  = Raise ValueError.
Proof.
  assert (H : ~ has_examples
                Demo.model
                [(lit "search", [Demo.embed (lit "find")]);
                 (lit "empty", [])]).
  { intros H. inversion H as [| ? ? _ H2]; subst.
    inversion H2 as [| ? ? H3 _]; subst. now apply H3. }
  exact (classify_raises_without_examples
           Demo.model
           [(lit "search", [Demo.embed (lit "find")]);
            (lit "empty", [])]
           (lit "find the roadmap") H).
Defined.

(** X8.  A classifier as [__init__] builds it answers every transcript,
    whatever the encoder and the data root: with one of the seven seed
    intents and a confidence above 0.0, or with "unknown" and the
    confidence 0.0. *)
Theorem fresh_classifier_answers
        (model : SentenceTransformer)
        (classify_nontext : pyval -> result (str * Float.float))
        (data_root : option str) (t : str) :
  exists (l : str) (c : Float.float),
    classify_method classify_nontext (init model data_root) (VStr t)
    = Ok (l, c) /\
    ((In l (List.map lit ["add_wish"; "log_issue"; "log_friction";
                          "log_crit"; "record_learning"; "search";
                          "ask_oracle"]%string)
      /\ Float.gt c Float.zero = true)
     \/ (l = lit "unknown" /\ c = Float.zero)).
Proof.
  destruct (classify_spec model (example_embeddings (init model data_root)) t
                          (init_has_examples model data_root))
    as (l & c & Hrun & [(-> & -> & _) | (i & rows & Hnth & _ & Hgt & _)]).
  - exists (lit "unknown"), Float.zero. split; [exact Hrun | now right].
  - exists l, c. split; [exact Hrun |]. left. split; [| exact Hgt].
    apply nth_error_In in Hnth.
    apply (in_map fst) in Hnth. exact Hnth.
Qed.

(** X9.  Adding an intent that the catalog does not have yet (a new key
    goes to the end of the dict) changes the answer of [classify] only
    when the new intent scores strictly above the confidence reached
    before; the answer is then the new intent with its score, and
    otherwise the answer stays as it was. *)
Theorem classify_with_added_intent
        (model : SentenceTransformer) (catalog : embeddings model)
        (name : str) (rows : list (vec model)) (t : str)
        (l : str) (c m : Float.float) :
  ~ In name (labels model catalog) ->
  classify model catalog t = Ok (l, c) ->
  max_sim model rows (encode model t) = Ok m ->
  classify model (catalog ++ [(name, rows)]) t
  = Ok (if Float.gt m c then (name, m) else (l, c)).
Proof.
  unfold classify. intros _ Hrun Hm.
  rewrite classify_loop_app, Hrun. cbn [classify_loop fst snd].
  rewrite Hm. cbn [bind]. now destruct (Float.gt m c).
Qed.

Lemma classify_with_added_intent_witness :
  exists r : str * Float.float,
    classify Demo.model
             ([(lit "search", [Demo.embed (lit "find")])]
                ++ [(lit "ask_oracle", [Demo.embed (lit "project status")])])
             (lit "find the roadmap")
    = Ok r.
Proof.
  assert (Hnew : ~ In (lit "ask_oracle")
                      (labels Demo.model
                              [(lit "search", [Demo.embed (lit "find")])])).
  { intros [H | []]. vm_compute in H. discriminate H. }
  destruct (classify Demo.model [(lit "search", [Demo.embed (lit "find")])]
                     (lit "find the roadmap"))
    as [[l c] | e] eqn:Hrun; [| vm_compute in Hrun; discriminate Hrun].
  destruct (max_sim Demo.model [Demo.embed (lit "project status")]
                    (encode Demo.model (lit "find the roadmap")))
    as [m | e] eqn:Hm; [| vm_compute in Hm; discriminate Hm].
  exists (if Float.gt m c then (lit "ask_oracle", m) else (l, c)).
  exact (classify_with_added_intent
           Demo.model [(lit "search", [Demo.embed (lit "find")])]
           (lit "ask_oracle") [Demo.embed (lit "project status")]
           (lit "find the roadmap") l c m Hnew Hrun Hm).
Defined.

(* ================================================================== *)
(** ** More about the HTTP handlers *)

Lemma loads_raises (s : str) (e : exn) :
  Json.loads s = Raise e -> e = JSONDecodeError.
Proof.
  unfold Json.loads.
  destruct (Json.parse_value (Json.json_fuel s) (Json.skip_ws s))
    as [v r | |]; try congruence.
  destruct (Json.skip_ws r); congruence.
Qed.

(** X10.  A [POST /classify] or [POST /log] whose body is not a JSON
    object is answered with 500 and the message of the exception
    (JSONDecodeError when the body is not JSON, AttributeError when it is
    JSON of another kind); nothing is classified, nothing is logged, the
    state stays as it was. *)
Theorem post_rejects_non_object_body
        (model : SentenceTransformer)
        (classify_nontext : pyval -> result (str * Float.float))
        (exn_message : exn -> str) (path body : str) (w : World model) :
  path = lit "/classify" \/ path = lit "/log" ->
  (forall d, Json.loads body <> Ok (VDict d)) ->
  exists e : exn,
    ((exists e', Json.loads body = Raise e') /\ e = JSONDecodeError
     \/ (exists v, Json.loads body = Ok v) /\ e = AttributeError) /\
    do_POST classify_nontext exn_message path body w
    = {| response := {| status := 500;
                        data := VDict [(lit "error", VStr (exn_message e))] |};
         world := w; classified := [] |}.
Proof.
  intros Hpath Hbody.
  destruct (Json.loads body) as [v | e] eqn:Hloads.
  - exists AttributeError. split; [right; split; [now exists v | reflexivity] |].
    destruct v as [| b | n | f | s | l | d];
      try (destruct Hpath as [-> | ->];
           [rewrite do_POST_classify; unfold handle_classify
           | rewrite do_POST_log; unfold handle_log];
           rewrite Hloads; reflexivity).
    exfalso. now apply (Hbody d).
  - pose proof (loads_raises body e Hloads) as ->.
    exists JSONDecodeError.
    split; [left; split; [now exists JSONDecodeError | reflexivity] |].
    destruct Hpath as [-> | ->];
      [rewrite do_POST_classify; unfold handle_classify
      | rewrite do_POST_log; unfold handle_log];
      rewrite Hloads; reflexivity.
Qed.

Lemma post_rejects_non_object_body_witness :
  exists e : exn,
    ((exists e', Json.loads (lit "[1, 2]") = Raise e') /\ e = JSONDecodeError
     \/ (exists v, Json.loads (lit "[1, 2]") = Ok v) /\ e = AttributeError) /\
    do_POST Demo.classify_nontext Demo.exn_message (lit "/log")
            (lit "[1, 2]") Demo.served
    = {| response := {| status := 500;
                        data := VDict [(lit "error",
                                        VStr (Demo.exn_message e))] |};
         world := Demo.served; classified := [] |}.
Proof.
  assert (H : forall d, Json.loads (lit "[1, 2]") <> Ok (VDict d))
    by (intros d; vm_compute; discriminate).
  exact (post_rejects_non_object_body
           Demo.model Demo.classify_nontext Demo.exn_message
           (lit "/log") (lit "[1, 2]") Demo.served (or_intror eq_refl) H).
Defined.

(** X11.  A [POST /log] whose confidence is no number (text, null, a list
    or an object) is answered with 500 and the message of a TypeError,
    and nothing is written: the state stays as it was. *)
Theorem post_log_rejects_confidence
        (model : SentenceTransformer)
        (classify_nontext : pyval -> result (str * Float.float))
        (exn_message : exn -> str) (self : IntentClassifier model)
        (body : str) (d : list (str * pyval)) (w : World model) :
  the_classifier w = Ok self ->
  Json.loads body = Ok (VDict d) ->
  roundable (dict_get d (lit "confidence") (VInt 0)) = false ->
  do_POST classify_nontext exn_message (lit "/log") body w
  = {| response :=
         {| status := 500;
            data := VDict [(lit "error", VStr (exn_message TypeError))] |};
       world := w; classified := [] |}.
Proof.
  intros Hself Hbody Hconf.
  rewrite do_POST_log. unfold handle_log. rewrite Hbody.
  cbn [bind py_get]. rewrite Hself. cbn [bind]. unfold log_sample.
  destruct (dict_get d (lit "confidence") (VInt 0));
    try discriminate Hconf; reflexivity.
Qed.

Lemma post_log_rejects_confidence_witness :
  do_POST Demo.classify_nontext Demo.exn_message (lit "/log")
          (Json.dumps (VDict [(lit "transcript", VStr (lit "hello"));
                              (lit "confidence", VStr (lit "0.9"))]))
          Demo.served
  = {| response :=
         {| status := 500;
            data := VDict [(lit "error",
                            VStr (Demo.exn_message TypeError))] |};
       world := Demo.served; classified := [] |}.
Proof.
  assert (Hbody : Json.loads
                    (Json.dumps
                       (VDict [(lit "transcript", VStr (lit "hello"));
                               (lit "confidence", VStr (lit "0.9"))]))
                  = Ok (VDict [(lit "transcript", VStr (lit "hello"));
                               (lit "confidence", VStr (lit "0.9"))]))
    by (vm_compute; reflexivity).
  exact (post_log_rejects_confidence
           Demo.model Demo.classify_nontext Demo.exn_message
           (init Demo.model None) _ _ Demo.served eq_refl Hbody eq_refl).
Defined.

(** X12.  [POST /classify] answers 400 "Missing transcript" for every
    object whose transcript is falsy, not only for a missing or empty
    text: null, false, 0, 0.0, an empty list and an empty object are
    refused the same way, and nothing is classified. *)
Theorem post_classify_falsy_transcript
        (model : SentenceTransformer)
        (classify_nontext : pyval -> result (str * Float.float))
        (exn_message : exn -> str) (body : str) (d : list (str * pyval))
        (w : World model) :
  Json.loads body = Ok (VDict d) ->
  truthy (dict_get d (lit "transcript") (VStr [])) = false ->
  do_POST classify_nontext exn_message (lit "/classify") body w
  = {| response := {| status := 400;
                      data := VDict [(lit "error",
                                      VStr (lit "Missing transcript"))] |};
       world := w; classified := [] |}.
Proof.
  intros Hbody Hfalsy.
  rewrite do_POST_classify. unfold handle_classify. rewrite Hbody.
  cbn [bind py_get]. now rewrite Hfalsy.
Qed.

Lemma post_classify_falsy_transcript_witness :
  do_POST Demo.classify_nontext Demo.exn_message (lit "/classify")
          (Json.dumps (VDict [(lit "transcript", VInt 0)])) Demo.served
  = {| response := {| status := 400;
                      data := VDict [(lit "error",
                                      VStr (lit "Missing transcript"))] |};
       world := Demo.served; classified := [] |}.
Proof.
  assert (Hbody : Json.loads (Json.dumps (VDict [(lit "transcript", VInt 0)]))
                  = Ok (VDict [(lit "transcript", VInt 0)]))
    by (vm_compute; reflexivity).
  exact (post_classify_falsy_transcript
           Demo.model Demo.classify_nontext Demo.exn_message
           _ _ Demo.served Hbody eq_refl).
Defined.

Lemma handle_classify_status
      (model : SentenceTransformer)
      (classify_nontext : pyval -> result (str * Float.float))
      (exn_message : exn -> str) (body : str) (w : World model) :
  In (status (response (handle_classify classify_nontext exn_message body w)))
     [200; 400; 500] /\
  world (handle_classify classify_nontext exn_message body w) = w.
Proof.
  unfold handle_classify.
  destruct (b <- Json.loads body ;; py_get b (lit "transcript") (VStr []))
    as [tr | e]; [| cbn; tauto].
  destruct (negb (truthy tr)); [cbn; tauto |].
  destruct (the_classifier w) as [self | e]; [| cbn; tauto].
  destruct (classify_method classify_nontext self tr) as [r | e];
    cbn; tauto.
Qed.



(** X15.  [main] binds the global of the server to the singleton: after
    it both globals hold the same reference.  On a fresh process the
    object behind it is the one built from [--data-root]; when the
    singleton exists already, that object is kept, no object is created
    and the data root given to [main] has no effect. *)
Theorem main_startup_binds_singleton
        (model : SentenceTransformer) (data_root : option str)
        (w : World model) :
  classifier (main_startup data_root w)
  = _classifier (main_startup data_root w) /\
  (_classifier w = None ->
   the_classifier (main_startup data_root w) = Ok (init model data_root) /\
   heap (main_startup data_root w) = heap w ++ [init model data_root]) /\
  (forall r self,
      _classifier w = Some r -> nth_error (heap w) r = Some self ->
      the_classifier (main_startup data_root w) = Ok self /\
      heap (main_startup data_root w) = heap w).
Proof.
  unfold main_startup, get_classifier, the_classifier.
  destruct (_classifier w) as [r |] eqn:E; cbn.
  - split; [now rewrite E |]. split; [discriminate |].
    intros r' self Hr Hobj. injection Hr as <-. now rewrite Hobj.
  - split; [reflexivity |]. split; [| discriminate].
    intros _. rewrite nth_error_app2 by lia.
    now rewrite Nat.sub_diag.
Qed.

(* ================================================================== *)
(** ** What the statistics count *)

Lemma count_cons (f : str -> bool) (line : str) (lines : list str) :
  count f (line :: lines) = int_of_bool (f line) + count f lines.
Proof.
  unfold count. cbn [List.filter]. destruct (f line); cbn [List.length].
  - rewrite Nat2Z.inj_succ. cbn [int_of_bool]. lia.
  - cbn. reflexivity.
Qed.

(** The buckets after one sample with a hashable label. *)
Lemma tally_buckets (label : pyval) (flag : bool)
      (d : list (pyval * bucket)) :
  hashable label = true ->
  let d' := bucket_update label (tally flag)
              (match bucket_lookup label d with
               | None => d ++ [(label, {| b_total := 0; b_correct := 0 |})]
               | Some _ => d
               end) in
  sum_totals d' = sum_totals d + 1 /\
  sum_corrects d' = sum_corrects d + int_of_bool flag /\
  bucket_lookup label d' = Some (tally flag (bucket_of label d)) /\
  (forall k, (forall k', key_eq k' label = true -> key_eq k' k = false) ->
             key_eq label k = false ->
             bucket_lookup k d' = bucket_lookup k d).
Proof.
  intros Hhash. cbv zeta. unfold bucket_of.
  destruct (bucket_lookup label d) as [x |] eqn:E.
  - destruct (bucket_update_found label (tally flag) d x E) as (Ht & Hc & _).
    rewrite Ht, Hc. cbn [tally b_total b_correct].
    split; [lia |]. split; [lia |]. split.
    + now rewrite bucket_lookup_update_same, E.
    + intros k Hk _. now apply bucket_lookup_update_other.
  - rewrite bucket_update_new by (trivial; now apply key_eq_refl).
    rewrite sum_totals_app, sum_corrects_app.
    cbn [sum_totals sum_corrects fold_right snd tally b_total b_correct].
    split; [lia |]. split; [lia |]. split.
    + rewrite bucket_lookup_new, E, key_eq_refl by exact Hhash.
      reflexivity.
    + intros k _ Hk. rewrite bucket_lookup_new, Hk.
      now destruct (bucket_lookup k d).
Qed.

(** What one line adds to each counter and to the bucket of each text
    label. *)
Lemma stats_step_exact (st : counters) (line : str) :
  c_total (stats_step st line) = c_total st + int_of_bool (parseable line) /\
  c_correct (stats_step st line)
  = c_correct st + int_of_bool (line_correct line) /\
  sum_totals (c_by_intent (stats_step st line))
  = sum_totals (c_by_intent st) + int_of_bool (line_bucketed line) /\
  (forall u,
      bucket_lookup (VStr u) (c_by_intent (stats_step st line))
      = if labelled u line
        then Some (tally (line_correct line)
                         (bucket_of (VStr u) (c_by_intent st)))
        else bucket_lookup (VStr u) (c_by_intent st)).
Proof.
  unfold parseable, line_correct, line_bucketed, labelled, line_label,
    line_object.
  destruct (Json.loads line) as [sample | e] eqn:Hline.
  2:{ rewrite (stats_step_skips_unparseable st line e Hline).
      cbn [int_of_bool]. repeat split; lia. }
  destruct sample as [| b | z | f | s | l | d];
    try (unfold stats_step; rewrite Hline; cbn [py_get];
         cbn [c_total c_correct c_by_intent int_of_bool];
         repeat split; lia).
  destruct (hashable (dict_get d (lit "user_label") (VStr (lit "unknown"))))
    eqn:Hhash.
  2:{ unfold stats_step. rewrite Hline. cbn [py_get]. rewrite Hhash.
      cbn [negb].
      destruct (dict_get d (lit "user_label") (VStr (lit "unknown")));
        try discriminate Hhash;
        destruct (truthy (dict_get d (lit "correct") VNone));
        cbn [c_total c_correct c_by_intent int_of_bool];
        repeat split; lia. }
  rewrite (stats_step_object st line d Hline Hhash). cbv zeta.
  cbn [c_total c_correct c_by_intent int_of_bool].
  destruct (tally_buckets
              (dict_get d (lit "user_label") (VStr (lit "unknown")))
              (truthy (dict_get d (lit "correct") VNone))
              (c_by_intent st) Hhash) as (Ht & _ & Hsame & Hother).
  cbv zeta in Ht, Hsame, Hother.
  split; [reflexivity |]. split; [reflexivity |]. split; [exact Ht |].
  intros u.
  destruct (dict_get d (lit "user_label") (VStr (lit "unknown")))
    as [| b | z | f | v | l | d'] eqn:Hlabel;
    try discriminate Hhash;
    try (apply Hother;
         [intros k' Hk';
          destruct (key_eq k' (VStr u)) eqn:Hu; [| reflexivity];
          apply key_eq_str_r in Hu; subst k'; discriminate Hk'
         | reflexivity]).
  destruct (str_eqb v u) eqn:Hvu.
  - apply str_eqb_eq in Hvu. subst v. exact Hsame.
  - apply Hother.
    + intros k' Hk'. apply key_eq_str_r in Hk'. subst k'.
      unfold key_eq. cbn. exact Hvu.
    + unfold key_eq. cbn. exact Hvu.
Qed.

Lemma scan_exact (lines : list str) (st : counters) :
  c_total (List.fold_left stats_step lines st)
  = c_total st + count parseable lines /\
  c_correct (List.fold_left stats_step lines st)
  = c_correct st + count line_correct lines /\
  sum_totals (c_by_intent (List.fold_left stats_step lines st))
  = sum_totals (c_by_intent st) + count line_bucketed lines.
Proof.
  revert st. induction lines as [| line lines IH]; intros st.
  - cbn. repeat split; lia.
  - cbn [List.fold_left]. rewrite !count_cons.
    destruct (IH (stats_step st line)) as (H1 & H2 & H3).
    destruct (stats_step_exact st line) as (S1 & S2 & S3 & _).
    rewrite H1, H2, H3, S1, S2, S3. repeat split; lia.
Qed.

Lemma scan_bucket_exact (u : str) (lines : list str) (st : counters) :
  b_total (bucket_of (VStr u)
                     (c_by_intent (List.fold_left stats_step lines st)))
  = b_total (bucket_of (VStr u) (c_by_intent st)) + count (labelled u) lines /\
  b_correct (bucket_of (VStr u)
                       (c_by_intent (List.fold_left stats_step lines st)))
  = b_correct (bucket_of (VStr u) (c_by_intent st))
    + count (fun l => labelled u l && line_correct l) lines.
Proof.
  revert st. induction lines as [| line lines IH]; intros st.
  - cbn. split; lia.
  - cbn [List.fold_left]. rewrite !count_cons.
    destruct (IH (stats_step st line)) as (H1 & H2). rewrite H1, H2.
    destruct (stats_step_exact st line) as (_ & _ & _ & Hb).
    unfold bucket_of at 1 3. rewrite (Hb u).
    destruct (labelled u line); cbn [andb int_of_bool].
    + cbn [tally b_total b_correct]. split; lia.
    + fold (bucket_of (VStr u) (c_by_intent st)). split; lia.
Qed.

(** X16.  What [get_training_stats] counts, exactly: [total] is the
    number of lines of the log that [json.loads] accepts, objects or not;
    the accuracy is the rounded share of the lines that hold an object
    with a truthy [correct] among them; and the buckets of [by_intent]
    together hold the lines that are objects with a hashable label. *)
Theorem training_stats_counts
        (model : SentenceTransformer) (self : IntentClassifier model)
        (w : World model) :
  total (get_training_stats self w)
  = count parseable (file_lines (log_text self w)) /\
  accuracy (get_training_stats self w)
  = (if 0 <? count parseable (file_lines (log_text self w))
     then VFloat (Float.round
                    (Float.truediv
                       (count line_correct (file_lines (log_text self w)))
                       (count parseable (file_lines (log_text self w)))) 3)
     else VInt 0) /\
  sum_totals (by_intent (get_training_stats self w))
  = count line_bucketed (file_lines (log_text self w)).
Proof.
  destruct (training_stats_scan model self w) as (Htot & Hby & Hacc).
  cbv zeta in *. rewrite Htot, Hby, Hacc. unfold scan_log.
  destruct (scan_exact (file_lines (log_text self w)) counters0)
    as (H1 & H2 & H3).
  cbn [counters0 c_total c_correct c_by_intent sum_totals fold_right]
    in H1, H2, H3.
  rewrite H1, H2, H3. repeat split.
Qed.

(** X17.  For every text label, the bucket of [by_intent] holds exactly
    the lines of the log that are objects with this label (a missing
    user_label reading as "unknown"), its [correct] counts those of them
    whose [correct] is truthy, and the label has no bucket exactly when
    no line carries it. *)
Theorem training_stats_bucket_counts
        (model : SentenceTransformer) (self : IntentClassifier model)
        (w : World model) (u : str) :
  b_total (bucket_of (VStr u) (by_intent (get_training_stats self w)))
  = count (labelled u) (file_lines (log_text self w)) /\
  b_correct (bucket_of (VStr u) (by_intent (get_training_stats self w)))
  = count (fun l => labelled u l && line_correct l)
          (file_lines (log_text self w)) /\
  (bucket_lookup (VStr u) (by_intent (get_training_stats self w)) = None
   <-> count (labelled u) (file_lines (log_text self w)) = 0).
Proof.
  destruct (training_stats_scan model self w) as (_ & Hby & _).
  cbv zeta in *. rewrite Hby. unfold scan_log.
  destruct (scan_bucket_exact u (file_lines (log_text self w)) counters0)
    as (H1 & H2).
  cbn [counters0 c_by_intent] in H1, H2.
  unfold bucket_of at 2 in H1. unfold bucket_of at 2 in H2.
  cbn [bucket_lookup b_total b_correct] in H1, H2.
  rewrite Z.add_0_l in H1, H2.
  split; [exact H1 |]. split; [exact H2 |].
  rewrite <- H1.
  destruct (scan_log_ok (log_text self w)) as (_ & _ & _ & _ & Hall).
  unfold scan_log in Hall. unfold bucket_of.
  destruct (bucket_lookup (VStr u) _) as [x |] eqn:E.
  - split; [discriminate |]. intros Hx. exfalso.
    assert (Hok : bucket_ok x).
    { clear - E Hall. revert E Hall.
      generalize (c_by_intent
                    (fold_left stats_step (file_lines (log_text self w))
                               counters0)).
      intros l. induction l as [| [k b] l IH]; [discriminate |].
      cbn [bucket_lookup]. intros E Hall.
      inversion Hall as [| ? ? Hb Hrest]; subst.
      destruct (key_eq k (VStr u)).
      - injection E as <-. exact Hb.
      - now apply IH. }
    unfold bucket_ok in Hok. lia.
  - split; reflexivity.
Qed.

(* ================================================================== *)
(** ** A log whose last line is incomplete *)







(* ================================================================== *)
(** ** The server once [main] has run *)

(** X19.  Once [main] has bound the classifier on a fresh process, a
    [POST /classify] whose body [json.loads] reads as an object with a
    non-empty text as transcript reaches [classify] with a bound
    classifier whose intents all have examples: the encoder having
    returned, the answer is 200 with one of the seven seed intents and its
    positive score, or with "unknown" and 0.0, the confidence rounded to
    4 decimal places; the transcript is classified once and the state
    stays as it was. *)
Theorem served_classify_answers
        (model : SentenceTransformer)
        (classify_nontext : pyval -> result (str * Float.float))
        (exn_message : exn -> str) (data_root : option str)
        (body : str) (d : list (str * pyval)) (t : str) (w0 : World model) :
  _classifier w0 = None ->
  Json.loads body = Ok (VDict d) ->
  dict_lookup (lit "transcript") d = Some (VStr t) ->
  t <> [] ->
  exists (l : str) (c : Float.float),
    do_POST classify_nontext exn_message (lit "/classify") body
            (main_startup data_root w0)
    = {| response :=
           {| status := 200;
              data := VDict [ (lit "intent", VStr l);
                              (lit "confidence",
                               VFloat (Float.round c 4)) ] |};
         world := main_startup data_root w0;
         classified := [VStr t] |} /\
    classify model (example_embeddings (init model data_root)) t
    = Ok (l, c) /\
    ((In l (List.map lit ["add_wish"; "log_issue"; "log_friction";
                          "log_crit"; "record_learning"; "search";
                          "ask_oracle"]%string)
      /\ Float.gt c Float.zero = true)
     \/ (l = lit "unknown" /\ c = Float.zero)).
Proof.
  intros Hnone Hbody Ht Hne.
  destruct (classify_spec model (example_embeddings (init model data_root)) t
                          (init_has_examples model data_root))
    as (l & c & Hrun & Hcases).
  exists l, c. split; [| split; [exact Hrun |]].
  - rewrite do_POST_classify. unfold handle_classify. rewrite Hbody.
    cbn [bind py_get]. unfold dict_get. rewrite Ht.
    destruct t as [| x t]; [congruence |]. cbn [truthy negb].
    rewrite (main_startup_ready model data_root w0 Hnone).
    cbn [classify_method]. rewrite Hrun. reflexivity.
  - destruct Hcases as [(-> & -> & _) | (i & rows & Hnth & _ & Hgt & _)];
      [now right | left].
    split; [| exact Hgt].
    apply nth_error_In in Hnth. apply (in_map fst) in Hnth. exact Hnth.
Qed.

Lemma served_classify_answers_witness :
  exists (l : str) (c : Float.float),
    do_POST Demo.classify_nontext Demo.exn_message (lit "/classify")
            Demo.hello_body (main_startup None Demo.boot)
    = {| response :=
           {| status := 200;
              data := VDict [ (lit "intent", VStr l);
                              (lit "confidence",
                               VFloat (Float.round c 4)) ] |};
         world := main_startup None Demo.boot;
         classified := [VStr (lit "hello")] |} /\
    classify Demo.model (example_embeddings (init Demo.model None))
             (lit "hello")
    = Ok (l, c) /\
    ((In l (List.map lit ["add_wish"; "log_issue"; "log_friction";
                          "log_crit"; "record_learning"; "search";
                          "ask_oracle"]%string)
      /\ Float.gt c Float.zero = true)
     \/ (l = lit "unknown" /\ c = Float.zero)).
Proof.
  assert (Hbody : Json.loads Demo.hello_body = Ok (VDict Demo.hello))
    by (vm_compute; reflexivity).
  assert (Hne : lit "hello" <> []) by discriminate.
  exact (served_classify_answers
           Demo.model Demo.classify_nontext Demo.exn_message None
           Demo.hello_body Demo.hello (lit "hello") Demo.boot
           eq_refl Hbody eq_refl Hne).
Defined.

(* ================================================================== *)
(** ** The request log *)

Lemma starts_with_spec (sub s : str) :
  starts_with sub s = true <-> exists y, s = sub ++ y.
Proof.
  revert s. induction sub as [| a sub IH]; intros s.
  - cbn. split; [intros _; now exists s | reflexivity].
  - destruct s as [| b s]; cbn [starts_with app].
    + split; [discriminate | intros (y & H); discriminate H].
    + unfold char_eqb. rewrite andb_true_iff, N.eqb_eq, IH. split.
      * intros (-> & y & ->). now exists y.
      * intros (y & H). injection H as -> ->. split; [reflexivity |].
        now exists y.
Qed.

Lemma contains_spec (sub s : str) :
  contains sub s = true <-> exists x y, s = x ++ sub ++ y.
Proof.
  induction s as [| c s IH]; cbn [contains]; rewrite orb_true_iff.
  - split.
    + intros [H | H]; [| discriminate].
      apply starts_with_spec in H. destruct H as (y & H).
      now exists [], y.
    + intros (x & y & H). left. apply starts_with_spec.
      destruct x; [now exists y | discriminate H].
  - rewrite IH. split.
    + intros [H | (x & y & ->)].
      * apply starts_with_spec in H. destruct H as (y & H).
        now exists [], y.
      * now exists (c :: x), y.
    + intros (x & y & H). destruct x as [| c' x].
      * left. apply starts_with_spec. now exists y.
      * right. injection H as -> ->. now exists x, y.
Qed.

(** X20.  [log_message] prints nothing for a request line that contains
    [/health] anywhere, be it in the path of another endpoint or in a
    query string, and prints every other request line once, behind the
    prefix of the service. *)
Theorem log_message_mutes_health (arg0 : str) :
  ((exists x y, arg0 = x ++ lit "/health" ++ y) -> log_message arg0 = []) /\
  (~ (exists x y, arg0 = x ++ lit "/health" ++ y) ->
   log_message arg0 = [lit "[intent-classifier] " ++ arg0]).
Proof.
  unfold log_message.
  destruct (contains (lit "/health") arg0) eqn:E; cbn [negb].
  - split; [reflexivity |]. intros H. exfalso. apply H.
    now apply contains_spec.
  - split; [| reflexivity]. intros H. apply contains_spec in H. congruence.
Qed.

Lemma log_message_mutes_health_witness :
  log_message (lit "POST /log?from=/health HTTP/1.1") = [].
Proof.
  exact (proj1 (log_message_mutes_health
                  (lit "POST /log?from=/health HTTP/1.1"))
               (ex_intro _ (lit "POST /log?from=")
                         (ex_intro _ (lit " HTTP/1.1") eq_refl))).
Defined.

(* ================================================================== *)
(** ** When a request succeeds *)

(** X21.  A 200 from [POST /log] means that [json.loads] read the body as
    an object, that its confidence (0 when absent) is an int, a float or
    a bool, and that the classifier is bound; any other answer of
    [POST /log] is 500.  A 400 from [POST /classify] means that the body
    was read as an object whose transcript is falsy or absent; a 200 means
    that the body was read as an object with a truthy transcript, that the
    classifier is bound and that [classify] returned; [POST /classify]
    answers with nothing but 200, 400 and 500. *)
Theorem post_status_characterised
        (model : SentenceTransformer)
        (classify_nontext : pyval -> result (str * Float.float))
        (exn_message : exn -> str) (body : str) (w : World model) :
  (status (response (do_POST classify_nontext exn_message (lit "/log")
                             body w)) = 200
   -> exists d self,
        Json.loads body = Ok (VDict d) /\
        roundable (dict_get d (lit "confidence") (VInt 0)) = true /\
        the_classifier w = Ok self) /\
  (status (response (do_POST classify_nontext exn_message (lit "/log")
                             body w)) <> 200 ->
   status (response (do_POST classify_nontext exn_message (lit "/log")
                             body w)) = 500) /\
  (status (response (do_POST classify_nontext exn_message (lit "/classify")
                             body w)) = 400
   -> exists d,
        Json.loads body = Ok (VDict d) /\
        truthy (dict_get d (lit "transcript") (VStr [])) = false) /\
  (status (response (do_POST classify_nontext exn_message (lit "/classify")
                             body w)) = 200
   -> exists d self r,
        Json.loads body = Ok (VDict d) /\
        truthy (dict_get d (lit "transcript") (VStr [])) = true /\
        the_classifier w = Ok self /\
        classify_method classify_nontext self
                        (dict_get d (lit "transcript") (VStr [])) = Ok r) /\
  In (status (response (do_POST classify_nontext exn_message
                                (lit "/classify") body w)))
     [200; 400; 500].
Proof.
  rewrite do_POST_log, do_POST_classify.
  split; [| split; [| split; [| split]]].
  - unfold handle_log.
    destruct (Json.loads body) as [b | e]; cbn [bind]; [| discriminate].
    destruct b as [| b | n | f | s | l | d]; cbn [py_get bind];
      try discriminate.
    destruct (the_classifier w) as [self | e]; cbn [bind]; [| discriminate].
    unfold log_sample.
    destruct (dict_get d (lit "confidence") (VInt 0)) eqn:Hc;
      cbn [py_round bind roundable response status];
      try discriminate;
      intros _; exists d, self; rewrite Hc; now repeat split.
  - unfold handle_log.
    destruct (Json.loads body) as [b | e]; cbn [bind]; [| reflexivity].
    destruct b as [| b | n | f | s | l | d]; cbn [py_get bind];
      try reflexivity.
    destruct (the_classifier w) as [self | e]; cbn [bind]; [| reflexivity].
    unfold log_sample.
    destruct (py_round (dict_get d (lit "confidence") (VInt 0)) 4);
      cbn [bind response status]; [congruence | reflexivity].
  - unfold handle_classify.
    destruct (Json.loads body) as [b | e]; cbn [bind]; [| discriminate].
    destruct b as [| b | n | f | s | l | d]; cbn [py_get bind];
      try discriminate.
    destruct (truthy (dict_get d (lit "transcript") (VStr []))) eqn:Ht;
      cbn [negb].
    + destruct (the_classifier w) as [self | e]; [| discriminate].
      destruct (classify_method classify_nontext self _); discriminate.
    + intros _. now exists d.
  - unfold handle_classify.
    destruct (Json.loads body) as [b | e]; cbn [bind]; [| discriminate].
    destruct b as [| b | n | f | s | l | d]; cbn [py_get bind];
      try discriminate.
    destruct (truthy (dict_get d (lit "transcript") (VStr []))) eqn:Ht;
      cbn [negb]; [| discriminate].
    destruct (the_classifier w) as [self | e]; [| discriminate].
    destruct (classify_method classify_nontext self
                (dict_get d (lit "transcript") (VStr []))) as [r | e] eqn:Hr;
      [| discriminate].
    intros _. exists d, self, r. now repeat split.
  - apply handle_classify_status.
Qed.
